(** * Multi-agent controllers and training loop of the SUMO longitudinal
    controller: a shallow embedding of [agent_system.py] and [run.py].

    Python objects become records, dictionaries keyed by agent id become
    [gmap string _], and a method becomes a computation in a small monad
    that threads the mutated object, may raise a Python exception, and
    records the calls made on external collaborators (learners, the
    environment, loggers, the file system). *)

From stdpp Require Import base strings list gmap pretty.
From Stdlib Require Import Ascii ZArith QArith.

Close Scope Q_scope.
Local Open Scope Z_scope.

(** ** Python values used by the controllers *)

(** A raised exception: its class name and its message. *)
Record pyexn := PyExn { exn_class : string; exn_msg : string }.

Definition KeyError (k : string) : pyexn := PyExn "KeyError" k.
Definition IndexError (m : string) : pyexn := PyExn "IndexError" m.
Definition AttributeError (m : string) : pyexn := PyExn "AttributeError" m.
Definition TypeError (m : string) : pyexn := PyExn "TypeError" m.
Definition FileNotFoundError (p : string) : pyexn := PyExn "FileNotFoundError" p.
Definition ZeroDivisionError (m : string) : pyexn := PyExn "ZeroDivisionError" m.
Definition RuntimeError (m : string) : pyexn := PyExn "RuntimeError" m.
Definition Exception (m : string) : pyexn := PyExn "Exception" m.

(** The scalars that flow through [done] and [done_no_max]: the
    environment's boolean, [float(done)], and the literal [0]. *)
Inductive pyscalar :=
  | PyBool (b : bool)
  | PyInt (z : Z)
  | PyFloat (q : Q).

(** Truth value of a scalar, as [if x:] and [not x] see it. *)
Definition py_truth (v : pyscalar) : bool :=
  match v with
  | PyBool b => b
  | PyInt z => negb (z =? 0)
  | PyFloat q => negb (Qeq_bool q (0 # 1))
  end.

Definition py_not (v : pyscalar) : bool := negb (py_truth v).

(** [float(b)] for a boolean [b]. *)
Definition py_float (b : bool) : pyscalar :=
  PyFloat (if b then 1 # 1 else 0 # 1).

(** [os.path.join a b] on a POSIX system. *)
Definition ends_with_slash (s : string) : bool :=
  match last (String.list_ascii_of_string s) with
  | Some c => Ascii.eqb c "/"%char
  | None => false
  end.

Definition path_join (a b : string) : string :=
  if String.prefix "/" b then b
  else if String.eqb a "" || ends_with_slash a then a +:+ b
  else a +:+ "/" +:+ b.

(** Who an external call is made on. *)
Inductive learner_ref := AgentOf (a : string) | SharedAgent.
Inductive buffer_ref := BufferOf (a : string) | SharedBuffer.

(** A logger is identified by the agent id it was built with. *)
Record Logger := { logger_agent_id : string }.

(** Result of running a method: a value, a raised exception, or a loop
    that did not finish within the iterations it was given. *)
Inductive outcome (A : Type) :=
  | Ret (a : A)
  | Raise (e : pyexn)
  | OutOfFuel.
Arguments Ret {A} a.
Arguments Raise {A} e.
Arguments OutOfFuel {A}.

Section Model.

(** Observations, actions and rewards are numpy values; the code only
    moves them around. *)
Context {Obs Action Reward : Type}.

(** ** Calls on external collaborators *)

Inductive log_value :=
  | LV_reward (r : Reward)
  | LV_episode (q : Q)
  | LV_duration.

Inductive event :=
  (* learner: [model.train(flag)], [act], [update], [reset] *)
  | Ev_train (l : learner_ref) (flag : bool)
  | Ev_act (l : learner_ref) (o : Obs) (sample : bool)
  | Ev_update (l : learner_ref) (b : buffer_ref) (lg : Logger) (step : Z)
  | Ev_agent_reset (l : learner_ref)
  (* controller methods, as called from the workspace *)
  | Call_reset
  | Call_act (sample : bool) (mode : option string)
  | Call_update (step : Z)
  | Call_add_to_buffer (done done_no_max : pyscalar)
  | Call_save_checkpoint (dir : string) (step : Z)
  | Call_load_checkpoint (args : list string)
  (* environment *)
  | Env_reset
  | Env_step (actions : gmap string Action)
  | Env_sample (a : string)
  (* logger and video recorder *)
  | Log (lg : Logger) (key : string) (v : log_value) (step : Z)
  | Dump (lg : Logger) (step : Z) (save : option bool)
  | Video_init (enabled : bool)
  | Video_record
  | Video_save (name : string)
  (* standard output and directories *)
  | Stdout (s : string)
  | Mkdir (p : string).

(** ** The monad of methods

    A method runs on the object it mutates. Mutations made before an
    exception is raised stay, as in Python. *)
Definition M (S A : Type) : Type := S → outcome A * S * list event.

Definition ret {S A} (a : A) : M S A := λ s, (Ret a, s, []).

Definition bind {S A B} (m : M S A) (f : A → M S B) : M S B :=
  λ s, match m s with
       | (Ret a, s1, t1) =>
           match f a s1 with
           | (r, s2, t2) => (r, s2, t1 ++ t2)
           end
       | (Raise e, s1, t1) => (Raise e, s1, t1)
       | (OutOfFuel, s1, t1) => (OutOfFuel, s1, t1)
       end.

Definition raise {S A} (e : pyexn) : M S A := λ s, (Raise e, s, []).
Definition out_of_fuel {S A} : M S A := λ s, (OutOfFuel, s, []).
Definition emit {S} (ev : event) : M S unit := λ s, (Ret tt, s, [ev]).
Definition get {S} : M S S := λ s, (Ret s, s, []).
Definition gets {S A} (f : S → A) : M S A := λ s, (Ret (f s), s, []).
Definition put {S} (s : S) : M S unit := λ _, (Ret tt, s, []).
Definition modify {S} (f : S → S) : M S unit := λ s, (Ret tt, f s, []).

(** Run a method of a sub-object. *)
Definition zoom {S T A} (g : S → T) (p : T → S → S) (m : M T A) : M S A :=
  λ s, match m (g s) with
       | (r, t1, tr) => (r, p t1 s, tr)
       end.

(** [try: m finally: h], the shape of a [with] block. *)
Definition finally {S A} (m : M S A) (h : M S unit) : M S A :=
  λ s, match m s with
       | (r, s1, t1) =>
           match h s1 with
           | (Ret _, s2, t2) => (r, s2, t1 ++ t2)
           | (Raise e, s2, t2) => (Raise e, s2, t1 ++ t2)
           | (OutOfFuel, s2, t2) => (OutOfFuel, s2, t1 ++ t2)
           end
       end.


Declare Scope py_scope.
Delimit Scope py_scope with py.
Notation "x <- m ;; k" := (bind m (λ x, k))
  (at level 100, m at next level, right associativity) : py_scope.
Notation "m ;; k" := (bind m (λ _, k))
  (at level 100, right associativity) : py_scope.
Local Open Scope py_scope.

Definition for_each {S X} (l : list X) (body : X → M S unit) : M S unit :=
  foldr (λ x k, bind (body x) (λ _, k)) (ret tt) l.

(** A [for] loop that builds a local value. *)
Fixpoint for_in {S X A} (l : list X) (acc : A) (body : X → A → M S A)
    : M S A :=
  match l with
  | [] => ret acc
  | x :: l' => bind (body x acc) (λ acc', for_in l' acc' body)
  end.

(** [d[k]] on a dictionary. *)
Definition dict_get {S V} (d : gmap string V) (k : string) : M S V :=
  match d !! k with
  | Some v => ret v
  | None => raise (KeyError k)
  end.

(** [a[i]] on an array, for [i >= 0]. *)
Definition array_get {S V} (a : list V) (i : nat) : M S V :=
  match a !! i with
  | Some v => ret v
  | None => raise (IndexError "index out of bounds for axis 0")
  end.

(** ** Transition store ([replay_buffer.ReplayBuffer]) *)

(** Modelled from the spec: the [ReplayBuffer] class lives in
    [replay_buffer.py], which is not among the sources. The spec gives
    it preallocated parallel arrays of length capacity, a write cursor
    starting at 0 and a [full] flag; the array attribute names are the
    ones [save_checkpoint] reads. The flag arrays hold [not done]. *)
Record ReplayBuffer := {
  capacity : nat;
  obses : list Obs;
  next_obses : list Obs;
  actions : list Action;
  rewards : list Reward;
  not_dones : list bool;
  not_dones_no_max : list bool;
  idx : nat;
  full : bool
}.

(** One row across the parallel arrays. *)
Record Row := {
  r_obs : Obs;
  r_next_obs : Obs;
  r_action : Action;
  r_reward : Reward;
  r_not_done : bool;
  r_not_done_no_max : bool
}.

(** Modelled from the spec: a new store preallocates its arrays; the spec
    does not say what they hold before the first write, so the content
    of the fresh memory is an argument ([blank i] is slot [i]). *)
Definition ReplayBuffer_new (cap : nat) (blank : nat → Row) : ReplayBuffer :=
  {| capacity := cap;
     obses := (λ i, r_obs (blank i)) <$> seq 0 cap;
     next_obses := (λ i, r_next_obs (blank i)) <$> seq 0 cap;
     actions := (λ i, r_action (blank i)) <$> seq 0 cap;
     rewards := (λ i, r_reward (blank i)) <$> seq 0 cap;
     not_dones := (λ i, r_not_done (blank i)) <$> seq 0 cap;
     not_dones_no_max := (λ i, r_not_done_no_max (blank i)) <$> seq 0 cap;
     idx := 0;
     full := false |}.

(** Modelled from the spec: [add] writes into the current cursor slot,
    advances the cursor modulo capacity, and sets [full] the first time
    the cursor wraps. It has no error conditions. *)
Definition ReplayBuffer_add (b : ReplayBuffer) (obs : Obs) (action : Action)
    (reward : Reward) (next_obs : Obs) (done done_no_max : pyscalar)
    : ReplayBuffer :=
  let i := idx b in
  let i' := ((i + 1) `mod` capacity b)%nat in
  {| capacity := capacity b;
     obses := <[i := obs]> (obses b);
     next_obses := <[i := next_obs]> (next_obses b);
     actions := <[i := action]> (actions b);
     rewards := <[i := reward]> (rewards b);
     not_dones := <[i := py_not done]> (not_dones b);
     not_dones_no_max := <[i := py_not done_no_max]> (not_dones_no_max b);
     idx := i';
     full := full b || (i' =? 0)%nat |}.

(** Modelled from the spec: [size] is the capacity once full, the cursor
    before. *)
Definition ReplayBuffer_len (b : ReplayBuffer) : nat :=
  if full b then capacity b else idx b.

(** ** Agent adapter (the learner built by [hydra.utils.instantiate]) *)

Inductive optimizer := critic_optimizer | actor_optimizer | log_alpha_optimizer.

Context {Core Params Optim Range : Type}.

(** A learner object: the [training] attribute of a torch module and
    the rest of its state. *)
Record Learner := { training : bool; core : Core }.

(** The learning algorithm is an external collaborator: its state
    [Core], its exported parameters and optimizer states, and what its
    methods compute are left open. [instantiate obs_dim action_dim
    action_range] builds a learner from the three parameters the
    constructors set; the argument [bool] of [agent_act] and
    [agent_update] is the module's [training] attribute. *)
Class Learning := {
  instantiate : Z → Z → Range → Learner;
  agent_act : bool → Core → Obs → bool → Action * Core;
  agent_update : bool → Core → ReplayBuffer → Logger → Z → Core;
  agent_reset : Core → Core;
  state_dict : Core → Params;
  load_state_dict : Params → Core → Core;
  optimizer_state_dict : optimizer → Core → Optim;
  optimizer_load_state_dict : optimizer → Optim → Core → Core
}.

Context `{!Learning}.

(** [model.train(flag)] *)
Definition Learner_train (me : learner_ref) (flag : bool) : M Learner unit :=
  emit (Ev_train me flag) ;;
  modify (λ l, {| training := flag; core := core l |}).

(** [model.act(obs, sample)] *)
Definition Learner_act (me : learner_ref) (o : Obs) (sample : bool)
    : M Learner Action :=
  emit (Ev_act me o sample) ;;
  l <- get ;;
  let '(a, c) := agent_act (training l) (core l) o sample in
  put {| training := training l; core := c |} ;;
  ret a.

(** [model.update(replay_buffer, logger, step)] *)
Definition Learner_update (me : learner_ref) (bref : buffer_ref)
    (b : ReplayBuffer) (lg : Logger) (step : Z) : M Learner unit :=
  emit (Ev_update me bref lg step) ;;
  modify (λ l, {| training := training l;
                  core := agent_update (training l) (core l) b lg step |}).

(** [model.reset()] *)
Definition Learner_reset (me : learner_ref) : M Learner unit :=
  emit (Ev_agent_reset me) ;;
  modify (λ l, {| training := training l; core := agent_reset (core l) |}).

(** [model.load_state_dict(params)] *)
Definition Learner_load_state_dict (p : Params) : M Learner unit :=
  modify (λ l, {| training := training l; core := load_state_dict p (core l) |}).

(** [model.<optimizer>.load_state_dict(st)] *)
Definition Learner_optimizer_load (o : optimizer) (st : Optim) : M Learner unit :=
  modify (λ l, {| training := training l;
                  core := optimizer_load_state_dict o st (core l) |}).

(** ** Scoped mode switching ([utils.eval_mode], [utils.train_mode]) *)

(** Modelled from the spec: [utils.py] is not among the sources. The
    spec asks that the adapter be placed in the requested behaviour
    before the block and that its prior behaviour be restored after it
    (scoped acquisition and release). [on_model] runs a method on the
    module the [with] statement was given. *)
Definition with_mode {S A} (flag : bool) (me : learner_ref)
    (on_model : ∀ B, M Learner B → M S B) (body : M S A) : M S A :=
  prev <- on_model _ (gets training) ;;
  on_model _ (Learner_train me flag) ;;
  finally body (on_model _ (Learner_train me prev)).

Definition eval_mode {S A} := @with_mode S A false.
Definition train_mode {S A} := @with_mode S A true.


(** ** Checkpoint files *)

(** The dictionary under ['optims'] for one learner. *)
Record optim_states := {
  os_critic : Optim;
  os_actor : Optim;
  os_alpha : Optim
}.

(** ['models'] and ['optims'] of [checkpoint.pt]: keyed by agent id when
    written by the individual variant, a single entry when written by
    the shared one. *)
Inductive models_blob :=
  | Models_per_agent (m : gmap string Params)
  | Models_single (p : Params).

Inductive optims_blob :=
  | Optims_per_agent (m : gmap string optim_states)
  | Optims_single (o : optim_states).

Record torch_state := {
  ts_step : Z;
  ts_models : models_blob;
  ts_optims : optims_blob
}.

(** The six named arrays of an [.npz] archive. *)
Record npz := {
  npz_obses : list Obs;
  npz_next_obses : list Obs;
  npz_actions : list Action;
  npz_rewards : list Reward;
  npz_not_dones : list bool;
  npz_not_dones_no_max : list bool
}.

Inductive file :=
  | Pt_file (st : torch_state)
  | Npz_file (data : npz).

(** The file system: path to content. Directories are not tracked. *)
Abbreviation filesystem := (gmap string file).

Definition on_self {C A} (m : M C A) : M (C * filesystem) A :=
  zoom fst (λ c s, (c, s.2)) m.

(** [torch.load(path, map_location=device)] *)
Definition torch_load {C} (path device : string) : M (C * filesystem) torch_state :=
  fs <- gets snd ;;
  match fs !! path with
  | Some (Pt_file st) => ret st
  | Some (Npz_file _) => raise (PyExn "UnpicklingError" path)
  | None => raise (FileNotFoundError path)
  end.

(** [torch.save(state, path)] *)
Definition torch_save {C} (st : torch_state) (path : string)
    : M (C * filesystem) unit :=
  modify (λ s, (s.1, <[path := Pt_file st]> s.2)).

(** [np.load(path)] *)
Definition np_load {C} (path : string) : M (C * filesystem) npz :=
  fs <- gets snd ;;
  match fs !! path with
  | Some (Npz_file d) => ret d
  | Some (Pt_file _) => raise (PyExn "ValueError" path)
  | None => raise (FileNotFoundError path)
  end.

(** [np.savez(path, obses=..., ...)] with the arrays of a store. *)
Definition np_savez {C} (path : string) (b : ReplayBuffer)
    : M (C * filesystem) unit :=
  modify (λ s, (s.1, <[path := Npz_file
    {| npz_obses := obses b;
       npz_next_obses := next_obses b;
       npz_actions := actions b;
       npz_rewards := rewards b;
       npz_not_dones := not_dones b;
       npz_not_dones_no_max := not_dones_no_max b |}]> s.2)).

(** Row [i] of an archive, read array by array in the order the
    loaders do. *)
Definition npz_row {S} (data : npz) (i : nat) : M S Row :=
  obs <- array_get (npz_obses data) i ;;
  next_obs <- array_get (npz_next_obses data) i ;;
  action <- array_get (npz_actions data) i ;;
  reward <- array_get (npz_rewards data) i ;;
  not_done <- array_get (npz_not_dones data) i ;;
  not_done_no_max <- array_get (npz_not_dones_no_max data) i ;;
  ret {| r_obs := obs; r_next_obs := next_obs; r_action := action;
         r_reward := reward; r_not_done := not_done;
         r_not_done_no_max := not_done_no_max |}.

(** The archive whose arrays are the columns of a list of rows. *)
Definition npz_of_rows (rows : list Row) : npz :=
  {| npz_obses := r_obs <$> rows;
     npz_next_obses := r_next_obs <$> rows;
     npz_actions := r_action <$> rows;
     npz_rewards := r_reward <$> rows;
     npz_not_dones := r_not_done <$> rows;
     npz_not_dones_no_max := r_not_done_no_max <$> rows |}.

(** Writing a row as it is at the cursor of a store. *)
Definition write_row (b : ReplayBuffer) (r : Row) : ReplayBuffer :=
  let i := idx b in
  let i' := ((i + 1) `mod` capacity b)%nat in
  {| capacity := capacity b;
     obses := <[i := r_obs r]> (obses b);
     next_obses := <[i := r_next_obs r]> (next_obses b);
     actions := <[i := r_action r]> (actions b);
     rewards := <[i := r_reward r]> (rewards b);
     not_dones := <[i := r_not_done r]> (not_dones b);
     not_dones_no_max := <[i := r_not_done_no_max r]> (not_dones_no_max b);
     idx := i';
     full := full b || (i' =? 0)%nat |}.

(** The store whose arrays are the columns of a list of rows. *)
Definition buffer_of_rows (rows : list Row) (i : nat) (f : bool)
    : ReplayBuffer :=
  {| capacity := length rows;
     obses := r_obs <$> rows;
     next_obses := r_next_obs <$> rows;
     actions := r_action <$> rows;
     rewards := r_reward <$> rows;
     not_dones := r_not_done <$> rows;
     not_dones_no_max := r_not_done_no_max <$> rows;
     idx := i;
     full := f |}.

(** The row [add] writes for a transition. *)
Definition row_of_transition (obs : Obs) (action : Action) (reward : Reward)
    (next_obs : Obs) (done done_no_max : pyscalar) : Row :=
  {| r_obs := obs; r_next_obs := next_obs; r_action := action;
     r_reward := reward; r_not_done := py_not done;
     r_not_done_no_max := py_not done_no_max |}.

(** The [add] call of the loaders on a row read back:
    [done=not not_done, done_no_max=not not_done_no_max]. *)
Definition replay_row (b : ReplayBuffer) (r : Row) : ReplayBuffer :=
  ReplayBuffer_add b (r_obs r) (r_action r) (r_reward r) (r_next_obs r)
    (PyBool (negb (r_not_done r))) (PyBool (negb (r_not_done_no_max r))).

(** ** [IndividualMultiAgent] *)

Record IndividualMultiAgent := {
  i_agent_ids : list string;
  i_device : string;
  i_mode : string;
  i_replay_buffers : gmap string ReplayBuffer;
  i_agents : gmap string Learner
}.

Definition i_set_agents (f : gmap string Learner → gmap string Learner)
    (self : IndividualMultiAgent) : IndividualMultiAgent :=
  {| i_agent_ids := i_agent_ids self; i_device := i_device self;
     i_mode := i_mode self; i_replay_buffers := i_replay_buffers self;
     i_agents := f (i_agents self) |}.

Definition i_set_replay_buffers
    (f : gmap string ReplayBuffer → gmap string ReplayBuffer)
    (self : IndividualMultiAgent) : IndividualMultiAgent :=
  {| i_agent_ids := i_agent_ids self; i_device := i_device self;
     i_mode := i_mode self; i_replay_buffers := f (i_replay_buffers self);
     i_agents := i_agents self |}.

(** A method of [self.agents[agent]]. *)
Definition i_on_agent (agent : string) (B : Type) (m : M Learner B)
    : M IndividualMultiAgent B :=
  λ self, match i_agents self !! agent with
          | None => (Raise (KeyError agent), self, [])
          | Some l =>
              match m l with
              | (r, l', t) => (r, i_set_agents <[agent := l']> self, t)
              end
          end.
Arguments i_on_agent agent {B} m.

(** [shape[0]] *)
Definition shape0 {S} (shape : list Z) : M S Z :=
  match shape with
  | d :: _ => ret d
  | [] => raise (IndexError "tuple index out of range")
  end.

Definition IndividualMultiAgent_init {S} (agent_ids : list string)
    (obs_spaces act_spaces : gmap string (list Z))
    (act_ranges : gmap string Range) (replay_buffer_cap : nat)
    (device mode : string) (blank : string → nat → Row)
    : M S IndividualMultiAgent :=
  built <- for_in agent_ids (∅, ∅) (λ agent acc,
    obs_shape <- dict_get obs_spaces agent ;;
    obs_dim <- shape0 obs_shape ;;
    act_shape <- dict_get act_spaces agent ;;
    action_dim <- shape0 act_shape ;;
    action_range <- dict_get act_ranges agent ;;
    ret (<[agent := ReplayBuffer_new replay_buffer_cap (blank agent)]> acc.1,
         <[agent := instantiate obs_dim action_dim action_range]> acc.2)) ;;
  ret {| i_agent_ids := agent_ids; i_device := device; i_mode := mode;
         i_replay_buffers := built.1; i_agents := built.2 |}.

Definition IndividualMultiAgent_reset : M IndividualMultiAgent unit :=
  ids <- gets i_agent_ids ;;
  for_each ids (λ agent, i_on_agent agent (Learner_reset (AgentOf agent))).

(** [actions[agent] = self.agents[agent].act(obs[agent], sample)] *)
Definition i_act_one (obs : gmap string Obs) (sample : bool)
    (agent : string) (actions : gmap string Action)
    : M IndividualMultiAgent (gmap string Action) :=
  a <- i_on_agent agent (o <- dict_get obs agent ;;
                         Learner_act (AgentOf agent) o sample) ;;
  ret (<[agent := a]> actions).

Definition IndividualMultiAgent_act (obs : gmap string Obs) (sample : bool)
    (mode : option string) : M IndividualMultiAgent (gmap string Action) :=
  ids <- gets i_agent_ids ;;
  if decide (mode = Some "eval") then
    for_in ids ∅ (λ agent actions,
      eval_mode (AgentOf agent) (@i_on_agent agent)
        (i_act_one obs sample agent actions))
  else if decide (mode = Some "train") then
    for_in ids ∅ (λ agent actions,
      train_mode (AgentOf agent) (@i_on_agent agent)
        (i_act_one obs sample agent actions))
  else if decide (mode = None) then
    for_in ids ∅ (i_act_one obs sample)
  else raise (Exception "ERROR: NO VALID ACTING MODE!").

Definition IndividualMultiAgent_update (loggers : gmap string Logger)
    (step : Z) : M IndividualMultiAgent unit :=
  ids <- gets i_agent_ids ;;
  for_each ids (λ agent,
    i_on_agent agent (ret tt) ;;
    bufs <- gets i_replay_buffers ;;
    b <- dict_get bufs agent ;;
    lg <- dict_get loggers agent ;;
    i_on_agent agent
      (Learner_update (AgentOf agent) (BufferOf agent) b lg step)).

Definition IndividualMultiAgent_add_to_buffer (obs : gmap string Obs)
    (actions : gmap string Action) (rewards : gmap string Reward)
    (next_obs : gmap string Obs) (done done_no_max : pyscalar)
    : M IndividualMultiAgent unit :=
  ids <- gets i_agent_ids ;;
  for_each ids (λ agent,
    bufs <- gets i_replay_buffers ;;
    b <- dict_get bufs agent ;;
    o <- dict_get obs agent ;;
    a <- dict_get actions agent ;;
    r <- dict_get rewards agent ;;
    o' <- dict_get next_obs agent ;;
    modify (i_set_replay_buffers
              <[agent := ReplayBuffer_add b o a r o' done done_no_max]>)).


(** [self.agents.load_state_dict(models)]: torch reports keys that do
    not match the modules by a [RuntimeError]. *)
Definition ModuleDict_load_state_dict (models : models_blob)
    : M IndividualMultiAgent unit :=
  match models with
  | Models_per_agent m =>
      self <- get ;;
      if decide (dom m = dom (i_agents self)) then
        modify (i_set_agents (λ ags,
          merge (λ l p, match l, p with
                        | Some l, Some p =>
                            Some {| training := training l;
                                    core := load_state_dict p (core l) |}
                        | _, _ => l
                        end) ags m))
      else raise (RuntimeError "Error(s) in loading state_dict")
  | Models_single _ => raise (RuntimeError "Error(s) in loading state_dict")
  end.

(** [model_checkpoint['optims'][agent]] *)
Definition optims_of_agent {S} (optims : optims_blob) (agent : string)
    : M S optim_states :=
  match optims with
  | Optims_per_agent m => dict_get m agent
  | Optims_single _ => raise (KeyError agent)
  end.

Definition IndividualMultiAgent_load_checkpoint (dir checkpoint device : string)
    : M (IndividualMultiAgent * filesystem) Z :=
  emit (Stdout ("started loading checkpoint " +:+ checkpoint)) ;;
  let checkpoint_dir := path_join dir checkpoint in
  (* load model parameters *)
  model_checkpoint <- torch_load (path_join checkpoint_dir "checkpoint.pt") device ;;
  on_self (ModuleDict_load_state_dict (ts_models model_checkpoint)) ;;
  let step := ts_step model_checkpoint in
  ids <- gets (λ s, i_agent_ids s.1) ;;
  for_each ids (λ agent,
    on_self (i_on_agent agent (ret tt)) ;;
    st <- optims_of_agent (ts_optims model_checkpoint) agent ;;
    on_self (i_on_agent agent
      (Learner_optimizer_load critic_optimizer (os_critic st))) ;;
    on_self (i_on_agent agent
      (Learner_optimizer_load actor_optimizer (os_actor st))) ;;
    on_self (i_on_agent agent
      (Learner_optimizer_load log_alpha_optimizer (os_alpha st)))) ;;
  (* load replay buffer entries *)
  mode <- gets (λ s, i_mode s.1) ;;
  (if decide (mode = "train") then
     let rep_dir := path_join checkpoint_dir "replay_buffers" in
     for_each ids (λ agent,
       data <- np_load (path_join rep_dir (agent +:+ ".npz")) ;;
       for_each (seq 0 (Z.to_nat step)) (λ i,
         row <- npz_row data i ;;
         bufs <- gets (λ s, i_replay_buffers s.1) ;;
         b <- dict_get bufs agent ;;
         on_self (modify (i_set_replay_buffers
                            <[agent := replay_row b row]>))))
   else ret tt) ;;
  emit (Stdout ("loading checkpoint " +:+ checkpoint +:+ " finished")) ;;
  ret step.

(** [state['optims'][agent]] as [save_checkpoint] fills it. *)
Definition optim_states_of (l : Learner) : optim_states :=
  {| os_critic := optimizer_state_dict critic_optimizer (core l);
     os_actor := optimizer_state_dict actor_optimizer (core l);
     os_alpha := optimizer_state_dict log_alpha_optimizer (core l) |}.

Definition IndividualMultiAgent_save_checkpoint (dir : string) (step : Z)
    : M (IndividualMultiAgent * filesystem) unit :=
  let checkpoint := "cp_" +:+ pretty step in
  emit (Stdout ("started saving checkpoint " +:+ checkpoint)) ;;
  let checkpoint_dir := path_join dir checkpoint in
  emit (Mkdir checkpoint_dir) ;;
  (* save model parameters *)
  self <- gets fst ;;
  let models := (λ l, state_dict (core l)) <$> i_agents self in
  optims <- for_in (i_agent_ids self) ∅ (λ agent optims,
    l <- dict_get (i_agents self) agent ;;
    ret (<[agent := optim_states_of l]> optims)) ;;
  torch_save {| ts_step := step; ts_models := Models_per_agent models;
                ts_optims := Optims_per_agent optims |}
    (path_join checkpoint_dir "checkpoint.pt") ;;
  (* save replay_buffer *)
  let rep_dir := path_join checkpoint_dir "replay_buffers" in
  emit (Mkdir rep_dir) ;;
  for_each (i_agent_ids self) (λ agent,
    let np_file := path_join rep_dir (agent +:+ ".npz") in
    b <- dict_get (i_replay_buffers self) agent ;;
    np_savez np_file b) ;;
  emit (Stdout ("saving checkpoint " +:+ checkpoint +:+ " finished")).

(** ** [SharedMultiAgent] *)

Record SharedMultiAgent := {
  s_agent_ids : list string;
  s_device : string;
  s_mode : string;
  s_agent : Learner;
  s_replay_buffer : ReplayBuffer
}.

Definition s_set_agent (l : Learner) (self : SharedMultiAgent)
    : SharedMultiAgent :=
  {| s_agent_ids := s_agent_ids self; s_device := s_device self;
     s_mode := s_mode self; s_agent := l;
     s_replay_buffer := s_replay_buffer self |}.

Definition s_set_replay_buffer (b : ReplayBuffer) (self : SharedMultiAgent)
    : SharedMultiAgent :=
  {| s_agent_ids := s_agent_ids self; s_device := s_device self;
     s_mode := s_mode self; s_agent := s_agent self;
     s_replay_buffer := b |}.

(** A method of [self.agent]. *)
Definition s_on_agent (B : Type) (m : M Learner B) : M SharedMultiAgent B :=
  zoom s_agent s_set_agent m.
Arguments s_on_agent {B} m.

Definition SharedMultiAgent_init {S} (agent_ids : list string)
    (obs_space act_space : list Z) (act_range : Range)
    (replay_buffer_cap : nat) (device mode : string) (blank : nat → Row)
    : M S SharedMultiAgent :=
  obs_dim <- shape0 obs_space ;;
  action_dim <- shape0 act_space ;;
  ret {| s_agent_ids := agent_ids; s_device := device; s_mode := mode;
         s_agent := instantiate obs_dim action_dim act_range;
         s_replay_buffer := ReplayBuffer_new replay_buffer_cap blank |}.

Definition SharedMultiAgent_reset : M SharedMultiAgent unit :=
  s_on_agent (Learner_reset SharedAgent).

(** [actions[agent] = self.agent.act(obs[agent], sample)] *)
Definition s_act_one (obs : gmap string Obs) (sample : bool)
    (agent : string) (actions : gmap string Action)
    : M SharedMultiAgent (gmap string Action) :=
  o <- dict_get obs agent ;;
  a <- s_on_agent (Learner_act SharedAgent o sample) ;;
  ret (<[agent := a]> actions).

Definition SharedMultiAgent_act (obs : gmap string Obs) (sample : bool)
    (mode : option string) : M SharedMultiAgent (gmap string Action) :=
  ids <- gets s_agent_ids ;;
  if decide (mode = Some "eval") then
    for_in ids ∅ (λ agent actions,
      eval_mode SharedAgent (@s_on_agent)
        (s_act_one obs sample agent actions))
  else if decide (mode = Some "train") then
    for_in ids ∅ (λ agent actions,
      (* [utils.train_mode(self.agents[agent])]: the shared controller
         has [self.agent] only *)
      raise (AttributeError
               "'SharedMultiAgent' object has no attribute 'agents'"))
  else if decide (mode = None) then
    for_in ids ∅ (s_act_one obs sample)
  else raise (Exception "ERROR: NO VALID ACTING MODE!").

Definition SharedMultiAgent_update (loggers : gmap string Logger) (step : Z)
    : M SharedMultiAgent unit :=
  ids <- gets s_agent_ids ;;
  (* update model as often as the number of agents *)
  for_each ids (λ agent,
    b <- gets s_replay_buffer ;;
    lg <- dict_get loggers agent ;;
    s_on_agent (Learner_update SharedAgent SharedBuffer b lg step)).

Definition SharedMultiAgent_add_to_buffer (obs : gmap string Obs)
    (actions : gmap string Action) (rewards : gmap string Reward)
    (next_obs : gmap string Obs) (done done_no_max : pyscalar)
    : M SharedMultiAgent unit :=
  ids <- gets s_agent_ids ;;
  for_each ids (λ agent,
    o <- dict_get obs agent ;;
    a <- dict_get actions agent ;;
    r <- dict_get rewards agent ;;
    o' <- dict_get next_obs agent ;;
    modify (λ self, s_set_replay_buffer
      (ReplayBuffer_add (s_replay_buffer self) o a r o' done done_no_max)
      self)).

Definition SharedMultiAgent_save_checkpoint (dir : string) (step : Z)
    : M (SharedMultiAgent * filesystem) unit :=
  let checkpoint := "cp_" +:+ pretty step in
  emit (Stdout ("started saving checkpoint " +:+ checkpoint)) ;;
  let checkpoint_dir := path_join dir checkpoint in
  emit (Mkdir checkpoint_dir) ;;
  (* save model parameters *)
  self <- gets fst ;;
  torch_save {| ts_step := step;
                ts_models := Models_single (state_dict (core (s_agent self)));
                ts_optims := Optims_single (optim_states_of (s_agent self)) |}
    (path_join checkpoint_dir "checkpoint.pt") ;;
  (* save replay_buffer *)
  let np_file := path_join checkpoint_dir "replay_buffer.npz" in
  np_savez np_file (s_replay_buffer self) ;;
  emit (Stdout ("saving checkpoint " +:+ checkpoint +:+ " finished")).

Definition SharedMultiAgent_load_checkpoint (dir checkpoint device : string)
    : M (SharedMultiAgent * filesystem) Z :=
  emit (Stdout ("started loading checkpoint " +:+ checkpoint)) ;;
  let checkpoint_dir := path_join dir checkpoint in
  (* load model parameters *)
  model_checkpoint <- torch_load (path_join checkpoint_dir "checkpoint.pt") device ;;
  match ts_models model_checkpoint with
  | Models_single p => on_self (s_on_agent (Learner_load_state_dict p))
  | Models_per_agent _ => raise (RuntimeError "Error(s) in loading state_dict")
  end ;;
  let step := ts_step model_checkpoint in
  st <- match ts_optims model_checkpoint with
        | Optims_single st => ret st
        | Optims_per_agent _ => raise (KeyError "critic")
        end ;;
  on_self (s_on_agent (Learner_optimizer_load critic_optimizer (os_critic st))) ;;
  on_self (s_on_agent (Learner_optimizer_load actor_optimizer (os_actor st))) ;;
  on_self (s_on_agent (Learner_optimizer_load log_alpha_optimizer (os_alpha st))) ;;
  (* load replay buffer entries *)
  mode <- gets (λ s, s_mode s.1) ;;
  ids <- gets (λ s, s_agent_ids s.1) ;;
  (if decide (mode = "train") then
     data <- np_load (path_join checkpoint_dir "replay_buffer.npz") ;;
     for_each (seq 0 (Z.to_nat (step * Z.of_nat (length ids)))) (λ i,
       row <- npz_row data i ;;
       on_self (modify (λ self,
         s_set_replay_buffer (replay_row (s_replay_buffer self) row) self)))
   else ret tt) ;;
  emit (Stdout ("loading checkpoint " +:+ checkpoint +:+ " finished")) ;;
  ret step.


(** The cursor and the [full] flag after [n] insertions into a new store
    of capacity at least [n]. *)
Definition cursor_after (cap n : nat) : nat :=
  match n with O => O | _ => (n `mod` cap)%nat end.

Definition full_after (cap n : nat) : bool :=
  match n with O => false | _ => (cap =? n)%nat end.

(** ** Vocabulary of the statements about [add_to_buffer] *)

(** What a call needs of an agent id: an entry in each of the four
    dictionaries it reads. *)
Definition has_transition (obs : gmap string Obs) (actions : gmap string Action)
    (rewards : gmap string Reward) (next_obs : gmap string Obs) (a : string)
    : Prop :=
  is_Some (obs !! a) ∧ is_Some (actions !! a)
  ∧ is_Some (rewards !! a) ∧ is_Some (next_obs !! a).


(** The transitions of the agents [ids], in that order. *)
Definition transitions_of (obs : gmap string Obs) (actions : gmap string Action)
    (rewards : gmap string Reward) (next_obs : gmap string Obs)
    (ids : list string) : option (list (Obs * Action * Reward * Obs)) :=
  mapM (λ a, match obs !! a, actions !! a, rewards !! a, next_obs !! a with
             | Some o, Some ac, Some r, Some o' => Some (o, ac, r, o')
             | _, _, _, _ => None
             end) ids.

(** The message of the exception [act] raises on an unknown mode. *)
Definition no_valid_acting_mode : pyexn :=
  PyExn "Exception" "ERROR: NO VALID ACTING MODE!".

(** ** The controller interface ([MultiAgent]) *)

(** The workspace holds either variant and calls it through the
    methods of the abstract base class; each call is recorded. *)
Inductive MultiAgent :=
  | Individual (c : IndividualMultiAgent)
  | Shared (c : SharedMultiAgent).

Definition dispatch {A} (mi : M IndividualMultiAgent A)
    (ms : M SharedMultiAgent A) : M MultiAgent A :=
  λ ma, match ma with
        | Individual c =>
            match mi c with (r, c', t) => (r, Individual c', t) end
        | Shared c =>
            match ms c with (r, c', t) => (r, Shared c', t) end
        end.

Definition dispatch_fs {A} (mi : M (IndividualMultiAgent * filesystem) A)
    (ms : M (SharedMultiAgent * filesystem) A)
    : M (MultiAgent * filesystem) A :=
  λ s, match s.1 with
       | Individual c =>
           match mi (c, s.2) with (r, s', t) => (r, (Individual s'.1, s'.2), t) end
       | Shared c =>
           match ms (c, s.2) with (r, s', t) => (r, (Shared s'.1, s'.2), t) end
       end.

Definition MultiAgent_reset : M MultiAgent unit :=
  emit Call_reset ;;
  dispatch IndividualMultiAgent_reset SharedMultiAgent_reset.

Definition MultiAgent_act (obs : gmap string Obs) (sample : bool)
    (mode : option string) : M MultiAgent (gmap string Action) :=
  emit (Call_act sample mode) ;;
  dispatch (IndividualMultiAgent_act obs sample mode)
           (SharedMultiAgent_act obs sample mode).

Definition MultiAgent_update (loggers : gmap string Logger) (step : Z)
    : M MultiAgent unit :=
  emit (Call_update step) ;;
  dispatch (IndividualMultiAgent_update loggers step)
           (SharedMultiAgent_update loggers step).

Definition MultiAgent_add_to_buffer (obs : gmap string Obs)
    (actions : gmap string Action) (rewards : gmap string Reward)
    (next_obs : gmap string Obs) (done done_no_max : pyscalar)
    : M MultiAgent unit :=
  emit (Call_add_to_buffer done done_no_max) ;;
  dispatch
    (IndividualMultiAgent_add_to_buffer obs actions rewards next_obs
       done done_no_max)
    (SharedMultiAgent_add_to_buffer obs actions rewards next_obs
       done done_no_max).

Definition MultiAgent_save_checkpoint (dir : string) (step : Z)
    : M (MultiAgent * filesystem) unit :=
  emit (Call_save_checkpoint dir step) ;;
  dispatch_fs (IndividualMultiAgent_save_checkpoint dir step)
              (SharedMultiAgent_save_checkpoint dir step).

(** A call of [multi_agent.load_checkpoint] with positional
    arguments: both implementations are declared
    [load_checkpoint(self, dir, checkpoint, device)], and Python binds
    the arguments before the body runs. *)
Definition MultiAgent_load_checkpoint (args : list string)
    : M (MultiAgent * filesystem) Z :=
  emit (Call_load_checkpoint args) ;;
  match args with
  | [dir; checkpoint; device] =>
      dispatch_fs (IndividualMultiAgent_load_checkpoint dir checkpoint device)
                  (SharedMultiAgent_load_checkpoint dir checkpoint device)
  | [_; _] =>
      raise (TypeError
        "load_checkpoint() missing 1 required positional argument: 'device'")
  | [_] =>
      raise (TypeError
        "load_checkpoint() missing 2 required positional arguments: 'checkpoint' and 'device'")
  | [] =>
      raise (TypeError
        "load_checkpoint() missing 3 required positional arguments: 'dir', 'checkpoint', and 'device'")
  | _ =>
      raise (TypeError
        "load_checkpoint() takes 4 positional arguments but more were given")
  end.


(** ** The environment and the configuration ([run.py]) *)

(** The simulator is an external collaborator. [observation_shape],
    [action_shape] and [action_range] stand for
    [observation_space[agent].shape], [action_space[agent].shape] and
    [[float(low.min()), float(high.max())]]; rewards are numbers the
    loop adds up and averages. [env_horizon] is the attribute
    [env.horizon], fixed for an environment. *)
Class FlowEnv (Env : Type) := {
  env_agents : Env → list string;
  env_horizon : Z;
  observation_shape : Env → string → list Z;
  action_shape : Env → string → list Z;
  action_range : Env → string → Range;
  env_seed : Z → Env → Env;
  env_reset : Env → gmap string Obs * Env;
  env_step : gmap string Action → Env
             → gmap string Obs * gmap string Reward * bool * Env;
  space_sample : string → Env → Action * Env;
  reward_zero : Reward;
  reward_add : Reward → Reward → Reward;
  reward_div : Reward → Z → Reward
}.

Context {Env : Type} `{!FlowEnv Env}.

Record Config := {
  cfg_load_checkpoint : bool;
  cfg_checkpoint_dir : string;
  cfg_checkpoint_name : string;
  cfg_seed : Z;
  cfg_device : string;
  cfg_multi_agent_mode : string;
  cfg_replay_buffer_capacity : Z;
  cfg_mode : string;
  cfg_num_eval_episodes : Z;
  cfg_num_train_steps : Z;
  cfg_num_seed_steps : Z;
  cfg_eval_frequency : Z;
  cfg_save_checkpoint : bool
}.

Record Workspace := {
  ws_work_dir : string;
  ws_cfg : Config;
  ws_env : Env;
  ws_agent_ids : list string;
  ws_loggers : gmap string Logger;
  ws_multi_agent : MultiAgent;
  ws_step : Z
}.

Definition ws_set_env (e : Env) (self : Workspace) : Workspace :=
  {| ws_work_dir := ws_work_dir self; ws_cfg := ws_cfg self; ws_env := e;
     ws_agent_ids := ws_agent_ids self; ws_loggers := ws_loggers self;
     ws_multi_agent := ws_multi_agent self; ws_step := ws_step self |}.

Definition ws_set_multi_agent (ma : MultiAgent) (self : Workspace) : Workspace :=
  {| ws_work_dir := ws_work_dir self; ws_cfg := ws_cfg self;
     ws_env := ws_env self; ws_agent_ids := ws_agent_ids self;
     ws_loggers := ws_loggers self; ws_multi_agent := ma;
     ws_step := ws_step self |}.

Definition ws_set_step (n : Z) (self : Workspace) : Workspace :=
  {| ws_work_dir := ws_work_dir self; ws_cfg := ws_cfg self;
     ws_env := ws_env self; ws_agent_ids := ws_agent_ids self;
     ws_loggers := ws_loggers self; ws_multi_agent := ws_multi_agent self;
     ws_step := n |}.

(** A method of [self.env], of [self.multi_agent]. *)
Definition on_env {A} (m : M Env A) : M Workspace A :=
  zoom ws_env ws_set_env m.

Definition on_multi_agent {A} (m : M MultiAgent A) : M Workspace A :=
  zoom ws_multi_agent ws_set_multi_agent m.

(** A controller method that also reads or writes files. *)
Definition on_multi_agent_fs {A} (m : M (MultiAgent * filesystem) A)
    : M (Workspace * filesystem) A :=
  zoom (λ s, (ws_multi_agent s.1, s.2))
       (λ t s, (ws_set_multi_agent t.1 s.1, t.2)) m.

Definition on_workspace {A} (m : M Workspace A) : M (Workspace * filesystem) A :=
  zoom fst (λ w s, (w, s.2)) m.

(** [env.reset()], [env.step(actions)], [env.action_space[agent].sample()] *)
Definition Env_reset_call : M Env (gmap string Obs) :=
  emit Env_reset ;;
  e <- get ;;
  put (env_reset e).2 ;;
  ret (env_reset e).1.

Definition Env_step_call (actions : gmap string Action)
    : M Env (gmap string Obs * gmap string Reward * bool) :=
  emit (Env_step actions) ;;
  e <- get ;;
  put (env_step actions e).2 ;;
  ret (env_step actions e).1.

Definition Space_sample_call (agent : string) : M Env Action :=
  emit (Env_sample agent) ;;
  e <- get ;;
  put (space_sample agent e).2 ;;
  ret (space_sample agent e).1.

(** [for agent in self.agent_ids: d[agent] = 0] *)
Definition zero_rewards {S} (ids : list string) (d : gmap string Reward)
    : M S (gmap string Reward) :=
  for_in ids d (λ agent d, ret (<[agent := reward_zero]> d)).

(** [for agent in self.agent_ids: d[agent] += rewards[agent]] *)
Definition add_rewards {S} (ids : list string) (d rewards : gmap string Reward)
    : M S (gmap string Reward) :=
  for_in ids d (λ agent d,
    cur <- dict_get d agent ;;
    r <- dict_get rewards agent ;;
    ret (<[agent := reward_add cur r]> d)).

(** ** [Workspace.__init__] *)

(** [cwd], [today] and [clock] are [os.getcwd()] and the two formatted
    dates at entry, [env] is what [utils.import_flow_env] returns, and
    [blank_i], [blank_s] are the contents of freshly allocated store
    memory. Directories are not tracked, so [os.chdir] succeeds. *)
Definition Workspace_init (cfg : Config) (cwd today clock : string)
    (env : Env) (blank_i : string → nat → Row) (blank_s : nat → Row)
    : M filesystem Workspace :=
  (* change working directory to location of checkpoint or create new one *)
  work_dir <- (if cfg_load_checkpoint cfg
               then ret (path_join cwd (cfg_checkpoint_dir cfg))
               else let dir := path_join (path_join cwd today) clock in
                    emit (Mkdir dir) ;; ret dir) ;;
  emit (Stdout ("workspace: " +:+ work_dir)) ;;
  (* register environment *)
  let env := env_seed (cfg_seed cfg) env in
  let agent_ids := env_agents env in
  (* initialize loggers *)
  loggers <- for_in agent_ids ∅ (λ agent loggers,
    ret (<[agent := {| logger_agent_id := agent |}]> loggers)) ;;
  (* initialize agents *)
  multi_agent <-
    (if decide (cfg_multi_agent_mode cfg = "individual") then
       spaces <- for_in agent_ids (∅, ∅, ∅) (λ agent acc,
         ret (<[agent := observation_shape env agent]> acc.1.1,
              <[agent := action_shape env agent]> acc.1.2,
              <[agent := action_range env agent]> acc.2)) ;;
       c <- IndividualMultiAgent_init agent_ids spaces.1.1 spaces.1.2 spaces.2
              (Z.to_nat (cfg_replay_buffer_capacity cfg))
              (cfg_device cfg) (cfg_mode cfg) blank_i ;;
       ret (Individual c)
     else if decide (cfg_multi_agent_mode cfg = "shared") then
       first <- match agent_ids with
                | a :: _ => ret a
                | [] => raise (IndexError "list index out of range")
                end ;;
       c <- SharedMultiAgent_init agent_ids (observation_shape env first)
              (action_shape env first) (action_range env first)
              (Z.to_nat (cfg_replay_buffer_capacity cfg * Z.of_nat (length agent_ids)))
              (cfg_device cfg) (cfg_mode cfg) blank_s ;;
       ret (Shared c)
     else raise (Exception "no valid multiagent_mode")) ;;
  let self := {| ws_work_dir := work_dir; ws_cfg := cfg; ws_env := env;
                 ws_agent_ids := agent_ids; ws_loggers := loggers;
                 ws_multi_agent := multi_agent; ws_step := 0 |} in
  (* load checkpoint *)
  if cfg_load_checkpoint cfg then
    λ fs, match MultiAgent_load_checkpoint
                  [path_join work_dir "checkpoints"; cfg_checkpoint_name cfg]
                  (multi_agent, fs) with
          | (Ret step, s, t) =>
              (Ret (ws_set_step step (ws_set_multi_agent s.1 self)), s.2, t)
          | (Raise e, s, t) => (Raise e, s.2, t)
          | (OutOfFuel, s, t) => (OutOfFuel, s.2, t)
          end
  else ret self.


(** ** [Workspace.evaluate] *)

(** The [while not done] loop of one evaluation episode, given at most
    [fuel] iterations. *)
Fixpoint evaluate_episode (fuel : nat) (obs : gmap string Obs)
    (episode_rewards : gmap string Reward)
    : M Workspace (gmap string Reward) :=
  match fuel with
  | O => out_of_fuel
  | S fuel' =>
      actions <- on_multi_agent (MultiAgent_act obs false (Some "eval")) ;;
      res <- on_env (Env_step_call actions) ;;
      let obs := res.1.1 in
      let rewards := res.1.2 in
      let done := res.2 in
      emit Video_record ;;
      ids <- gets ws_agent_ids ;;
      episode_rewards <- add_rewards ids episode_rewards rewards ;;
      if done then ret episode_rewards
      else evaluate_episode fuel' obs episode_rewards
  end.

Definition Workspace_evaluate (fuel : nat) : M Workspace unit :=
  ids <- gets ws_agent_ids ;;
  cfg <- gets ws_cfg ;;
  average_episode_rewards <- zero_rewards ids ∅ ;;
  average_episode_rewards <-
    for_in (seq 0 (Z.to_nat (cfg_num_eval_episodes cfg)))
      average_episode_rewards (λ episode average_episode_rewards,
        obs <- on_env Env_reset_call ;;
        on_multi_agent MultiAgent_reset ;;
        emit (Video_init (episode =? 0)%nat) ;;
        episode_rewards <- zero_rewards ids ∅ ;;
        episode_rewards <- evaluate_episode fuel obs episode_rewards ;;
        average_episode_rewards <-
          add_rewards ids average_episode_rewards episode_rewards ;;
        step <- gets ws_step ;;
        emit (Video_save (pretty step +:+ ".mp4")) ;;
        ret average_episode_rewards) ;;
  step <- gets ws_step ;;
  loggers <- gets ws_loggers ;;
  for_each ids (λ agent,
    cur <- dict_get average_episode_rewards agent ;;
    (if cfg_num_eval_episodes cfg =? 0
     then raise (ZeroDivisionError "division by zero") else ret tt) ;;
    lg <- dict_get loggers agent ;;
    emit (Log lg "eval/episode_reward"
            (LV_reward (reward_div cur (cfg_num_eval_episodes cfg))) step) ;;
    lg <- dict_get loggers agent ;;
    emit (Dump lg step None)).

(** ** [Workspace.train] *)

(** The local variables the [while] loop carries from one iteration to
    the next. *)
Record train_locals := {
  episode_rewards : gmap string Reward;
  episode_step : Z;
  episode : Q;
  obs : gmap string Obs
}.

(** [done_no_max = 0 if episode_step + 1 == self.env.horizon else done] *)
Definition done_no_max_of (episode_step horizon : Z) (done : pyscalar)
    : pyscalar :=
  if episode_step + 1 =? horizon then PyInt 0 else done.

(** The block [# sample action for data collection]. *)
Definition select_actions (obs : gmap string Obs)
    : M Workspace (gmap string Action) :=
  ids <- gets ws_agent_ids ;;
  cfg <- gets ws_cfg ;;
  step <- gets ws_step ;;
  if step <? cfg_num_seed_steps cfg then
    for_in ids ∅ (λ agent actions,
      a <- on_env (Space_sample_call agent) ;;
      ret (<[agent := a]> actions))
  else on_multi_agent (MultiAgent_act obs true (Some "eval")).

(** The block [# run training update]. *)
Definition run_training_update : M Workspace unit :=
  cfg <- gets ws_cfg ;;
  loggers <- gets ws_loggers ;;
  step <- gets ws_step ;;
  if cfg_num_seed_steps cfg <=? step
  then on_multi_agent (MultiAgent_update loggers step) else ret tt.

(** The block under [if done:] at the end of an episode. *)
Definition end_episode (fuel : nat) (loc : train_locals)
    (episode_rewards : gmap string Reward) : M Workspace train_locals :=
  ids <- gets ws_agent_ids ;;
  cfg <- gets ws_cfg ;;
  loggers <- gets ws_loggers ;;
  step <- gets ws_step ;;
  for_each ids (λ agent,
    lg <- dict_get loggers agent ;;
    emit (Log lg "train/duration" LV_duration step) ;;
    lg <- dict_get loggers agent ;;
    emit (Log lg "train/episode" (LV_episode (episode loc)) step) ;;
    lg <- dict_get loggers agent ;;
    er <- dict_get episode_rewards agent ;;
    emit (Log lg "train/episode_reward" (LV_reward er) step) ;;
    lg <- dict_get loggers agent ;;
    emit (Dump lg step (Some (cfg_num_seed_steps cfg <? step)))) ;;
  (* evaluate agent periodically *)
  periodic <- (if 0 <? step then
                 if cfg_eval_frequency cfg =? 0
                 then raise (ZeroDivisionError "integer modulo by zero")
                 else ret (step `mod` cfg_eval_frequency cfg =? 0)
               else ret false) ;;
  (if periodic : bool then
     for_each ids (λ agent,
       lg <- dict_get loggers agent ;;
       emit (Log lg "eval/episode" (LV_episode (episode loc)) step)) ;;
     Workspace_evaluate fuel
   else ret tt) ;;
  obs <- on_env Env_reset_call ;;
  on_multi_agent MultiAgent_reset ;;
  episode_rewards <- zero_rewards ids episode_rewards ;;
  ret {| episode_rewards := episode_rewards; episode_step := 0;
         episode := Qplus (episode loc) (1 # 1); obs := obs |}.

(** The rest of the body: the environment step, the bootstrap flag, the
    write to the stores, the counters, and the end of the episode. *)
Definition record_step (fuel : nat) (loc : train_locals)
    (actions : gmap string Action) : M Workspace train_locals :=
  ids <- gets ws_agent_ids ;;
  res <- on_env (Env_step_call actions) ;;
  let next_obs := res.1.1 in
  let rewards := res.1.2 in
  (* allow infinite bootstrap *)
  let done := py_float res.2 in
  let done_no_max := done_no_max_of (episode_step loc) env_horizon done in
  episode_rewards <- add_rewards ids (episode_rewards loc) rewards ;;
  on_multi_agent (MultiAgent_add_to_buffer (obs loc) actions rewards
                    next_obs done done_no_max) ;;
  let episode_step := episode_step loc + 1 in
  modify (λ self, ws_set_step (ws_step self + 1) self) ;;
  if py_truth done then end_episode fuel loc episode_rewards
  else
    ret {| episode_rewards := episode_rewards; episode_step := episode_step;
           episode := episode loc; obs := next_obs |}.

(** The body of the [while] loop. *)
Definition train_iteration (fuel : nat) (loc : train_locals)
    : M Workspace train_locals :=
  actions <- select_actions (obs loc) ;;
  run_training_update ;;
  record_step fuel loc actions.

(** [while self.step < self.cfg.num_train_steps: ...], given at most
    [fuel] iterations. *)
Fixpoint train_loop (fuel_eval fuel : nat) (loc : train_locals)
    : M Workspace train_locals :=
  self <- get ;;
  if ws_step self <? cfg_num_train_steps (ws_cfg self) then
    match fuel with
    | O => out_of_fuel
    | S fuel' =>
        loc <- train_iteration fuel_eval loc ;;
        train_loop fuel_eval fuel' loc
    end
  else ret loc.

Definition Workspace_train (fuel_eval fuel : nat)
    : M (Workspace * filesystem) unit :=
  self <- gets fst ;;
  let horizon := env_horizon in
  episode <- (if horizon =? 0
              then raise (ZeroDivisionError "division by zero")
              else ret (Qdiv (inject_Z (ws_step self)) (inject_Z horizon))) ;;
  episode_rewards <- zero_rewards (ws_agent_ids self) ∅ ;;
  obs <- on_workspace (on_env Env_reset_call) ;;
  on_workspace (on_multi_agent MultiAgent_reset) ;;
  on_workspace (train_loop fuel_eval fuel
    {| episode_rewards := episode_rewards; episode_step := 0;
       episode := episode; obs := obs |}) ;;
  (* save models and optimizers *)
  self <- gets fst ;;
  if cfg_save_checkpoint (ws_cfg self) then
    on_multi_agent_fs
      (MultiAgent_save_checkpoint (path_join (ws_work_dir self) "checkpoints")
         (ws_step self))
  else ret tt.

(** [main]: build the workspace, then train or evaluate. [elapsed] is
    the printed difference of the two readings of the clock. *)
Definition main (fuel_eval fuel : nat) (cfg : Config)
    (cwd today clock elapsed : string) (env : Env)
    (blank_i : string → nat → Row) (blank_s : nat → Row)
    : M filesystem unit :=
  workspace <- Workspace_init cfg cwd today clock env blank_i blank_s ;;
  if decide (cfg_mode cfg = "train") then
    (λ fs, match Workspace_train fuel_eval fuel (workspace, fs) with
           | (r, s, t) => (r, s.2, t)
           end) ;;
    emit (Stdout "TOTAL_TIME:") ;;
    emit (Stdout elapsed)
  else if decide (cfg_mode cfg = "eval") then
    λ fs, match Workspace_evaluate fuel_eval workspace with
          | (r, _, t) => (r, fs, t)
          end
  else raise (Exception "no valid running mode").

(** ** Vocabulary of the statements about traces *)

(** Every call a method records satisfies [P], whatever the state it is
    run on and however it ends. *)
Definition emits {S A} (P : event → Prop) (m : M S A) : Prop :=
  ∀ s, Forall P (m s).2.

(** A method that leaves the object it runs on as it was and does not
    loop. *)
Definition pure_method {S A} (m : M S A) : Prop :=
  ∀ s, (m s).1.2 = s ∧ (m s).1.1 ≠ OutOfFuel.

(** The records of calls the workspace makes on the controller. *)
Definition is_call (ev : event) : bool :=
  match ev with
  | Call_reset | Call_act _ _ | Call_update _ | Call_add_to_buffer _ _
  | Call_save_checkpoint _ _ | Call_load_checkpoint _ => true
  | _ => false
  end.

Definition is_update_call (ev : event) : bool :=
  match ev with Call_update _ => true | _ => false end.

(** The calls the training loop may make on the controller while its
    local variables are [loc]: acting in evaluation scope, updating,
    resetting, and adding with the bootstrap flag of this step. *)
Definition train_call (episode_step : Z) (ev : event) : Prop :=
  is_call ev = false
  ∨ (∃ sample, ev = Call_act sample (Some "eval"))
  ∨ (∃ step, ev = Call_update step)
  ∨ ev = Call_reset
  ∨ (∃ done : bool,
       ev = Call_add_to_buffer (py_float done)
              (done_no_max_of episode_step env_horizon (py_float done))).

(** A method that leaves a part [f] of the object it runs on as it was,
    however it ends. *)
Definition preserves {S A X} (f : S → X) (m : M S A) : Prop :=
  ∀ s, f (m s).1.2 = f s.

(** The parts of the workspace only [self.step += 1] changes. *)
Definition ws_static (self : Workspace)
    : Z * Config * list string * gmap string Logger :=
  (ws_step self, ws_cfg self, ws_agent_ids self, ws_loggers self).

(** The actions [action_space[agent].sample()] gives for the agents
    [ids] one after the other, and the environment afterwards. *)
Fixpoint sample_all (ids : list string) (e : Env) (acc : gmap string Action)
    : gmap string Action * Env :=
  match ids with
  | [] => (acc, e)
  | a :: ids' =>
      sample_all ids' (space_sample a e).2 (<[a := (space_sample a e).1]> acc)
  end.

(** ** Vocabulary of the statements about what a run leaves alone *)

(** The stores of a controller, whichever the variant. *)
Definition MultiAgent_stores (ma : MultiAgent)
    : gmap string ReplayBuffer + ReplayBuffer :=
  match ma with
  | Individual c => inl (i_replay_buffers c)
  | Shared c => inr (s_replay_buffer c)
  end.

Definition is_add_call (ev : event) : bool :=
  match ev with Call_add_to_buffer _ _ => true | _ => false end.

Definition is_save_call (ev : event) : bool :=
  match ev with Call_save_checkpoint _ _ => true | _ => false end.

(** The calls an evaluation pass may make on the controller: acting
    without sampling in evaluation scope, and resetting. *)
Definition evaluate_call (ev : event) : Prop :=
  is_call ev = false ∨ ev = Call_act false (Some "eval") ∨ ev = Call_reset.

(** The separator [os.path.join] puts after its first argument. *)
Definition path_sep (a : string) : string :=
  if String.eqb a "" || ends_with_slash a then "" else "/".

(** A store after a sequence of [add] calls, one per entry
    [(obs, action, reward, next_obs, done, done_no_max)]. *)
Definition add_all (b : ReplayBuffer)
    (ts : list (Obs * Action * Reward * Obs * pyscalar * pyscalar))
    : ReplayBuffer :=
  foldl (λ b t, ReplayBuffer_add b t.1.1.1.1.1 t.1.1.1.1.2 t.1.1.1.2
                  t.1.1.2 t.1.2 t.2) b ts.

(** The records only an evaluation pass leaves: acting, stepping the
    environment, and the video recorder. *)
Definition is_evaluation_event (ev : event) : bool :=
  match ev with
  | Call_act _ _ | Env_step _ | Video_init _ | Video_record | Video_save _ =>
      true
  | _ => false
  end.

(** The records of the loggers. *)
Definition is_logger_event (ev : event) : bool :=
  match ev with Log _ _ _ _ | Dump _ _ _ => true | _ => false end.

(** Row [i] of a store, read across its parallel arrays. *)
Definition ReplayBuffer_row (b : ReplayBuffer) (i : nat) : option Row :=
  o ← obses b !! i; o' ← next_obses b !! i; a ← actions b !! i;
  r ← rewards b !! i; nd ← not_dones b !! i; ndm ← not_dones_no_max b !! i;
  Some {| r_obs := o; r_next_obs := o'; r_action := a; r_reward := r;
          r_not_done := nd; r_not_done_no_max := ndm |}.

(** The flags of the [add_to_buffer] calls along a run of the training
    loop, [k] being the number of steps the current episode has made
    before the next call: each call passes [done = float(d)] for a
    boolean [d] and a [done_no_max] that is the integer [0] when this
    step brings the episode to the horizon and [done] otherwise; a call
    with [d] true ends the episode. *)
Fixpoint bootstrap_flags (k : Z) (t : list event) : Prop :=
  match t with
  | [] => True
  | Call_add_to_buffer d dnm :: t' =>
      ∃ done : bool,
        d = py_float done
        ∧ dnm = (if k + 1 =? env_horizon then PyInt 0 else d)
        ∧ bootstrap_flags (if done then 0 else k + 1) t'
  | _ :: t' => bootstrap_flags k t'
  end.

End Model.

Declare Scope py_scope.
Delimit Scope py_scope with py.
Notation "x <- m ;; k" := (bind m (λ x, k))
  (at level 100, m at next level, right associativity) : py_scope.
Notation "m ;; k" := (bind m (λ _, k))
  (at level 100, right associativity) : py_scope.

(** ** A small concrete system

    Two vehicles ["a"] and ["b"]; observations, actions and rewards are
    integers; a learner counts its updates; the environment counts the
    steps of the running episode and ends it at the horizon. *)
Module Toy.

#[local] Instance learning : @Learning Z Z Z nat nat nat unit := {|
  instantiate _ _ _ := {| training := true; core := O |};
  agent_act _ c o sample := (if sample then o + 1 else o, c);
  agent_update _ c _ _ _ := S c;
  agent_reset c := c;
  state_dict c := c;
  load_state_dict p _ := p;
  optimizer_state_dict _ c := c;
  optimizer_load_state_dict _ _ c := c
|}.

Definition all (v : Z) : gmap string Z := <["a" := v]> (<["b" := v]> ∅).

#[local] Instance env : @FlowEnv Z Z Z unit nat := {|
  env_agents _ := ["a"; "b"];
  env_horizon := 2;
  observation_shape _ _ := [3];
  action_shape _ _ := [1];
  action_range _ _ := tt;
  env_seed _ e := e;
  env_reset _ := (all 0, O);
  env_step _ e := (all (Z.of_nat (S e)), all 1, (S e =? 2)%nat, S e);
  space_sample _ e := (7, e);
  reward_zero := 0;
  reward_add := Z.add;
  reward_div := Z.div
|}.

Definition blank : nat → @Row Z Z Z := λ _,
  {| r_obs := 0; r_next_obs := 0; r_action := 0; r_reward := 0;
     r_not_done := false; r_not_done_no_max := false |}.

Definition cfg (multi_agent_mode : string) (load : bool) : Config := {|
  cfg_load_checkpoint := load;
  cfg_checkpoint_dir := "run";
  cfg_checkpoint_name := "cp_4";
  cfg_seed := 1;
  cfg_device := "cpu";
  cfg_multi_agent_mode := multi_agent_mode;
  cfg_replay_buffer_capacity := 3;
  cfg_mode := "train";
  cfg_num_eval_episodes := 1;
  cfg_num_train_steps := 4;
  cfg_num_seed_steps := 1;
  cfg_eval_frequency := 2;
  cfg_save_checkpoint := true
|}.

(** A fresh individual controller with stores of capacity [cap]. *)
Definition individual (cap : nat) : @IndividualMultiAgent Z Z Z nat :=
  {| i_agent_ids := ["a"; "b"]; i_device := "cpu"; i_mode := "train";
     i_replay_buffers :=
       <["a" := ReplayBuffer_new cap blank]>
         (<["b" := ReplayBuffer_new cap blank]> ∅);
     i_agents :=
       <["a" := {| training := true; core := O |}]>
         (<["b" := {| training := true; core := O |}]> ∅) |}.

(** A fresh shared controller with a store of capacity [cap]. *)
Definition shared (cap : nat) : @SharedMultiAgent Z Z Z nat :=
  {| s_agent_ids := ["a"; "b"]; s_device := "cpu"; s_mode := "train";
     s_agent := {| training := true; core := O |};
     s_replay_buffer := ReplayBuffer_new cap blank |}.

Definition loggers : gmap string Logger :=
  <["a" := {| logger_agent_id := "a" |}]>
    (<["b" := {| logger_agent_id := "b" |}]> ∅).

(** [k] calls of [add_to_buffer] with distinct values, then
    [save_checkpoint(dir, k)]. *)
Fixpoint individual_steps (k : nat) (c : @IndividualMultiAgent Z Z Z nat)
    : @IndividualMultiAgent Z Z Z nat :=
  match k with
  | O => c
  | S k' =>
      let c' := individual_steps k' c in
      (IndividualMultiAgent_add_to_buffer (all (Z.of_nat k)) (all (Z.of_nat k))
         (all (Z.of_nat k)) (all (Z.of_nat k + 1))
         (PyFloat (0 # 1)) (PyFloat (0 # 1)) c').1.2
  end.

Fixpoint shared_steps (k : nat) (c : @SharedMultiAgent Z Z Z nat)
    : @SharedMultiAgent Z Z Z nat :=
  match k with
  | O => c
  | S k' =>
      let c' := shared_steps k' c in
      (SharedMultiAgent_add_to_buffer (all (Z.of_nat k)) (all (Z.of_nat k))
         (all (Z.of_nat k)) (all (Z.of_nat k + 1))
         (PyFloat (0 # 1)) (PyFloat (0 # 1)) c').1.2
  end.

(** The files written by a run of [k] steps on stores of capacity
    [cap]. *)
Definition individual_saved (cap k : nat) : gmap string (@file Z Z Z nat nat) :=
  (IndividualMultiAgent_save_checkpoint "ckpt" (Z.of_nat k)
     (individual_steps k (individual cap), ∅)).1.2.2.

Definition shared_saved (cap k : nat) : gmap string (@file Z Z Z nat nat) :=
  (SharedMultiAgent_save_checkpoint "ckpt" (Z.of_nat k)
     (shared_steps k (shared cap), ∅)).1.2.2.

(** Hand-written checkpoints of step counter [s] whose archives hold
    three rows. *)
Definition row (v : Z) : @Row Z Z Z :=
  {| r_obs := v; r_next_obs := v + 1; r_action := v; r_reward := v;
     r_not_done := true; r_not_done_no_max := true |}.

Definition rows : list (@Row Z Z Z) := [row 1; row 2; row 3].

Definition optims : @optim_states nat :=
  {| os_critic := O; os_actor := O; os_alpha := O |}.

Definition files_individual (s : Z) : gmap string (@file Z Z Z nat nat) :=
  <["ckpt/cp/checkpoint.pt" :=
      Pt_file {| ts_step := s;
                 ts_models := Models_per_agent (<["a" := O]> (<["b" := O]> ∅));
                 ts_optims :=
                   Optims_per_agent (<["a" := optims]> (<["b" := optims]> ∅)) |}]>
    (<["ckpt/cp/replay_buffers/a.npz" := Npz_file (npz_of_rows rows)]>
       (<["ckpt/cp/replay_buffers/b.npz" := Npz_file (npz_of_rows rows)]> ∅)).

Definition files_shared (s : Z) : gmap string (@file Z Z Z nat nat) :=
  <["ckpt/cp/checkpoint.pt" :=
      Pt_file {| ts_step := s; ts_models := Models_single O;
                 ts_optims := Optims_single optims |}]>
    (<["ckpt/cp/replay_buffer.npz" := Npz_file (npz_of_rows rows)]> ∅).

(** A workspace on the individual controller, [step] steps into a run,
    and the local variables of the loop at the start of an episode. *)
Definition workspace (step : Z) : @Workspace Z Z Z nat nat :=
  {| ws_work_dir := "/home/run"; ws_cfg := cfg "individual" false;
     ws_env := O; ws_agent_ids := ["a"; "b"]; ws_loggers := loggers;
     ws_multi_agent := Individual (individual 3); ws_step := step |}.

Definition locals : @train_locals Z Z :=
  {| episode_rewards := all 0; episode_step := 0; episode := 0 # 1;
     obs := all 0 |}.

(** The same one step before the horizon, in the episode and in the
    environment. *)
Definition workspace_at (step : Z) (e : nat) : @Workspace Z Z Z nat nat :=
  {| ws_work_dir := "/home/run"; ws_cfg := cfg "individual" false;
     ws_env := e; ws_agent_ids := ["a"; "b"]; ws_loggers := loggers;
     ws_multi_agent := Individual (individual 3); ws_step := step |}.

Definition locals_at_horizon : @train_locals Z Z :=
  {| episode_rewards := all 1; episode_step := 1; episode := 0 # 1;
     obs := all 1 |}.

(** The same workspace configured to evaluate over zero episodes. *)
Definition workspace_no_eval : @Workspace Z Z Z nat nat :=
  {| ws_work_dir := "/home/run";
     ws_cfg := {| cfg_load_checkpoint := false; cfg_checkpoint_dir := "run";
                  cfg_checkpoint_name := "cp_4"; cfg_seed := 1;
                  cfg_device := "cpu"; cfg_multi_agent_mode := "individual";
                  cfg_replay_buffer_capacity := 3; cfg_mode := "eval";
                  cfg_num_eval_episodes := 0; cfg_num_train_steps := 4;
                  cfg_num_seed_steps := 1; cfg_eval_frequency := 2;
                  cfg_save_checkpoint := true |};
     ws_env := O; ws_agent_ids := ["a"; "b"]; ws_loggers := loggers;
     ws_multi_agent := Individual (individual 3); ws_step := 0 |}.

(** The same two steps into a run, configured with [eval_frequency = 0]. *)
Definition workspace_no_period : @Workspace Z Z Z nat nat :=
  {| ws_work_dir := "/home/run";
     ws_cfg := {| cfg_load_checkpoint := false; cfg_checkpoint_dir := "run";
                  cfg_checkpoint_name := "cp_4"; cfg_seed := 1;
                  cfg_device := "cpu"; cfg_multi_agent_mode := "individual";
                  cfg_replay_buffer_capacity := 3; cfg_mode := "train";
                  cfg_num_eval_episodes := 1; cfg_num_train_steps := 4;
                  cfg_num_seed_steps := 1; cfg_eval_frequency := 0;
                  cfg_save_checkpoint := true |};
     ws_env := O; ws_agent_ids := ["a"; "b"]; ws_loggers := loggers;
     ws_multi_agent := Individual (individual 3); ws_step := 2 |}.

(** An environment without agents. *)
Definition no_agents : @FlowEnv Z Z Z unit nat := {|
  env_agents _ := [];
  env_horizon := 2;
  observation_shape _ _ := [3];
  action_shape _ _ := [1];
  action_range _ _ := tt;
  env_seed _ e := e;
  env_reset _ := (∅, O);
  env_step _ e := (∅, ∅, true, S e);
  space_sample _ e := (7, e);
  reward_zero := 0;
  reward_add := Z.add;
  reward_div := Z.div
|}.

End Toy.

(** * Properties *)

Section Properties.

Context {Obs Action Reward Core Params Optim Range Env : Type}.
Context {L : @Learning Obs Action Reward Core Params Optim Range}.
Context {E : @FlowEnv Obs Action Reward Range Env}.

Local Open Scope py_scope.

Abbreviation Ev := (@event Obs Action Reward).
Abbreviation Prog := (@M Obs Action Reward).
Abbreviation silent := (@nil Ev).

(** ** Running a method step by step *)

Lemma bind_Ret {S A B} (m : Prog S A) (f : A → Prog S B) s a s1 t1 :
  m s = (Ret a, s1, t1) →
  bind m f s = ((f a s1).1.1, (f a s1).1.2, t1 ++ (f a s1).2).
Proof. unfold bind. intros ->. by destruct (f a s1) as [[r s2] t2]. Qed.

Lemma bind_Raise {S A B} (m : Prog S A) (f : A → Prog S B) s e s1 t1 :
  m s = (Raise e, s1, t1) → bind m f s = (Raise e, s1, t1).
Proof. unfold bind. by intros ->. Qed.

Lemma bind_OutOfFuel {S A B} (m : Prog S A) (f : A → Prog S B) s s1 t1 :
  m s = (OutOfFuel, s1, t1) → bind m f s = (OutOfFuel, s1, t1).
Proof. unfold bind. by intros ->. Qed.

(** A bind whose first part leaves no trace and returns. *)
Lemma bind_quiet {S A B} (m : Prog S A) (f : A → Prog S B) s a s1 :
  m s = (Ret a, s1, []) → bind m f s = f a s1.
Proof. unfold bind. intros ->. by destruct (f a s1) as [[r s2] t2]. Qed.

Lemma bind_Ret_run {S A B} (m : Prog S A) (f : A → Prog S B) s a s1 t1 r s2 t2 :
  m s = (Ret a, s1, t1) → f a s1 = (r, s2, t2) →
  bind m f s = (r, s2, t1 ++ t2).
Proof. unfold bind. by intros -> ->. Qed.

Lemma bind_emit {S B} (ev : Ev) (f : unit → Prog S B) s r s2 t :
  f tt s = (r, s2, t) → bind (emit ev) f s = (r, s2, ev :: t).
Proof. unfold bind, emit. by intros ->. Qed.

Lemma bind_inv {S A B} (m : Prog S A) (f : A → Prog S B) s r s2 t :
  bind m f s = (r, s2, t) →
  (∃ a s1 t1 t2, m s = (Ret a, s1, t1) ∧ f a s1 = (r, s2, t2) ∧ t = t1 ++ t2)
  ∨ (m s = (match r with Ret _ => OutOfFuel | Raise e => Raise e
                     | OutOfFuel => OutOfFuel end, s2, t)
     ∧ ∀ b, r ≠ Ret b).
Proof.
  unfold bind. destruct (m s) as [[[a|e|] s1] t1].
  - destruct (f a s1) as [[r' s2'] t2] eqn:Hf. intros [= <- <- <-].
    left. by exists a, s1, t1, t2.
  - intros [= <- <- <-]. by right.
  - intros [= <- <- <-]. by right.
Qed.

Lemma for_each_cons {S X} (x : X) (l : list X) (body : X → Prog S unit) :
  for_each (x :: l) body = (body x ;; for_each l body).
Proof. reflexivity. Qed.

Lemma dict_get_Some {S V} (d : gmap string V) k v (s : S) :
  d !! k = Some v → dict_get d k s = (Ret v, s, silent).
Proof. unfold dict_get. by intros ->. Qed.

Lemma dict_get_None {S V} (d : gmap string V) k (s : S) :
  d !! k = None → dict_get d k s = (Raise (KeyError k), s, silent).
Proof. unfold dict_get. by intros ->. Qed.

(** ** Unrecognized acting mode *)

Lemma IndividualMultiAgent_act_other_mode obs sample mode self :
  mode ≠ None → mode ≠ Some "train" → mode ≠ Some "eval" →
  IndividualMultiAgent_act obs sample mode self
  = (Raise no_valid_acting_mode, self, []).
Proof.
  intros Hn Ht He. unfold IndividualMultiAgent_act.
  rewrite (bind_quiet _ _ self (i_agent_ids self) self); [|done].
  by repeat case_decide.
Qed.

Lemma SharedMultiAgent_act_other_mode obs sample mode self :
  mode ≠ None → mode ≠ Some "train" → mode ≠ Some "eval" →
  SharedMultiAgent_act obs sample mode self
  = (Raise no_valid_acting_mode, self, []).
Proof.
  intros Hn Ht He. unfold SharedMultiAgent_act.
  rewrite (bind_quiet _ _ self (s_agent_ids self) self); [|done].
  by repeat case_decide.
Qed.


(** ** Acting in train mode on the shared controller *)

Lemma SharedMultiAgent_act_train obs sample self :
  s_agent_ids self ≠ [] →
  SharedMultiAgent_act obs sample (Some "train") self
  = (Raise (AttributeError
              "'SharedMultiAgent' object has no attribute 'agents'"),
     self, []).
Proof.
  intros Hne. unfold SharedMultiAgent_act.
  rewrite (bind_quiet _ _ self (s_agent_ids self) self); [|done].
  destruct (s_agent_ids self) as [|a ids]; [done|].
  repeat case_decide; done.
Qed.

(** ** Updates of the shared learner *)

Lemma shared_update_loop ids : ∀ ids0 dev mode tr c b loggers step lgs,
  Forall2 (λ a lg, loggers !! a = Some lg) ids lgs →
  for_each ids (λ agent,
    b <- gets s_replay_buffer ;;
    lg <- dict_get loggers agent ;;
    @s_on_agent _ _ _ _ _ (Learner_update SharedAgent SharedBuffer b lg step))
    {| s_agent_ids := ids0; s_device := dev; s_mode := mode;
       s_agent := {| training := tr; core := c |}; s_replay_buffer := b |}
  = (Ret tt,
     {| s_agent_ids := ids0; s_device := dev; s_mode := mode;
        s_agent :=
          {| training := tr;
             core := foldl (λ c lg, agent_update tr c b lg step) c lgs |};
        s_replay_buffer := b |},
     (λ lg, Ev_update SharedAgent SharedBuffer lg step) <$> lgs).
Proof.
  induction ids as [|a ids IH]; intros ids0 dev mode tr c b loggers step lgs Hl.
  - by inversion Hl.
  - inversion Hl as [|? lg ? lgs' Ha Hrest]; subst.
    rewrite for_each_cons.
    erewrite bind_Ret; last first.
    { erewrite bind_quiet; [|reflexivity].
      erewrite bind_quiet; [|by apply dict_get_Some].
      reflexivity. }
    unfold s_set_agent; simpl. rewrite (IH _ _ _ _ _ _ _ _ lgs'); [|done]. reflexivity.
Qed.


(** ** One transition per agent *)





(** C7. One call of [update] on the shared controller with [m] agent ids
    makes exactly [m] calls of the learner's [update], all on the one
    shared learner and the one shared store, the call for an agent id
    with that id's logger, in the order of the agent ids. *)
Theorem SharedMultiAgent_update_amortized
    (self : @SharedMultiAgent Obs Action Reward Core)
    (loggers : gmap string Logger) (step : Z) (lgs : list Logger) :
  Forall2 (λ a lg, loggers !! a = Some lg) (s_agent_ids self) lgs →
  SharedMultiAgent_update loggers step self
  = (Ret tt,
     s_set_agent
       {| training := training (s_agent self);
          core := foldl (λ c lg, agent_update (training (s_agent self)) c
                                   (s_replay_buffer self) lg step)
                    (core (s_agent self)) lgs |} self,
     (λ lg, Ev_update SharedAgent SharedBuffer lg step) <$> lgs)
  ∧ length ((λ lg, @Ev_update Obs Action Reward SharedAgent SharedBuffer lg step)
              <$> lgs)
    = length (s_agent_ids self).
Proof.
  intros Hl. split.
  - destruct self as [ids dev mode [tr c] b]. simpl in *.
    unfold SharedMultiAgent_update.
    erewrite bind_quiet; [|reflexivity].
    by apply shared_update_loop.
  - rewrite length_fmap. symmetry. by eapply Forall2_length.
Qed.

(** C5, as the code has it. For both variants and every mode other than
    [None], ["train"] and ["eval"], [act] raises the built-in
    [Exception] with the message [ERROR: NO VALID ACTING MODE!]; no
    learner is called, the controller is left as it was, and no action
    is returned. *)
Theorem act_unknown_mode_raises_Exception
    (obs : gmap string Obs) (sample : bool) (mode : option string) :
  mode ≠ None → mode ≠ Some "train" → mode ≠ Some "eval" →
  (∀ self : @IndividualMultiAgent Obs Action Reward Core,
     IndividualMultiAgent_act obs sample mode self
     = (Raise (PyExn "Exception" "ERROR: NO VALID ACTING MODE!"), self, silent))
  ∧ (∀ self : @SharedMultiAgent Obs Action Reward Core,
       SharedMultiAgent_act obs sample mode self
       = (Raise (PyExn "Exception" "ERROR: NO VALID ACTING MODE!"), self, silent)).
Proof.
  intros Hn Ht He. split; intros self.
  - by apply IndividualMultiAgent_act_other_mode.
  - by apply SharedMultiAgent_act_other_mode.
Qed.

(** C4, where the code departs from it. On a shared controller with at
    least one agent id, [act] with [mode="train"] raises
    [AttributeError]: the [with] statement names [self.agents], which
    the shared controller does not have. No learner is called and no
    action map is returned. *)
Theorem SharedMultiAgent_act_train_mode_fails
    (obs : gmap string Obs) (sample : bool)
    (self : @SharedMultiAgent Obs Action Reward Core) :
  s_agent_ids self ≠ [] →
  SharedMultiAgent_act obs sample (Some "train") self
  = (Raise (AttributeError "'SharedMultiAgent' object has no attribute 'agents'"),
     self, silent).
Proof. apply SharedMultiAgent_act_train. Qed.


(** ** The store as a list of rows *)

Lemma ReplayBuffer_add_write_row (b : @ReplayBuffer Obs Action Reward)
    o a r o' done done_no_max :
  ReplayBuffer_add b o a r o' done done_no_max
  = write_row b (row_of_transition o a r o' done done_no_max).
Proof. reflexivity. Qed.

Lemma replay_row_write_row (b : @ReplayBuffer Obs Action Reward) r :
  replay_row b r = write_row b r.
Proof.
  unfold replay_row, ReplayBuffer_add, write_row, py_not. simpl.
  by rewrite !negb_involutive.
Qed.

Lemma foldl_replay_row_write_row (rs : list (@Row Obs Action Reward)) : ∀ b,
  foldl replay_row b rs = foldl write_row b rs.
Proof.
  induction rs as [|r rs IH]; intros b; [done|].
  simpl. by rewrite replay_row_write_row, IH.
Qed.

Lemma ReplayBuffer_new_rows cap (blank : nat → @Row Obs Action Reward) :
  ReplayBuffer_new cap blank = buffer_of_rows (blank <$> seq 0 cap) 0 false.
Proof.
  unfold ReplayBuffer_new, buffer_of_rows.
  rewrite length_fmap, length_seq. by rewrite <- !list_fmap_compose.
Qed.

Lemma write_row_rows (pre post : list (@Row Obs Action Reward)) p r f :
  write_row (buffer_of_rows (pre ++ p :: post) (length pre) f) r
  = buffer_of_rows (pre ++ r :: post)
      ((length pre + 1) `mod` length (pre ++ p :: post))
      (f || ((length pre + 1) `mod` length (pre ++ p :: post) =? 0))%nat.
Proof.
  unfold write_row, buffer_of_rows. simpl.
  rewrite <- !list_fmap_insert.
  assert (<[length pre := r]> (pre ++ p :: post) = pre ++ r :: post) as ->.
  { rewrite insert_app_r_alt; [|done]. by rewrite Nat.sub_diag. }
  f_equal. by rewrite !length_app.
Qed.

(** Writing [rs] into a store that has room for them: they land after
    the rows written before, the cursor moves on by their number, and
    the store is full exactly when the room is used up. *)
Lemma foldl_write_row_rows (rs : list (@Row Obs Action Reward)) :
  ∀ pre post f,
  (length rs ≤ length post)%nat →
  foldl write_row (buffer_of_rows (pre ++ post) (length pre) f) rs
  = buffer_of_rows (pre ++ rs ++ drop (length rs) post)
      (match rs with
       | [] => length pre
       | _ => (length pre + length rs) `mod` (length pre + length post)
       end)%nat
      (f || match rs with
            | [] => false
            | _ => (length post =? length rs)%nat
            end).
Proof.
  induction rs as [|r rs IH]; intros pre post f Hlen.
  - simpl. by rewrite drop_0, orb_false_r.
  - destruct post as [|p post]; [simpl in Hlen; lia|].
    simpl in Hlen. simpl foldl. rewrite write_row_rows.
    rewrite length_app. simpl length.
    destruct rs as [|r' rs].
    + simpl. rewrite drop_0. f_equal. f_equal.
      destruct post as [|p' post]; simpl.
      * by rewrite Nat.Div0.mod_same.
      * rewrite Nat.mod_small by lia.
        destruct (length pre + 1)%nat eqn:?; [lia|done].
    + assert (length pre + 1 < length pre + S (length post))%nat
        by (simpl in Hlen; lia).
      rewrite Nat.mod_small by done.
      replace ((length pre + 1 =? 0)%nat) with false
        by (symmetry; apply Nat.eqb_neq; lia).
      rewrite orb_false_r.
      replace (pre ++ r :: post) with ((pre ++ [r]) ++ post)
        by (by rewrite <- app_assoc).
      replace (length pre + 1)%nat with (length (pre ++ [r]))
        by (rewrite length_app; simpl; lia).
      rewrite IH by (simpl in *; lia).
      rewrite <- !app_assoc. simpl. rewrite length_app. simpl.
      do 2 f_equal; lia.
Qed.


Lemma written_rows cap (blank : nat → @Row Obs Action Reward) rs :
  (length rs ≤ cap)%nat →
  foldl write_row (ReplayBuffer_new cap blank) rs
  = buffer_of_rows (rs ++ drop (length rs) (blank <$> seq 0 cap))
      (cursor_after cap (length rs)) (full_after cap (length rs)).
Proof.
  intros Hlen. rewrite ReplayBuffer_new_rows.
  pose proof (foldl_write_row_rows rs [] (blank <$> seq 0 cap) false) as H.
  simpl in H. rewrite H by (by rewrite length_fmap, length_seq).
  rewrite length_fmap, length_seq. by destruct rs.
Qed.

(** Round trip within capacity: replaying the first [k] saved rows of a
    store that received [k <= capacity] insertions since it was created
    gives a store with the same cursor, the same [full] flag and the
    same [k] rows; the slots never written keep what the new memory
    held. *)
Lemma replay_roundtrip cap (blank blank' : nat → @Row Obs Action Reward) rs :
  (length rs ≤ cap)%nat →
  foldl replay_row (ReplayBuffer_new cap blank')
    (take (length rs) (rs ++ drop (length rs) (blank <$> seq 0 cap)))
  = buffer_of_rows (rs ++ drop (length rs) (blank' <$> seq 0 cap))
      (cursor_after cap (length rs)) (full_after cap (length rs)).
Proof.
  intros Hlen. rewrite take_app_length.
  rewrite foldl_replay_row_write_row. by apply written_rows.
Qed.

(** ** Reading a checkpoint back *)

Lemma on_self_run {C A} (m : Prog C A) (c : C)
    (fs : gmap string (@file Obs Action Reward Params Optim)) :
  on_self m (c, fs) = ((m c).1.1, ((m c).1.2, fs), (m c).2).
Proof. unfold on_self, zoom. simpl. by destruct (m c) as [[r c'] t]. Qed.

Lemma array_get_Some {S V} (a : list V) i v (s : S) :
  a !! i = Some v → array_get a i s = (Ret v, s, silent).
Proof. unfold array_get. by intros ->. Qed.

Lemma array_get_None {S V} (a : list V) i (s : S) :
  a !! i = None →
  array_get a i s
  = (Raise (IndexError "index out of bounds for axis 0"), s, silent).
Proof. unfold array_get. by intros ->. Qed.

Lemma npz_row_Some {S} (rows : list (@Row Obs Action Reward)) i r (s : S) :
  rows !! i = Some r →
  npz_row (npz_of_rows rows) i s
  = (Ret {| r_obs := r_obs r; r_next_obs := r_next_obs r;
            r_action := r_action r; r_reward := r_reward r;
            r_not_done := r_not_done r;
            r_not_done_no_max := r_not_done_no_max r |}, s, silent).
Proof.
  intros Hr. unfold npz_row, npz_of_rows. simpl.
  repeat (erewrite bind_quiet;
          [|apply array_get_Some; by rewrite list_lookup_fmap, Hr]).
  reflexivity.
Qed.

Lemma npz_row_None {S} (rows : list (@Row Obs Action Reward)) i (s : S) :
  (length rows ≤ i)%nat →
  npz_row (npz_of_rows rows) i s
  = (Raise (IndexError "index out of bounds for axis 0"), s, silent).
Proof.
  intros Hi. unfold npz_row, npz_of_rows. simpl.
  erewrite bind_Raise; [done|].
  apply array_get_None. apply lookup_ge_None. by rewrite length_fmap.
Qed.



Lemma ModuleDict_load_state_dict_run (m : gmap string Params) ids dev mode
    (bufs : gmap string (@ReplayBuffer Obs Action Reward))
    (ags : gmap string (@Learner Core)) :
  dom m = dom ags →
  ∃ ags',
    ModuleDict_load_state_dict (Models_per_agent m)
      {| i_agent_ids := ids; i_device := dev; i_mode := mode;
         i_replay_buffers := bufs; i_agents := ags |}
    = (Ret tt,
       {| i_agent_ids := ids; i_device := dev; i_mode := mode;
          i_replay_buffers := bufs; i_agents := ags' |}, silent)
    ∧ ∀ a, is_Some (ags !! a) → is_Some (ags' !! a).
Proof.
  intros Hdom. eexists. split.
  - unfold ModuleDict_load_state_dict.
    erewrite bind_quiet; [|reflexivity]. simpl.
    rewrite decide_True by done. reflexivity.
  - intros a [l Hl]. cbn [i_agents]. rewrite lookup_merge, Hl. simpl.
    destruct (m !! a); by eexists.
Qed.

Lemma i_on_agent_quiet {B} (m : Prog (@Learner Core) B) a l x l' ids dev mode
    (bufs : gmap string (@ReplayBuffer Obs Action Reward)) ags :
  ags !! a = Some l →
  m l = (Ret x, l', silent) →
  i_on_agent a B m
    {| i_agent_ids := ids; i_device := dev; i_mode := mode;
       i_replay_buffers := bufs; i_agents := ags |}
  = (Ret x,
     {| i_agent_ids := ids; i_device := dev; i_mode := mode;
        i_replay_buffers := bufs; i_agents := <[a := l']> ags |}, silent).
Proof. intros Ha Hm. unfold i_on_agent. cbn [i_agents]. by rewrite Ha, Hm. Qed.

Lemma on_self_i_on_agent_quiet {B} (m : Prog (@Learner Core) B) a l x l'
    ids dev mode (bufs : gmap string (@ReplayBuffer Obs Action Reward)) ags
    (fs : gmap string (@file Obs Action Reward Params Optim)) :
  ags !! a = Some l →
  m l = (Ret x, l', silent) →
  on_self (i_on_agent a B m)
    ({| i_agent_ids := ids; i_device := dev; i_mode := mode;
        i_replay_buffers := bufs; i_agents := ags |}, fs)
  = (Ret x,
     ({| i_agent_ids := ids; i_device := dev; i_mode := mode;
         i_replay_buffers := bufs; i_agents := <[a := l']> ags |}, fs),
     silent).
Proof.
  intros Ha Hm. rewrite on_self_run.
  by erewrite i_on_agent_quiet.
Qed.

Lemma individual_optimizer_loop (optims : gmap string (@optim_states Optim)) l :
  ∀ ids dev mode (bufs : gmap string (@ReplayBuffer Obs Action Reward))
    (ags : gmap string (@Learner Core))
    (fs : gmap string (@file Obs Action Reward Params Optim)),
  (∀ a, a ∈ l → is_Some (ags !! a) ∧ is_Some (optims !! a)) →
  ∃ ags',
    for_each l (λ agent,
      on_self (i_on_agent agent unit (ret tt)) ;;
      st <- optims_of_agent (Optims_per_agent optims) agent ;;
      on_self (i_on_agent agent unit
        (Learner_optimizer_load critic_optimizer (os_critic st))) ;;
      on_self (i_on_agent agent unit
        (Learner_optimizer_load actor_optimizer (os_actor st))) ;;
      on_self (i_on_agent agent unit
        (Learner_optimizer_load log_alpha_optimizer (os_alpha st))))
      ({| i_agent_ids := ids; i_device := dev; i_mode := mode;
          i_replay_buffers := bufs; i_agents := ags |}, fs)
    = (Ret tt,
       ({| i_agent_ids := ids; i_device := dev; i_mode := mode;
           i_replay_buffers := bufs; i_agents := ags' |}, fs), silent)
    ∧ ∀ a, is_Some (ags !! a) → is_Some (ags' !! a).
Proof.
  induction l as [|a l IH]; intros ids dev mode bufs ags fs Hok.
  - by exists ags.
  - destruct (Hok a) as [[lr Hlr] [st Hst]]; [by left|].
    edestruct (IH ids dev mode bufs) as (ags' & Hrun & Hmono); last first.
    { exists ags'. split.
      - rewrite for_each_cons.
        erewrite bind_quiet; [exact Hrun|].
        erewrite bind_quiet;
          [|by eapply on_self_i_on_agent_quiet; [exact Hlr|]].
        erewrite bind_quiet; [|by apply dict_get_Some].
        erewrite bind_quiet;
          [|by eapply on_self_i_on_agent_quiet; [apply lookup_insert_eq|]].
        erewrite bind_quiet;
          [|by eapply on_self_i_on_agent_quiet; [apply lookup_insert_eq|]].
        by eapply on_self_i_on_agent_quiet; [apply lookup_insert_eq|].
      - intros a' Ha'. apply Hmono.
        rewrite !insert_insert_eq.
        destruct (decide (a = a')) as [->|Hne].
        + rewrite lookup_insert_eq. by eexists.
        + by rewrite lookup_insert_ne. }
    intros a' Ha'. destruct (Hok a') as [Hs Ho]; [by right|]. split; [|done].
    rewrite !insert_insert_eq.
    destruct (decide (a = a')) as [->|Hne].
    + rewrite lookup_insert_eq. by eexists.
    + by rewrite lookup_insert_ne.
Qed.


Lemma np_load_Some {C} path d (c : C)
    (fs : gmap string (@file Obs Action Reward Params Optim)) :
  fs !! path = Some (Npz_file d) →
  np_load path (c, fs) = (Ret d, (c, fs), silent).
Proof.
  intros Hf. unfold np_load.
  erewrite bind_quiet; [|reflexivity]. simpl. by rewrite Hf.
Qed.

Lemma torch_load_Some {C} path device st (c : C)
    (fs : gmap string (@file Obs Action Reward Params Optim)) :
  fs !! path = Some (Pt_file st) →
  torch_load path device (c, fs) = (Ret st, (c, fs), silent).
Proof.
  intros Hf. unfold torch_load.
  erewrite bind_quiet; [|reflexivity]. simpl. by rewrite Hf.
Qed.




Lemma shared_replay_loop (rows : list (@Row Obs Action Reward)) n :
  ∀ k ids dev mode (ag : @Learner Core) b
    (fs : gmap string (@file Obs Action Reward Params Optim)),
  (k + n ≤ length rows)%nat →
  for_each (seq k n) (λ i,
    row <- npz_row (npz_of_rows rows) i ;;
    on_self (modify (λ self,
      s_set_replay_buffer (replay_row (s_replay_buffer self) row) self)))
    ({| s_agent_ids := ids; s_device := dev; s_mode := mode;
        s_agent := ag; s_replay_buffer := b |}, fs)
  = (Ret tt,
     ({| s_agent_ids := ids; s_device := dev; s_mode := mode; s_agent := ag;
         s_replay_buffer := foldl replay_row b (take n (drop k rows)) |}, fs),
     silent).
Proof.
  induction n as [|n IH]; intros k ids dev mode ag b fs Hlen.
  - reflexivity.
  - destruct (lookup_lt_is_Some_2 rows k) as [r Hr]; [lia|].
    simpl seq. rewrite for_each_cons.
    erewrite bind_quiet; last first.
    { erewrite bind_quiet; [|by apply npz_row_Some].
      rewrite on_self_run. reflexivity. }
    unfold s_set_replay_buffer. simpl.
    erewrite IH; [|lia].
    by rewrite (drop_S _ _ _ Hr).
Qed.

Lemma on_self_s_on_agent_quiet {B} (m : Prog (@Learner Core) B) ag x ag'
    ids dev mode (b : @ReplayBuffer Obs Action Reward)
    (fs : gmap string (@file Obs Action Reward Params Optim)) :
  m ag = (Ret x, ag', silent) →
  on_self (s_on_agent B m)
    ({| s_agent_ids := ids; s_device := dev; s_mode := mode;
        s_agent := ag; s_replay_buffer := b |}, fs)
  = (Ret x,
     ({| s_agent_ids := ids; s_device := dev; s_mode := mode;
         s_agent := ag'; s_replay_buffer := b |}, fs),
     silent).
Proof.
  intros Hm. rewrite on_self_run. unfold s_on_agent, zoom.
  cbn [s_agent]. by rewrite Hm.
Qed.

Lemma SharedMultiAgent_load_checkpoint_replays
    (rows : list (@Row Obs Action Reward))
    dir checkpoint device ids dev (ag : @Learner Core) b
    (fs : gmap string (@file Obs Action Reward Params Optim))
    s p st :
  let checkpoint_dir := path_join dir checkpoint in
  fs !! path_join checkpoint_dir "checkpoint.pt"
  = Some (Pt_file {| ts_step := s; ts_models := Models_single p;
                     ts_optims := Optims_single st |}) →
  fs !! path_join checkpoint_dir "replay_buffer.npz"
  = Some (Npz_file (npz_of_rows rows)) →
  (Z.to_nat (s * Z.of_nat (length ids)) ≤ length rows)%nat →
  ∃ ag',
    SharedMultiAgent_load_checkpoint dir checkpoint device
      ({| s_agent_ids := ids; s_device := dev; s_mode := "train";
          s_agent := ag; s_replay_buffer := b |}, fs)
    = (Ret s,
       ({| s_agent_ids := ids; s_device := dev; s_mode := "train";
           s_agent := ag';
           s_replay_buffer :=
             foldl replay_row b
               (take (Z.to_nat (s * Z.of_nat (length ids))) rows) |}, fs),
       [Stdout ("started loading checkpoint " +:+ checkpoint);
        Stdout ("loading checkpoint " +:+ checkpoint +:+ " finished")]).
Proof.
  intros checkpoint_dir Hpt Hnpz Hlen. eexists.
  unfold SharedMultiAgent_load_checkpoint.
  apply bind_emit.
  erewrite bind_quiet; [|by apply torch_load_Some].
  cbn [ts_models ts_step ts_optims].
  erewrite bind_quiet; [|by apply on_self_s_on_agent_quiet].
  erewrite bind_quiet; [|reflexivity].
  do 3 (erewrite bind_quiet; [|by apply on_self_s_on_agent_quiet]).
  erewrite bind_quiet; [|reflexivity].
  erewrite bind_quiet; [|reflexivity].
  cbn [s_mode fst snd]. rewrite decide_True by done.
  erewrite bind_quiet; last first.
  { erewrite bind_quiet; [|by apply np_load_Some].
    erewrite shared_replay_loop; [|simpl; lia]. by rewrite drop_0. }
  reflexivity.
Qed.


(** ** Replaying more rows than the archive holds *)


Lemma shared_replay_overrun (rows : list (@Row Obs Action Reward)) n :
  ∀ k ids dev mode (ag : @Learner Core) b
    (fs : gmap string (@file Obs Action Reward Params Optim)),
  (k ≤ length rows < k + n)%nat →
  for_each (seq k n) (λ i,
    row <- npz_row (npz_of_rows rows) i ;;
    on_self (modify (λ self,
      s_set_replay_buffer (replay_row (s_replay_buffer self) row) self)))
    ({| s_agent_ids := ids; s_device := dev; s_mode := mode;
        s_agent := ag; s_replay_buffer := b |}, fs)
  = (Raise (IndexError "index out of bounds for axis 0"),
     ({| s_agent_ids := ids; s_device := dev; s_mode := mode; s_agent := ag;
         s_replay_buffer := foldl replay_row b (drop k rows) |}, fs),
     silent).
Proof.
  induction n as [|n IH]; intros k ids dev mode ag b fs Hlen; [lia|].
  simpl seq. rewrite for_each_cons.
  destruct (decide (k < length rows)%nat) as [Hlt|Hge].
  - destruct (lookup_lt_is_Some_2 rows k) as [r Hr]; [lia|].
    erewrite bind_quiet; last first.
    { erewrite bind_quiet; [|by apply npz_row_Some].
      rewrite on_self_run. reflexivity. }
    unfold s_set_replay_buffer. simpl.
    erewrite IH; [|lia].
    by rewrite (drop_S _ _ _ Hr).
  - erewrite bind_Raise; last first.
    { erewrite bind_Raise; [done|]. apply npz_row_None. lia. }
    by rewrite drop_ge by lia.
Qed.

(** X7. Loading a shared checkpoint in train mode whose step counter
    times the number of agent ids asks for more rows than the archive
    holds: every saved row is replayed, then reading
    the next one raises [IndexError]; the call does not return. *)
Lemma SharedMultiAgent_load_checkpoint_overrun
    (rows : list (@Row Obs Action Reward))
    dir checkpoint device ids dev (ag : @Learner Core) b
    (fs : gmap string (@file Obs Action Reward Params Optim))
    s p st :
  let checkpoint_dir := path_join dir checkpoint in
  fs !! path_join checkpoint_dir "checkpoint.pt"
  = Some (Pt_file {| ts_step := s; ts_models := Models_single p;
                     ts_optims := Optims_single st |}) →
  fs !! path_join checkpoint_dir "replay_buffer.npz"
  = Some (Npz_file (npz_of_rows rows)) →
  (length rows < Z.to_nat (s * Z.of_nat (length ids)))%nat →
  ∃ ag',
    SharedMultiAgent_load_checkpoint dir checkpoint device
      ({| s_agent_ids := ids; s_device := dev; s_mode := "train";
          s_agent := ag; s_replay_buffer := b |}, fs)
    = (Raise (IndexError "index out of bounds for axis 0"),
       ({| s_agent_ids := ids; s_device := dev; s_mode := "train";
           s_agent := ag'; s_replay_buffer := foldl replay_row b rows |}, fs),
       [Stdout ("started loading checkpoint " +:+ checkpoint)]).
Proof.
  intros checkpoint_dir Hpt Hnpz Hlen. eexists.
  unfold SharedMultiAgent_load_checkpoint.
  apply bind_emit.
  erewrite bind_quiet; [|by apply torch_load_Some].
  cbn [ts_models ts_step ts_optims].
  erewrite bind_quiet; [|by apply on_self_s_on_agent_quiet].
  erewrite bind_quiet; [|reflexivity].
  do 3 (erewrite bind_quiet; [|by apply on_self_s_on_agent_quiet]).
  erewrite bind_quiet; [|reflexivity].
  erewrite bind_quiet; [|reflexivity].
  cbn [s_mode fst snd]. rewrite decide_True by done.
  erewrite bind_Raise; [reflexivity|].
  erewrite bind_quiet; [|by apply np_load_Some].
  erewrite shared_replay_overrun; [|simpl; lia]. by rewrite drop_0.
Qed.


(** ** What a method records *)

Section Emits.

Context (P : Ev → Prop).

Lemma emits_ret {S A} (a : A) : emits P (ret a : Prog S A).
Proof. intros s. constructor. Qed.

Lemma emits_raise {S A} e : emits P (raise e : Prog S A).
Proof. intros s. constructor. Qed.

Lemma emits_out_of_fuel {S A} : emits P (out_of_fuel : Prog S A).
Proof. intros s. constructor. Qed.

Lemma emits_emit {S} ev : P ev → emits P (emit ev : Prog S unit).
Proof. intros Hev s. by repeat constructor. Qed.

Lemma emits_get {S} : emits P (get : Prog S S).
Proof. intros s. constructor. Qed.

Lemma emits_gets {S A} (f : S → A) : emits P (gets f : Prog S A).
Proof. intros s. constructor. Qed.

Lemma emits_put {S} (s0 : S) : emits P (put s0 : Prog S unit).
Proof. intros s. constructor. Qed.

Lemma emits_modify {S} (f : S → S) : emits P (modify f : Prog S unit).
Proof. intros s. constructor. Qed.

Lemma emits_bind {S A B} (m : Prog S A) (f : A → Prog S B) :
  emits P m → (∀ a, emits P (f a)) → emits P (bind m f).
Proof.
  intros Hm Hf s. unfold bind. specialize (Hm s).
  destruct (m s) as [[[a|e|] s1] t1]; simpl in *; try done.
  specialize (Hf a s1). destruct (f a s1) as [[r s2] t2]. simpl in *.
  by apply Forall_app.
Qed.

Lemma emits_zoom {S T A} (g : S → T) (p : T → S → S) (m : Prog T A) :
  emits P m → emits P (zoom g p m).
Proof.
  intros Hm s. unfold zoom. specialize (Hm (g s)).
  by destruct (m (g s)) as [[r t1] tr].
Qed.

Lemma emits_finally {S A} (m : Prog S A) (h : Prog S unit) :
  emits P m → emits P h → emits P (finally m h).
Proof.
  intros Hm Hh s. unfold finally. specialize (Hm s).
  destruct (m s) as [[r s1] t1]. specialize (Hh s1).
  destruct (h s1) as [[[[]|e|] s2] t2]; simpl in *; by apply Forall_app.
Qed.

Lemma emits_for_in {S X A} (l : list X) (body : X → A → Prog S A) :
  (∀ x acc, emits P (body x acc)) → ∀ acc, emits P (for_in l acc body).
Proof.
  intros Hb. induction l as [|x l IH]; intros acc; simpl.
  - apply emits_ret.
  - apply emits_bind; [apply Hb|]. intros acc'. apply IH.
Qed.

Lemma emits_for_each {S X} (l : list X) (body : X → Prog S unit) :
  (∀ x, emits P (body x)) → emits P (for_each l body).
Proof.
  intros Hb. induction l as [|x l IH]; simpl.
  - apply emits_ret.
  - apply emits_bind; [apply Hb|]. intros _. apply IH.
Qed.

Lemma emits_dict_get {S V} (d : gmap string V) k :
  emits P (dict_get d k : Prog S V).
Proof. unfold dict_get. destruct (d !! k); [apply emits_ret|apply emits_raise]. Qed.

Lemma emits_array_get {S V} (a : list V) i :
  emits P (array_get a i : Prog S V).
Proof. unfold array_get. destruct (a !! i); [apply emits_ret|apply emits_raise]. Qed.

Lemma emits_shape0 {S} shape : emits P (shape0 shape : Prog S Z).
Proof. destruct shape; [apply emits_raise|apply emits_ret]. Qed.

Lemma emits_dispatch {A} (mi : Prog (@IndividualMultiAgent Obs Action Reward Core) A)
    (ms : Prog (@SharedMultiAgent Obs Action Reward Core) A) :
  emits P mi → emits P ms → emits P (dispatch mi ms).
Proof.
  intros Hi Hs [c|c]; unfold dispatch.
  - specialize (Hi c). by destruct (mi c) as [[r c'] t].
  - specialize (Hs c). by destruct (ms c) as [[r c'] t].
Qed.

Lemma emits_dispatch_fs {A}
    (mi : Prog (@IndividualMultiAgent Obs Action Reward Core
                * gmap string (@file Obs Action Reward Params Optim)) A)
    (ms : Prog (@SharedMultiAgent Obs Action Reward Core
                * gmap string (@file Obs Action Reward Params Optim)) A) :
  emits P mi → emits P ms → emits P (dispatch_fs mi ms).
Proof.
  intros Hi Hs [[c|c] fs]; unfold dispatch_fs; simpl.
  - specialize (Hi (c, fs)). by destruct (mi (c, fs)) as [[r c'] t].
  - specialize (Hs (c, fs)). by destruct (ms (c, fs)) as [[r c'] t].
Qed.

Lemma emits_i_on_agent {B} agent (m : Prog (@Learner Core) B) :
  emits P m → emits P (i_on_agent agent B m).
Proof.
  intros Hm s. unfold i_on_agent.
  destruct (i_agents s !! agent) as [l|]; [|constructor].
  specialize (Hm l). by destruct (m l) as [[r l'] t].
Qed.

Lemma emits_with_mode {S A} flag me
    (on_model : ∀ B, Prog (@Learner Core) B → Prog S B) (body : Prog S A) :
  (∀ B (m : Prog (@Learner Core) B), emits P m → emits P (on_model B m)) →
  P (Ev_train me flag) → (∀ prev, P (Ev_train me prev)) →
  emits P body → emits P (with_mode flag me on_model body).
Proof.
  intros Hon Hflag Hprev Hbody. unfold with_mode.
  apply emits_bind; [apply Hon, emits_gets|]. intros prev.
  apply emits_bind.
  { apply Hon. unfold Learner_train.
    apply emits_bind; [by apply emits_emit|]. intros _. apply emits_modify. }
  intros _. apply emits_finally; [done|].
  apply Hon. unfold Learner_train.
  apply emits_bind; [by apply emits_emit|]. intros _. apply emits_modify.
Qed.

End Emits.

Lemma emits_weaken {S A} (P Q : Ev → Prop) (m : Prog S A) :
  (∀ ev, P ev → Q ev) → emits P m → emits Q m.
Proof. intros HPQ Hm s. eapply Forall_impl; [apply Hm|done]. Qed.

(** One step of the proof that a method records only calls that
    satisfy a property. *)
Ltac emits_step :=
  match goal with
  | |- emits _ (bind _ _) => apply emits_bind; [|intros]
  | |- emits _ (ret _) => apply emits_ret
  | |- emits _ (raise _) => apply emits_raise
  | |- emits _ out_of_fuel => apply emits_out_of_fuel
  | |- emits _ (emit _) => apply emits_emit
  | |- emits _ get => apply emits_get
  | |- emits _ (gets _) => apply emits_gets
  | |- emits _ (put _) => apply emits_put
  | |- emits _ (modify _) => apply emits_modify
  | |- emits _ (dict_get _ _) => apply emits_dict_get
  | |- emits _ (array_get _ _) => apply emits_array_get
  | |- emits _ (shape0 _) => apply emits_shape0
  | |- emits _ (for_in _ _ _) => apply emits_for_in; intros
  | |- emits _ (for_each _ _) => apply emits_for_each; intros
  | |- emits _ (zoom _ _ _) => apply emits_zoom
  | |- emits _ (finally _ _) => apply emits_finally
  | |- emits _ (dispatch _ _) => apply emits_dispatch
  | |- emits _ (dispatch_fs _ _) => apply emits_dispatch_fs
  | |- emits _ (i_on_agent _ _ _) => apply emits_i_on_agent
  | |- emits _ (if ?b then _ else _) => destruct b
  | |- emits _ (match ?x with _ => _ end) => destruct x
  end.

Ltac emits_auto := repeat emits_step.


(** The controllers record calls on learners only: none of their
    methods calls back into the controller interface. *)
Abbreviation low_level := (λ ev : Ev, is_call ev = false).

Ltac emits_unfold :=
  unfold Learner_act, Learner_update, Learner_reset, Learner_train,
    Learner_load_state_dict, Learner_optimizer_load, s_on_agent, on_self,
    on_env, on_multi_agent, on_workspace, on_multi_agent_fs,
    i_act_one, s_act_one, eval_mode, train_mode,
    torch_load, torch_save, np_load, np_savez, npz_row, optims_of_agent,
    Env_reset_call, Env_step_call, Space_sample_call, zero_rewards,
    add_rewards.

Ltac emits_solve :=
  repeat (emits_unfold; emits_step); try done.

Lemma emits_IndividualMultiAgent_act obs sample mode :
  emits low_level (IndividualMultiAgent_act obs sample mode).
Proof.
  unfold IndividualMultiAgent_act.
  emits_step; [emits_solve|].
  repeat case_decide; emits_step; try done;
    try (apply emits_with_mode;
         [intros; by apply emits_i_on_agent|done|done|]);
    emits_solve.
Qed.

Lemma emits_SharedMultiAgent_act obs sample mode :
  emits low_level (SharedMultiAgent_act obs sample mode).
Proof.
  unfold SharedMultiAgent_act.
  emits_step; [emits_solve|].
  repeat case_decide; emits_step; try done;
    try (apply emits_with_mode;
         [intros; unfold s_on_agent; by apply emits_zoom|done|done|]);
    emits_solve.
Qed.

Lemma emits_IndividualMultiAgent_update loggers step :
  emits low_level (IndividualMultiAgent_update loggers step).
Proof. unfold IndividualMultiAgent_update. emits_solve. Qed.

Lemma emits_SharedMultiAgent_update loggers step :
  emits low_level (SharedMultiAgent_update loggers step).
Proof. unfold SharedMultiAgent_update. emits_solve. Qed.

Lemma emits_IndividualMultiAgent_reset :
  emits low_level IndividualMultiAgent_reset.
Proof. unfold IndividualMultiAgent_reset. emits_solve. Qed.

Lemma emits_SharedMultiAgent_reset :
  emits low_level SharedMultiAgent_reset.
Proof. unfold SharedMultiAgent_reset. emits_solve. Qed.

Lemma emits_IndividualMultiAgent_add_to_buffer
    obs actions rewards next_obs done done_no_max :
  emits low_level
    (@IndividualMultiAgent_add_to_buffer Obs Action Reward Core
       obs actions rewards next_obs done done_no_max).
Proof. unfold IndividualMultiAgent_add_to_buffer. emits_solve. Qed.

Lemma emits_SharedMultiAgent_add_to_buffer
    obs actions rewards next_obs done done_no_max :
  emits low_level
    (@SharedMultiAgent_add_to_buffer Obs Action Reward Core
       obs actions rewards next_obs done done_no_max).
Proof. unfold SharedMultiAgent_add_to_buffer. emits_solve. Qed.

Lemma emits_IndividualMultiAgent_save_checkpoint dir step :
  emits low_level (IndividualMultiAgent_save_checkpoint dir step).
Proof. unfold IndividualMultiAgent_save_checkpoint. emits_solve. Qed.

Lemma emits_SharedMultiAgent_save_checkpoint dir step :
  emits low_level (SharedMultiAgent_save_checkpoint dir step).
Proof. unfold SharedMultiAgent_save_checkpoint. emits_solve. Qed.


(** ** What the workspace records *)

Section WorkspaceEmits.

Context (P : Ev → Prop) (Hlow : ∀ ev, is_call ev = false → P ev).

Lemma emits_MultiAgent_act obs sample mode :
  P (Call_act sample mode) → emits P (MultiAgent_act obs sample mode).
Proof.
  intros Hcall. unfold MultiAgent_act.
  emits_step; [by emits_step|]. emits_step.
  - eapply emits_weaken; [exact Hlow|apply emits_IndividualMultiAgent_act].
  - eapply emits_weaken; [exact Hlow|apply emits_SharedMultiAgent_act].
Qed.

Lemma emits_MultiAgent_update loggers step :
  P (Call_update step) → emits P (MultiAgent_update loggers step).
Proof.
  intros Hcall. unfold MultiAgent_update.
  emits_step; [by emits_step|]. emits_step.
  - eapply emits_weaken; [exact Hlow|apply emits_IndividualMultiAgent_update].
  - eapply emits_weaken; [exact Hlow|apply emits_SharedMultiAgent_update].
Qed.

Lemma emits_MultiAgent_reset : P Call_reset → emits P MultiAgent_reset.
Proof.
  intros Hcall. unfold MultiAgent_reset.
  emits_step; [by emits_step|]. emits_step.
  - eapply emits_weaken; [exact Hlow|apply emits_IndividualMultiAgent_reset].
  - eapply emits_weaken; [exact Hlow|apply emits_SharedMultiAgent_reset].
Qed.

Lemma emits_MultiAgent_add_to_buffer obs actions rewards next_obs
    done done_no_max :
  P (Call_add_to_buffer done done_no_max) →
  emits P (@MultiAgent_add_to_buffer Obs Action Reward Core
             obs actions rewards next_obs done done_no_max).
Proof.
  intros Hcall. unfold MultiAgent_add_to_buffer.
  emits_step; [by emits_step|]. emits_step.
  - eapply emits_weaken;
      [exact Hlow|apply emits_IndividualMultiAgent_add_to_buffer].
  - eapply emits_weaken;
      [exact Hlow|apply emits_SharedMultiAgent_add_to_buffer].
Qed.

Lemma emits_MultiAgent_save_checkpoint dir step :
  P (Call_save_checkpoint dir step) →
  emits P (MultiAgent_save_checkpoint dir step).
Proof.
  intros Hcall. unfold MultiAgent_save_checkpoint.
  emits_step; [by emits_step|]. emits_step.
  - eapply emits_weaken;
      [exact Hlow|apply emits_IndividualMultiAgent_save_checkpoint].
  - eapply emits_weaken;
      [exact Hlow|apply emits_SharedMultiAgent_save_checkpoint].
Qed.

Context (Hact : P (Call_act false (Some "eval"))) (Hreset : P Call_reset).

Lemma emits_evaluate_episode fuel : ∀ obs episode_rewards,
  emits P (evaluate_episode fuel obs episode_rewards).
Proof.
  induction fuel as [|fuel IH]; intros obs episode_rewards; simpl.
  - apply emits_out_of_fuel.
  - emits_step.
    { unfold on_multi_agent. emits_step. by apply emits_MultiAgent_act. }
    emits_solve; auto.
Qed.

Lemma emits_Workspace_evaluate fuel : emits P (Workspace_evaluate fuel).
Proof.
  unfold Workspace_evaluate.
  do 3 (emits_step; [emits_solve|]).
  emits_step.
  { emits_step. emits_step; [emits_solve; auto|].
    emits_step.
    { unfold on_multi_agent. emits_step. by apply emits_MultiAgent_reset. }
    emits_step; [emits_solve; auto|].
    emits_step; [emits_solve|].
    emits_step; [apply emits_evaluate_episode|].
    emits_solve; auto. }
  emits_solve; auto.
Qed.

End WorkspaceEmits.


(** ** What a method leaves unchanged *)

Section Preserves.

Context {S X : Type} (f : S → X).

Lemma preserves_ret {A} (a : A) : preserves f (ret a : Prog S A).
Proof. by intros s. Qed.

Lemma preserves_raise {A} e : preserves f (raise e : Prog S A).
Proof. by intros s. Qed.

Lemma preserves_out_of_fuel {A} : preserves f (out_of_fuel : Prog S A).
Proof. by intros s. Qed.

Lemma preserves_emit ev : preserves f (emit ev : Prog S unit).
Proof. by intros s. Qed.

Lemma preserves_gets {A} (g : S → A) : preserves f (gets g : Prog S A).
Proof. by intros s. Qed.

Lemma preserves_dict_get {V} (d : gmap string V) k :
  preserves f (dict_get d k : Prog S V).
Proof. intros s. unfold dict_get. by destruct (d !! k). Qed.

Lemma preserves_bind {A B} (m : Prog S A) (k : A → Prog S B) :
  preserves f m → (∀ a, preserves f (k a)) → preserves f (bind m k).
Proof.
  intros Hm Hk s. unfold bind. specialize (Hm s).
  destruct (m s) as [[[a|e|] s1] t1]; simpl in *; try done.
  specialize (Hk a s1). destruct (k a s1) as [[r s2] t2]. simpl in *.
  congruence.
Qed.

Lemma preserves_zoom {T A} (g : S → T) (p : T → S → S) (m : Prog T A) :
  (∀ t s, f (p t s) = f s) → preserves f (zoom g p m).
Proof.
  intros Hp s. unfold zoom. destruct (m (g s)) as [[r t1] tr]. apply Hp.
Qed.

Lemma preserves_for_in {Y A} (l : list Y) (body : Y → A → Prog S A) :
  (∀ x acc, preserves f (body x acc)) → ∀ acc, preserves f (for_in l acc body).
Proof.
  intros Hb. induction l as [|x l IH]; intros acc; simpl.
  - apply preserves_ret.
  - apply preserves_bind; [apply Hb|]. intros acc'. apply IH.
Qed.

Lemma preserves_for_each {Y} (l : list Y) (body : Y → Prog S unit) :
  (∀ x, preserves f (body x)) → preserves f (for_each l body).
Proof.
  intros Hb. induction l as [|x l IH]; simpl.
  - apply preserves_ret.
  - apply preserves_bind; [apply Hb|]. intros _. apply IH.
Qed.

End Preserves.

Ltac preserves_step :=
  match goal with
  | |- preserves _ (bind _ _) => apply preserves_bind; [|intros]
  | |- preserves _ (ret _) => apply preserves_ret
  | |- preserves _ (raise _) => apply preserves_raise
  | |- preserves _ out_of_fuel => apply preserves_out_of_fuel
  | |- preserves _ (emit _) => apply preserves_emit
  | |- preserves _ (gets _) => apply preserves_gets
  | |- preserves _ (dict_get _ _) => apply preserves_dict_get
  | |- preserves _ (for_in _ _ _) => apply preserves_for_in; intros
  | |- preserves _ (for_each _ _) => apply preserves_for_each; intros
  | |- preserves _ (zoom _ _ _) => apply preserves_zoom; by intros
  | |- preserves _ (if ?b then _ else _) => destruct b
  | |- preserves _ (match ?x with _ => _ end) => destruct x
  end.

Ltac preserves_solve :=
  repeat (unfold on_env, on_multi_agent, zero_rewards, add_rewards;
          preserves_step).

Abbreviation static := (@ws_static Obs Action Reward Core Env).

Lemma preserves_evaluate_episode fuel : ∀ obs episode_rewards,
  preserves static (evaluate_episode fuel obs episode_rewards).
Proof.
  induction fuel as [|fuel IH]; intros obs episode_rewards; simpl.
  - apply preserves_out_of_fuel.
  - preserves_solve. apply IH.
Qed.

Lemma preserves_Workspace_evaluate fuel :
  preserves static (Workspace_evaluate fuel).
Proof.
  unfold Workspace_evaluate. preserves_solve.
  apply preserves_evaluate_episode.
Qed.

Lemma preserves_select_actions obs :
  preserves static (select_actions obs).
Proof. unfold select_actions. preserves_solve. Qed.

Lemma preserves_run_training_update :
  preserves static run_training_update.
Proof. unfold run_training_update. preserves_solve. Qed.

Lemma preserves_end_episode fuel loc episode_rewards :
  preserves static (end_episode fuel loc episode_rewards).
Proof.
  unfold end_episode. preserves_solve.
  apply preserves_Workspace_evaluate.
Qed.


Section TrainEmits.

Context (P : Ev → Prop) (Hlow : ∀ ev, is_call ev = false → P ev).

Lemma emits_select_actions obs :
  P (Call_act true (Some "eval")) → emits P (select_actions obs).
Proof.
  intros Hact. unfold select_actions.
  do 3 (emits_step; [emits_solve|]).
  emits_step.
  - emits_solve; auto.
  - unfold on_multi_agent. emits_step. by apply emits_MultiAgent_act.
Qed.

Lemma emits_run_training_update :
  (∀ step, P (Call_update step)) →
  emits P (run_training_update : Prog (@Workspace Obs Action Reward Core Env) unit).
Proof.
  intros Hupd. unfold run_training_update.
  do 3 (emits_step; [emits_solve|]).
  emits_step; [|emits_solve].
  unfold on_multi_agent. emits_step. by apply emits_MultiAgent_update.
Qed.

Context (Hact : P (Call_act false (Some "eval"))) (Hreset : P Call_reset).

Lemma emits_end_episode fuel loc episode_rewards :
  emits P (end_episode fuel loc episode_rewards).
Proof.
  unfold end_episode.
  do 4 (emits_step; [emits_solve|]).
  emits_step; [emits_solve; auto|].
  emits_step; [emits_solve|].
  emits_step.
  { emits_step; [|emits_solve].
    emits_step; [emits_solve; auto|].
    by apply emits_Workspace_evaluate. }
  emits_step; [emits_solve; auto|].
  emits_step.
  { unfold on_multi_agent. emits_step. by apply emits_MultiAgent_reset. }
  emits_solve.
Qed.

Lemma emits_record_step fuel loc actions :
  (∀ done : bool,
     P (Call_add_to_buffer (py_float done)
          (done_no_max_of (episode_step loc) env_horizon (py_float done)))) →
  emits P (record_step fuel loc actions).
Proof.
  intros Hadd. unfold record_step.
  emits_step; [emits_solve|].
  emits_step; [emits_solve; auto|].
  emits_step; [emits_solve|].
  emits_step.
  { unfold on_multi_agent. emits_step.
    by apply emits_MultiAgent_add_to_buffer. }
  emits_step; [emits_solve|].
  emits_step; [|emits_solve].
  apply emits_end_episode.
Qed.

End TrainEmits.

Lemma train_call_low es (ev : Ev) :
  is_call ev = false → @train_call Obs Action Reward Range Env E es ev.
Proof. intros H. by left. Qed.

Lemma emits_train_iteration fuel loc :
  emits (train_call (episode_step loc)) (train_iteration fuel loc).
Proof.
  unfold train_iteration.
  emits_step.
  { apply emits_select_actions; [apply train_call_low|].
    right; left. by eexists. }
  emits_step.
  { apply emits_run_training_update; [apply train_call_low|].
    intros step. right; right; left. by eexists. }
  apply emits_record_step.
  - apply train_call_low.
  - right; left. by eexists.
  - unfold train_call. auto.
  - intros done. unfold train_call. do 4 right. by eexists.
Qed.


(** ** One iteration of the training loop, taken apart *)

Lemma bind_inv_Ret {S A B} (m : Prog S A) (f : A → Prog S B) s b s2 t :
  bind m f s = (Ret b, s2, t) →
  ∃ a s1 t1 t2,
    m s = (Ret a, s1, t1) ∧ f a s1 = (Ret b, s2, t2) ∧ t = t1 ++ t2.
Proof.
  intros H. apply bind_inv in H as [H|[_ H]]; [done|]. by destruct (H b).
Qed.

Lemma bind_trace {S A B} (m : Prog S A) (f : A → Prog S B) s :
  (bind m f s).2 = (m s).2
  ∨ ∃ a s1, (m s).1 = (Ret a, s1) ∧ (bind m f s).2 = (m s).2 ++ (f a s1).2.
Proof.
  unfold bind. destruct (m s) as [[[a|e|] s1] t1]; simpl; auto.
  right. exists a, s1. split; [done|]. by destruct (f a s1) as [[r s2] t2].
Qed.

Lemma preserves_eq {S A X} (f : S → X) (m : Prog S A) s r s' t :
  preserves f m → m s = (r, s', t) → f s' = f s.
Proof. intros Hp Hm. specialize (Hp s). by rewrite Hm in Hp. Qed.

Lemma emits_eq {S A} (P : Ev → Prop) (m : Prog S A) s r s' t :
  emits P m → m s = (r, s', t) → Forall P t.
Proof. intros Hp Hm. specialize (Hp s). by rewrite Hm in Hp. Qed.

Lemma filter_update_none (t : list Ev) :
  Forall (λ ev, is_update_call ev = false) t →
  List.filter is_update_call t = [].
Proof.
  induction 1 as [|ev t Hev _ IH]; [done|]. simpl. by rewrite Hev.
Qed.

Lemma not_update_low (ev : Ev) : is_call ev = false → is_update_call ev = false.
Proof. by destruct ev. Qed.

(** The update block: below the seed steps it does nothing; from the
    seed steps on it calls [update] once, with the loggers and the step
    counter. *)
Lemma run_training_update_warmup (s : @Workspace Obs Action Reward Core Env) :
  ws_step s < cfg_num_seed_steps (ws_cfg s) →
  run_training_update s = (Ret tt, s, silent).
Proof.
  intros Hlt. unfold run_training_update.
  do 3 (erewrite bind_quiet; [|reflexivity]).
  by rewrite (proj2 (Z.leb_gt _ _) Hlt).
Qed.

Lemma run_training_update_learning (s : @Workspace Obs Action Reward Core Env) :
  cfg_num_seed_steps (ws_cfg s) ≤ ws_step s →
  ∃ t, (run_training_update s).2 = Call_update (ws_step s) :: t
       ∧ Forall (λ ev, is_update_call ev = false) t.
Proof.
  intros Hle. unfold run_training_update.
  do 3 (erewrite bind_quiet; [|reflexivity]).
  rewrite (proj2 (Z.leb_le _ _) Hle).
  unfold on_multi_agent, zoom, MultiAgent_update.
  pose proof (emits_dispatch (λ ev, is_update_call ev = false)
                (IndividualMultiAgent_update (ws_loggers s) (ws_step s))
                (SharedMultiAgent_update (ws_loggers s) (ws_step s))) as Hd.
  specialize (Hd (emits_weaken _ _ _ not_update_low
                    (emits_IndividualMultiAgent_update _ _))
                 (emits_weaken _ _ _ not_update_low
                    (emits_SharedMultiAgent_update _ _))
                 (ws_multi_agent s)).
  unfold bind, emit.
  destruct (dispatch _ _ (ws_multi_agent s)) as [[r ma] t]. simpl in *.
  by exists t.
Qed.

Lemma select_actions_warmup ids :
  ∀ wd cfg (env : Env) ids0 lgs (ma : @MultiAgent Obs Action Reward Core)
    step acc,
  for_in ids acc (λ agent actions,
    a <- on_env (Space_sample_call agent) ;;
    ret (<[agent := a]> actions))
    {| ws_work_dir := wd; ws_cfg := cfg; ws_env := env; ws_agent_ids := ids0;
       ws_loggers := lgs; ws_multi_agent := ma; ws_step := step |}
  = (Ret (sample_all ids env acc).1,
     {| ws_work_dir := wd; ws_cfg := cfg;
        ws_env := (sample_all ids env acc).2; ws_agent_ids := ids0;
        ws_loggers := lgs; ws_multi_agent := ma; ws_step := step |},
     (Env_sample <$> ids : list Ev)).
Proof.
  induction ids as [|a ids IH]; intros wd cfg env ids0 lgs ma step acc; [done|].
  simpl for_in. simpl sample_all. rewrite fmap_cons.
  eapply (bind_Ret_run _ _ _ _ _ [Env_sample a]); [|apply IH].
  reflexivity.
Qed.


Lemma select_actions_warmup_run obs (s : @Workspace Obs Action Reward Core Env) :
  ws_step s < cfg_num_seed_steps (ws_cfg s) →
  select_actions obs s
  = (Ret (sample_all (ws_agent_ids s) (ws_env s) ∅).1,
     ws_set_env (sample_all (ws_agent_ids s) (ws_env s) ∅).2 s,
     (Env_sample <$> ws_agent_ids s : list Ev)).
Proof.
  intros Hlt. unfold select_actions.
  do 3 (erewrite bind_quiet; [|reflexivity]).
  rewrite (proj2 (Z.ltb_lt _ _) Hlt).
  destruct s as [wd cfg env ids lgs ma step].
  apply select_actions_warmup.
Qed.

Lemma select_actions_learning obs (s : @Workspace Obs Action Reward Core Env) :
  cfg_num_seed_steps (ws_cfg s) ≤ ws_step s →
  ∃ t, (select_actions obs s).2 = Call_act true (Some "eval") :: t
       ∧ Forall (λ ev, is_call ev = false) t.
Proof.
  intros Hle. unfold select_actions.
  do 3 (erewrite bind_quiet; [|reflexivity]).
  rewrite (proj2 (Z.ltb_ge _ _) Hle).
  unfold on_multi_agent, zoom, MultiAgent_act.
  pose proof (emits_dispatch (λ ev, is_call ev = false)
                (IndividualMultiAgent_act obs true (Some "eval"))
                (SharedMultiAgent_act obs true (Some "eval"))
                (emits_IndividualMultiAgent_act _ _ _)
                (emits_SharedMultiAgent_act _ _ _)
                (ws_multi_agent s)) as Hd.
  unfold bind, emit.
  destruct (dispatch _ _ (ws_multi_agent s)) as [[r ma] t]. simpl in *.
  by exists t.
Qed.

(** A completed [record_step] has stepped the environment, called
    [add_to_buffer] with the bootstrap flag of this step, and advanced
    the step counter by one. *)
Lemma record_step_Ret fuel loc actions
    (s : @Workspace Obs Action Reward Core Env) loc' s' t :
  record_step fuel loc actions s = (Ret loc', s', t) →
  ws_step s' = ws_step s + 1
  ∧ ws_cfg s' = ws_cfg s
  ∧ ∃ done : bool,
      Call_add_to_buffer (py_float done)
        (done_no_max_of (episode_step loc) env_horizon (py_float done)) ∈ t.
Proof.
  unfold record_step. intros H.
  apply bind_inv_Ret in H as (ids & s0 & t0 & t0' & H0 & H & ->).
  injection H0 as <- <- <-.
  apply bind_inv_Ret in H as (res & s1 & t1 & t1' & H1 & H & ->).
  apply bind_inv_Ret in H as (er & s2 & t2 & t2' & H2 & H & ->).
  apply bind_inv_Ret in H as ([] & s3 & t3 & t3' & H3 & H & ->).
  apply bind_inv_Ret in H as ([] & s4 & t4 & t4' & H4 & H & ->).
  injection H4 as <- <-.
  assert (static s1 = static s) as E1.
  { eapply preserves_eq; [|exact H1]. unfold on_env. preserves_solve. }
  assert (static s2 = static s1) as E2.
  { eapply preserves_eq; [|exact H2]. preserves_solve. }
  assert (static s3 = static s2) as E3.
  { eapply preserves_eq; [|exact H3]. preserves_solve. }
  assert (static s' = static (ws_set_step (ws_step s3 + 1) s3)) as E4.
  { destruct (py_truth _).
    - eapply preserves_eq; [|exact H]. apply preserves_end_episode.
    - by injection H as <- <- <-. }
  unfold ws_static in *. simpl in E4.
  injection E1 as ? ? ? ?. injection E2 as ? ? ? ?.
  injection E3 as ? ? ? ?. injection E4 as ? ? ? ?.
  split; [congruence|]. split; [congruence|].
  exists res.2.
  assert (∃ t, t3 = Call_add_to_buffer (py_float res.2)
                      (done_no_max_of (episode_step loc) env_horizon
                         (py_float res.2)) :: t) as [t3'' ->].
  { revert H3. unfold on_multi_agent, zoom, MultiAgent_add_to_buffer, bind, emit.
    destruct (dispatch _ _ _) as [[r ma] tt3]. intros [= _ _ <-]. by eexists. }
  set_solver.
Qed.


Lemma record_step_trace fuel loc actions
    (s : @Workspace Obs Action Reward Core Env) :
  ∃ t, (record_step fuel loc actions s).2 = Env_step actions :: t.
Proof.
  unfold record_step.
  erewrite bind_quiet; [|reflexivity].
  erewrite bind_Ret; [|reflexivity].
  by eexists.
Qed.

Lemma train_iteration_Ret fuel loc
    (s : @Workspace Obs Action Reward Core Env) loc' s' t :
  train_iteration fuel loc s = (Ret loc', s', t) →
  ws_step s' = ws_step s + 1
  ∧ ws_cfg s' = ws_cfg s
  ∧ ∃ done : bool,
      Call_add_to_buffer (py_float done)
        (done_no_max_of (episode_step loc) env_horizon (py_float done)) ∈ t.
Proof.
  unfold train_iteration. intros H.
  apply bind_inv_Ret in H as (actions & s1 & t1 & t1' & H1 & H & ->).
  apply bind_inv_Ret in H as ([] & s2 & t2 & t2' & H2 & H & ->).
  apply record_step_Ret in H as (Hstep & Hcfg & done & Hin).
  pose proof (preserves_eq _ _ _ _ _ _ (preserves_select_actions _) H1) as E1.
  pose proof (preserves_eq _ _ _ _ _ _ preserves_run_training_update H2) as E2.
  unfold ws_static in *. injection E1 as ? ? ? ?. injection E2 as ? ? ? ?.
  split; [congruence|]. split; [congruence|].
  exists done. set_solver.
Qed.

Lemma train_iteration_updates_warmup fuel loc
    (s : @Workspace Obs Action Reward Core Env) :
  ws_step s < cfg_num_seed_steps (ws_cfg s) →
  Forall (λ ev, is_update_call ev = false ∧ ∀ mode, ev ≠ Call_act true mode)
    (train_iteration fuel loc s).2
  ∧ ∃ t, (train_iteration fuel loc s).2
         = (Env_sample <$> ws_agent_ids s)
           ++ Env_step (sample_all (ws_agent_ids s) (ws_env s) ∅).1 :: t.
Proof.
  intros Hlt. unfold train_iteration.
  pose proof (select_actions_warmup_run (obs loc) s Hlt) as H1.
  erewrite bind_Ret; [|exact H1]. cbn [snd].
  set (s1 := ws_set_env _ s).
  assert (ws_step s1 < cfg_num_seed_steps (ws_cfg s1)) as Hlt1 by done.
  erewrite bind_quiet; [|by apply run_training_update_warmup].
  split.
  - apply Forall_app. split.
    + apply Forall_fmap, Forall_true. by intros a.
    + apply (emits_record_step
               (λ ev, is_update_call ev = false ∧ ∀ mode, ev ≠ Call_act true mode));
        try done.
      intros ev Hev. split; [by apply not_update_low|].
      intros mode ->. done.
  - destruct (record_step_trace fuel loc
                (sample_all (ws_agent_ids s) (ws_env s) ∅).1 s1) as [t Ht].
    exists t. by rewrite Ht.
Qed.


Lemma select_actions_learning_eq obs (s : @Workspace Obs Action Reward Core Env) :
  cfg_num_seed_steps (ws_cfg s) ≤ ws_step s →
  select_actions obs s
  = on_multi_agent (MultiAgent_act obs true (Some "eval")) s.
Proof.
  intros Hle. unfold select_actions.
  do 3 (erewrite bind_quiet; [|reflexivity]).
  by rewrite (proj2 (Z.ltb_ge _ _) Hle).
Qed.

Lemma not_update_emits_select_actions obs :
  emits (λ ev : Ev, is_update_call ev = false)
    (select_actions obs : Prog (@Workspace Obs Action Reward Core Env) _).
Proof. apply emits_select_actions; [apply not_update_low|done]. Qed.

Lemma not_update_emits_record_step fuel loc actions :
  emits (λ ev : Ev, is_update_call ev = false)
    (record_step fuel loc actions
     : Prog (@Workspace Obs Action Reward Core Env) _).
Proof. apply emits_record_step; try done. apply not_update_low. Qed.

Lemma train_iteration_updates_learning fuel loc
    (s : @Workspace Obs Action Reward Core Env) loc' s' t :
  cfg_num_seed_steps (ws_cfg s) ≤ ws_step s →
  train_iteration fuel loc s = (Ret loc', s', t) →
  List.filter is_update_call t = [Call_update (ws_step s)].
Proof.
  intros Hle H. unfold train_iteration in H.
  apply bind_inv_Ret in H as (actions & s1 & t1 & t1' & H1 & H & ->).
  apply bind_inv_Ret in H as ([] & s2 & t2 & t2' & H2 & H & ->).
  pose proof (preserves_eq _ _ _ _ _ _ (preserves_select_actions _) H1) as E1.
  unfold ws_static in E1. injection E1 as Es Ec _ _.
  rewrite !List.filter_app.
  rewrite (filter_update_none t1)
    by (eapply emits_eq; [apply not_update_emits_select_actions|exact H1]).
  rewrite (filter_update_none t2')
    by (eapply emits_eq; [apply not_update_emits_record_step|exact H]).
  destruct (run_training_update_learning s1) as (t & Ht & Hnone);
    [by rewrite Es, Ec|].
  rewrite H2 in Ht. simpl in Ht. subst t2. simpl.
  by rewrite (filter_update_none t), Es.
Qed.

(** ** The loop *)

Lemma train_loop_done fuel_eval fuel loc
    (s : @Workspace Obs Action Reward Core Env) :
  cfg_num_train_steps (ws_cfg s) ≤ ws_step s →
  train_loop fuel_eval fuel loc s = (Ret loc, s, silent).
Proof.
  intros Hle. destruct fuel; simpl.
  all: erewrite bind_quiet; [|reflexivity].
  all: by rewrite (proj2 (Z.ltb_ge _ _) Hle).
Qed.

Lemma train_loop_step fuel_eval fuel loc
    (s : @Workspace Obs Action Reward Core Env) :
  ws_step s < cfg_num_train_steps (ws_cfg s) →
  train_loop fuel_eval (S fuel) loc s
  = (loc <- train_iteration fuel_eval loc ;; train_loop fuel_eval fuel loc) s.
Proof.
  intros Hlt. simpl.
  erewrite bind_quiet; [|reflexivity].
  by rewrite (proj2 (Z.ltb_lt _ _) Hlt).
Qed.

(** The loop needs no more iterations than the steps that remain. *)
Lemma train_loop_fuel fuel_eval fuel1 : ∀ fuel2 loc
    (s : @Workspace Obs Action Reward Core Env),
  (Z.to_nat (cfg_num_train_steps (ws_cfg s) - ws_step s) ≤ fuel1)%nat →
  (Z.to_nat (cfg_num_train_steps (ws_cfg s) - ws_step s) ≤ fuel2)%nat →
  train_loop fuel_eval fuel1 loc s = train_loop fuel_eval fuel2 loc s.
Proof.
  induction fuel1 as [|fuel1 IH]; intros fuel2 loc s H1 H2.
  - rewrite !train_loop_done by lia. done.
  - destruct (decide (ws_step s < cfg_num_train_steps (ws_cfg s))) as [Hlt|Hge];
      [|rewrite !train_loop_done by lia; done].
    destruct fuel2 as [|fuel2]; [lia|].
    rewrite !train_loop_step by done.
    unfold bind.
    destruct (train_iteration fuel_eval loc s) as [[[loc'|e|] s'] t] eqn:Hit;
      try done.
    apply train_iteration_Ret in Hit as (Hs & Hc & _).
    rewrite (IH fuel2); [done| |]; rewrite Hs, Hc; lia.
Qed.

(** When the loop ends normally the step counter has reached the
    configured number of steps. *)
Lemma train_loop_final fuel_eval fuel : ∀ loc
    (s : @Workspace Obs Action Reward Core Env) loc' s' t,
  train_loop fuel_eval fuel loc s = (Ret loc', s', t) →
  ws_step s' = Z.max (ws_step s) (cfg_num_train_steps (ws_cfg s))
  ∧ ws_cfg s' = ws_cfg s.
Proof.
  induction fuel as [|fuel IH]; intros loc s loc' s' t H.
  - simpl in H. apply bind_inv_Ret in H as (s0 & s1 & ? & ? & H0 & H & ->).
    injection H0 as <- <- <-.
    destruct (Z.ltb_spec (ws_step s) (cfg_num_train_steps (ws_cfg s)));
      [done|].
    injection H as <- <- <-. split; [lia|done].
  - destruct (decide (ws_step s < cfg_num_train_steps (ws_cfg s))) as [Hlt|Hge].
    + rewrite train_loop_step in H by done.
      apply bind_inv_Ret in H as (loc1 & s1 & t1 & t2 & H1 & H & ->).
      apply train_iteration_Ret in H1 as (Hs & Hc & _).
      apply IH in H as [Hs' Hc']. rewrite Hs', Hc', Hs, Hc. split; [lia|done].
    + rewrite train_loop_done in H by lia.
      injection H as <- <- <-. split; [lia|done].
Qed.


(** ** Methods that only compute *)

Section Pure.

Context {S : Type}.

Lemma pure_ret {A} (a : A) : pure_method (ret a : Prog S A).
Proof. by intros s. Qed.

Lemma pure_raise {A} e : pure_method (raise e : Prog S A).
Proof. by intros s. Qed.

Lemma pure_emit ev : pure_method (emit ev : Prog S unit).
Proof. by intros s. Qed.

Lemma pure_dict_get {V} (d : gmap string V) k :
  pure_method (dict_get d k : Prog S V).
Proof. intros s. unfold dict_get. by destruct (d !! k). Qed.

Lemma pure_shape0 shape : pure_method (shape0 shape : Prog S Z).
Proof. intros s. by destruct shape. Qed.

Lemma pure_bind {A B} (m : Prog S A) (k : A → Prog S B) :
  pure_method m → (∀ a, pure_method (k a)) → pure_method (bind m k).
Proof.
  intros Hm Hk s. unfold bind. destruct (Hm s) as [Hs Hr].
  destruct (m s) as [[[a|e|] s1] t1]; simpl in *; subst; try done.
  destruct (Hk a s) as [Hs' Hr']. by destruct (k a s) as [[r s2] t2].
Qed.

Lemma pure_for_in {Y A} (l : list Y) (body : Y → A → Prog S A) :
  (∀ x acc, pure_method (body x acc)) → ∀ acc, pure_method (for_in l acc body).
Proof.
  intros Hb. induction l as [|x l IH]; intros acc; simpl.
  - apply pure_ret.
  - apply pure_bind; [apply Hb|]. intros acc'. apply IH.
Qed.

(** After a method that only computes, a continuation that always
    raises makes the whole raise, on the same object. *)
Lemma pure_bind_raises {A B} (m : Prog S A) (k : A → Prog S B) :
  pure_method m →
  (∀ a s, ∃ e t, k a s = (Raise e, s, t)) →
  ∀ s, ∃ e t, bind m k s = (Raise e, s, t).
Proof.
  intros Hm Hk s. unfold bind. destruct (Hm s) as [Hs Hr].
  destruct (m s) as [[[a|e|] s1] t1]; simpl in *; subst; try done.
  - destruct (Hk a s) as (e & t & ->). by eexists _, _.
  - by eexists _, _.
Qed.

End Pure.

Ltac pure_step :=
  match goal with
  | |- pure_method (bind _ _) => apply pure_bind; [|intros]
  | |- pure_method (ret _) => apply pure_ret
  | |- pure_method (raise _) => apply pure_raise
  | |- pure_method (emit _) => apply pure_emit
  | |- pure_method (dict_get _ _) => apply pure_dict_get
  | |- pure_method (shape0 _) => apply pure_shape0
  | |- pure_method (for_in _ _ _) => apply pure_for_in; intros
  | |- pure_method (if ?b then _ else _) => destruct b
  | |- pure_method (match ?x with _ => _ end) => destruct x
  end.

(** ** Resuming from a checkpoint *)

Lemma MultiAgent_load_checkpoint_two_arguments dir name
    (ma : @MultiAgent Obs Action Reward Core)
    (fs : gmap string (@file Obs Action Reward Params Optim)) :
  MultiAgent_load_checkpoint [dir; name] (ma, fs)
  = (Raise (TypeError
       "load_checkpoint() missing 1 required positional argument: 'device'"),
     (ma, fs), [Call_load_checkpoint [dir; name]]).
Proof. reflexivity. Qed.

Lemma Workspace_init_resume cfg cwd today clock (env : Env) blank_i blank_s
    (fs : gmap string (@file Obs Action Reward Params Optim)) :
  cfg_load_checkpoint cfg = true →
  ∃ e t,
    Workspace_init cfg cwd today clock env blank_i blank_s fs
    = (Raise e, fs, t).
Proof.
  intros Hload. unfold Workspace_init. rewrite Hload. revert fs.
  apply pure_bind_raises; [apply pure_ret|]. intros work_dir.
  apply pure_bind_raises; [apply pure_emit|]. intros _.
  apply pure_bind_raises; [repeat pure_step|]. intros loggers.
  apply pure_bind_raises.
  { repeat case_decide; unfold IndividualMultiAgent_init, SharedMultiAgent_init;
      repeat pure_step. }
  intros ma fs. rewrite MultiAgent_load_checkpoint_two_arguments.
  by eexists _, _.
Qed.


(** ** The claims about checkpoints and the training loop *)


(** C8. One iteration of the training loop at step counter [t]. Below
    the seed steps the actions are the samples of the agents' action
    spaces, taken agent by agent and handed to the environment, and
    [update] is not called. From the seed steps on the actions are what
    the controller's [act] returns and, when the iteration completes,
    [update] was called exactly once, with the step counter [t]. A
    completed iteration advances the step counter by one; the loop runs
    an iteration only while the counter is below the configured number
    of steps, needs no more iterations than the steps that remain, and
    ends with the counter at that number. *)
Theorem train_loop_phases (fuel_eval fuel : nat)
    (loc : @train_locals Obs Reward)
    (s : @Workspace Obs Action Reward Core Env) :
  let t := ws_step s in
  let sampled := sample_all (ws_agent_ids s) (ws_env s) ∅ in
  (t < cfg_num_seed_steps (ws_cfg s) →
     select_actions (obs loc) s
     = (Ret sampled.1, ws_set_env sampled.2 s,
        (Env_sample <$> ws_agent_ids s : list Ev))
     ∧ (∃ rest, (train_iteration fuel_eval loc s).2
                = (Env_sample <$> ws_agent_ids s)
                  ++ Env_step sampled.1 :: rest)
     ∧ List.filter is_update_call (train_iteration fuel_eval loc s).2 = [])
  ∧ (cfg_num_seed_steps (ws_cfg s) ≤ t →
       select_actions (obs loc) s
       = on_multi_agent (MultiAgent_act (obs loc) true (Some "eval")) s
       ∧ ∀ loc' s' tr,
           train_iteration fuel_eval loc s = (Ret loc', s', tr) →
           List.filter is_update_call tr = [Call_update t])
  ∧ (∀ loc' s' tr,
       train_iteration fuel_eval loc s = (Ret loc', s', tr) →
       ws_step s' = t + 1)
  ∧ (cfg_num_train_steps (ws_cfg s) ≤ t →
       train_loop fuel_eval fuel loc s = (Ret loc, s, silent))
  ∧ (t < cfg_num_train_steps (ws_cfg s) →
       train_loop fuel_eval (S fuel) loc s
       = (loc <- train_iteration fuel_eval loc ;;
          train_loop fuel_eval fuel loc) s)
  ∧ ((Z.to_nat (cfg_num_train_steps (ws_cfg s) - t) ≤ fuel)%nat →
       train_loop fuel_eval fuel loc s
       = train_loop fuel_eval
           (Z.to_nat (cfg_num_train_steps (ws_cfg s) - t)) loc s)
  ∧ (∀ loc' s' tr,
       train_loop fuel_eval fuel loc s = (Ret loc', s', tr) →
       ws_step s' = Z.max t (cfg_num_train_steps (ws_cfg s))).
Proof.
  intros t sampled. repeat split.
  - by apply select_actions_warmup_run.
  - by apply train_iteration_updates_warmup.
  - apply filter_update_none.
    destruct (train_iteration_updates_warmup fuel_eval loc s H) as [Hall _].
    eapply Forall_impl; [exact Hall|]. by intros ev [? _].
  - by apply select_actions_learning_eq.
  - intros loc' s' tr Hrun. by eapply train_iteration_updates_learning.
  - intros loc' s' tr Hrun. by apply train_iteration_Ret in Hrun as [? _].
  - intros Hle. by apply train_loop_done.
  - intros Hlt. by apply train_loop_step.
  - intros Hfuel. by apply train_loop_fuel.
  - intros loc' s' tr Hrun. by apply train_loop_final in Hrun as [? _].
Qed.

(** C10. Acting in the training loop. From the seed steps on, an
    iteration selects its actions by the controller's [act] with
    [sample=True] and [mode="eval"], and these are the actions the rest
    of the iteration uses. Whatever the run of [train] does, every call
    of [act] it records, the ones of the evaluation passes included, has
    [mode="eval"]: none has [mode="train"]. *)
Theorem train_acts_in_eval_scope (fuel_eval fuel : nat) :
  (∀ (loc : @train_locals Obs Reward)
     (s : @Workspace Obs Action Reward Core Env),
     cfg_num_seed_steps (ws_cfg s) ≤ ws_step s →
     train_iteration fuel_eval loc s
     = (actions <- on_multi_agent
                     (MultiAgent_act (obs loc) true (Some "eval")) ;;
        run_training_update ;;
        record_step fuel_eval loc actions) s)
  ∧ emits (λ ev : Ev, ∀ sample mode,
             ev = Call_act sample mode → mode = Some "eval")
      (Workspace_train fuel_eval fuel
       : Prog (@Workspace Obs Action Reward Core Env
               * gmap string (@file Obs Action Reward Params Optim)) unit).
Proof.
  split.
  - intros loc s Hle. unfold train_iteration, bind.
    by rewrite select_actions_learning_eq.
  - set (P := λ ev : Ev, ∀ sample mode,
                ev = Call_act sample mode → mode = Some "eval").
    assert (Hlow : ∀ ev : Ev, is_call ev = false → P ev).
    { intros ev Hev sample mode ->. done. }
    assert (Hact : ∀ sample, P (Call_act sample (Some "eval"))).
    { intros sample ? ? [= _ <-]. done. }
    assert (Hit : ∀ fe loc, emits P (train_iteration fe loc
                  : Prog (@Workspace Obs Action Reward Core Env) _)).
    { intros fe loc. eapply emits_weaken; [|apply emits_train_iteration].
      intros ev [H|[[? ->]|[[? ->]|[->|[? ->]]]]]; auto; by intros ? ? [=]. }
    assert (Hloop : ∀ f loc, emits P (train_loop fuel_eval f loc
                  : Prog (@Workspace Obs Action Reward Core Env) _)).
    { induction f as [|f IH]; intros loc; simpl; emits_solve. }
    unfold Workspace_train.
    emits_step; [emits_solve|].
    emits_step; [emits_solve|].
    emits_step; [emits_solve|].
    emits_step; [emits_solve; auto|].
    emits_step.
    { unfold on_workspace, on_multi_agent. do 2 emits_step.
      apply emits_MultiAgent_reset; [done|]. by intros ? ? [=]. }
    emits_step; [unfold on_workspace; emits_step; apply Hloop|].
    emits_step; [emits_solve|].
    emits_step; [|emits_solve].
    unfold on_multi_agent_fs. emits_step.
    apply emits_MultiAgent_save_checkpoint; [done|]. by intros ? ? [=].
Qed.


(** ** Acting within a scoped mode *)

Lemma i_act_one_run obs sample a (actions : gmap string Action) l o ids dev mode
    (bufs : gmap string (@ReplayBuffer Obs Action Reward)) ags :
  ags !! a = Some l → obs !! a = Some o →
  i_act_one obs sample a actions
    {| i_agent_ids := ids; i_device := dev; i_mode := mode;
       i_replay_buffers := bufs; i_agents := ags |}
  = (Ret (<[a := (agent_act (training l) (core l) o sample).1]> actions),
     {| i_agent_ids := ids; i_device := dev; i_mode := mode;
        i_replay_buffers := bufs;
        i_agents := <[a := {| training := training l;
                              core := (agent_act (training l) (core l) o sample).2 |}]> ags |},
     [Ev_act (AgentOf a) o sample]).
Proof.
  intros Ha Ho. unfold i_act_one, bind at 1, i_on_agent. cbn [i_agents].
  rewrite Ha. erewrite bind_quiet; [|by apply dict_get_Some].
  unfold Learner_act, bind, emit, get, put, ret. simpl.
  by destruct (agent_act (training l) (core l) o sample).
Qed.

(** One agent's turn under [eval_mode] ([flag = false]) or [train_mode]
    ([flag = true]): the learner is switched to the mode, acts in it,
    and is switched back to the mode it had. *)
Lemma i_with_mode_run flag obs sample a (actions : gmap string Action) l o
    ids dev mode (bufs : gmap string (@ReplayBuffer Obs Action Reward)) ags :
  ags !! a = Some l → obs !! a = Some o →
  with_mode flag (AgentOf a) (@i_on_agent _ _ _ _ a)
    (i_act_one obs sample a actions)
    {| i_agent_ids := ids; i_device := dev; i_mode := mode;
       i_replay_buffers := bufs; i_agents := ags |}
  = (Ret (<[a := (agent_act flag (core l) o sample).1]> actions),
     {| i_agent_ids := ids; i_device := dev; i_mode := mode;
        i_replay_buffers := bufs;
        i_agents := <[a := {| training := training l;
                              core := (agent_act flag (core l) o sample).2 |}]> ags |},
     [Ev_train (AgentOf a) flag; Ev_act (AgentOf a) o sample;
      Ev_train (AgentOf a) (training l)]).
Proof.
  intros Ha Ho. unfold with_mode.
  erewrite bind_quiet; last first.
  { unfold i_on_agent. cbn [i_agents]. rewrite Ha. unfold gets.
    unfold i_set_agents. cbn. rewrite insert_id by done. reflexivity. }
  eapply (bind_Ret_run _ _ _ _ _ [Ev_train (AgentOf a) flag]).
  { unfold i_on_agent. cbn [i_agents]. rewrite Ha. reflexivity. }
  unfold finally, i_set_agents. cbn [i_agent_ids i_device i_mode
    i_replay_buffers i_agents].
  erewrite i_act_one_run; [|by rewrite lookup_insert_eq|done].
  cbn [training core].
  unfold i_on_agent. cbn [i_agents]. rewrite lookup_insert_eq.
  unfold Learner_train, bind, emit, modify, i_set_agents. cbn.
  by rewrite !insert_insert_eq.
Qed.

Lemma IndividualMultiAgent_act_loop (obs : gmap string Obs) sample (scope : option bool) l :
  ∀ ids dev mode (bufs : gmap string (@ReplayBuffer Obs Action Reward))
    (ags : gmap string (@Learner Core)) (acc : gmap string Action),
  (∀ a, a ∈ l → is_Some (ags !! a) ∧ is_Some (obs !! a)) →
  ∃ actions ags' t,
    for_in l acc (λ agent actions,
      match scope with
      | Some flag => with_mode flag (AgentOf agent) (@i_on_agent _ _ _ _ agent)
                       (i_act_one obs sample agent actions)
      | None => i_act_one obs sample agent actions
      end)
      {| i_agent_ids := ids; i_device := dev; i_mode := mode;
         i_replay_buffers := bufs; i_agents := ags |}
    = (Ret actions,
       {| i_agent_ids := ids; i_device := dev; i_mode := mode;
          i_replay_buffers := bufs; i_agents := ags' |}, t)
    ∧ dom actions = dom acc ∪ list_to_set l
    ∧ ∀ a, training <$> ags' !! a = training <$> ags !! a.
Proof.
  destruct scope as [f|];
  (induction l as [|a l IH]; intros ids dev mode bufs ags acc Hok;
   [exists acc, ags, []; split; [done|]; split;
    [by rewrite list_to_set_nil, union_empty_r_L|done]|]).
  all: destruct (Hok a) as [[lr Hl] [o Ho]]; [by left|].
  - set (act := agent_act f (core lr) o sample).
    destruct (IH ids dev mode bufs
                (<[a := {| training := training lr; core := act.2 |}]> ags)
                (<[a := act.1]> acc))
      as (actions & ags' & t & Hrun & Hdom & Htr).
    { intros a' Ha'. destruct (Hok a') as [Hs Hob]; [by right|].
      split; [|done]. destruct (decide (a = a')) as [->|Hne].
      - rewrite lookup_insert_eq. by eexists.
      - by rewrite lookup_insert_ne. }
    exists actions, ags'. eexists. split; [|split].
    + simpl for_in. eapply bind_Ret_run; [|exact Hrun].
      by apply i_with_mode_run.
    + rewrite Hdom, dom_insert_L, list_to_set_cons.
      by rewrite (comm_L _ {[a]} (dom acc)), <- (assoc_L _).
    + intros a'. rewrite Htr. destruct (decide (a = a')) as [->|Hne].
      * by rewrite lookup_insert_eq, Hl.
      * by rewrite lookup_insert_ne.
  - set (act := agent_act (training lr) (core lr) o sample).
    destruct (IH ids dev mode bufs
                (<[a := {| training := training lr; core := act.2 |}]> ags)
                (<[a := act.1]> acc))
      as (actions & ags' & t & Hrun & Hdom & Htr).
    { intros a' Ha'. destruct (Hok a') as [Hs Hob]; [by right|].
      split; [|done]. destruct (decide (a = a')) as [->|Hne].
      - rewrite lookup_insert_eq. by eexists.
      - by rewrite lookup_insert_ne. }
    exists actions, ags'. eexists. split; [|split].
    + simpl for_in. eapply bind_Ret_run; [|exact Hrun].
      by apply i_act_one_run.
    + rewrite Hdom, dom_insert_L, list_to_set_cons.
      by rewrite (comm_L _ {[a]} (dom acc)), <- (assoc_L _).
    + intros a'. rewrite Htr. destruct (decide (a = a')) as [->|Hne].
      * by rewrite lookup_insert_eq, Hl.
      * by rewrite lookup_insert_ne.
Qed.


(** X9. On the individual variant [act] in each of the three modes returns
    one action per agent id and leaves every learner in the mode it
    had. *)
Lemma IndividualMultiAgent_act_valid_mode (obs : gmap string Obs) sample mode
    (self : @IndividualMultiAgent Obs Action Reward Core) :
  mode = None ∨ mode = Some "train" ∨ mode = Some "eval" →
  (∀ a, a ∈ i_agent_ids self →
     is_Some (i_agents self !! a) ∧ is_Some (obs !! a)) →
  ∃ actions self' t,
    IndividualMultiAgent_act obs sample mode self = (Ret actions, self', t)
    ∧ dom actions = list_to_set (i_agent_ids self)
    ∧ ∀ a, training <$> i_agents self' !! a = training <$> i_agents self !! a.
Proof.
  intros Hmode Hok. destruct self as [ids dev md bufs ags]. simpl in *.
  unfold IndividualMultiAgent_act.
  erewrite bind_quiet; [|reflexivity]. cbn [i_agent_ids].
  destruct Hmode as [-> | [-> | ->]].
  - destruct (IndividualMultiAgent_act_loop obs sample None ids ids dev md
                bufs ags ∅ Hok) as (actions & ags' & t & Hrun & Hdom & Htr).
    eexists _, _, _. split; [exact Hrun|]. split; [|done].
    by rewrite Hdom, dom_empty_L, union_empty_l_L.
  - destruct (IndividualMultiAgent_act_loop obs sample (Some true) ids ids
                dev md bufs ags ∅ Hok)
      as (actions & ags' & t & Hrun & Hdom & Htr).
    eexists _, _, _. split; [exact Hrun|]. split; [|done].
    by rewrite Hdom, dom_empty_L, union_empty_l_L.
  - destruct (IndividualMultiAgent_act_loop obs sample (Some false) ids ids
                dev md bufs ags ∅ Hok)
      as (actions & ags' & t & Hrun & Hdom & Htr).
    eexists _, _, _. split; [exact Hrun|]. split; [|done].
    by rewrite Hdom, dom_empty_L, union_empty_l_L.
Qed.

Lemma s_act_one_run obs sample a (actions : gmap string Action) o ids dev mode
    (ag : @Learner Core) (b : @ReplayBuffer Obs Action Reward) :
  obs !! a = Some o →
  s_act_one obs sample a actions
    {| s_agent_ids := ids; s_device := dev; s_mode := mode;
       s_agent := ag; s_replay_buffer := b |}
  = (Ret (<[a := (agent_act (training ag) (core ag) o sample).1]> actions),
     {| s_agent_ids := ids; s_device := dev; s_mode := mode;
        s_agent := {| training := training ag;
                      core := (agent_act (training ag) (core ag) o sample).2 |};
        s_replay_buffer := b |},
     [Ev_act SharedAgent o sample]).
Proof.
  intros Ho. unfold s_act_one.
  erewrite bind_quiet; [|by apply dict_get_Some].
  unfold s_on_agent, zoom, Learner_act, bind, emit, get, put, ret. simpl.
  by destruct (agent_act (training ag) (core ag) o sample).
Qed.

Lemma s_with_mode_run flag obs sample a (actions : gmap string Action) o
    ids dev mode (ag : @Learner Core) (b : @ReplayBuffer Obs Action Reward) :
  obs !! a = Some o →
  with_mode flag SharedAgent (@s_on_agent _ _ _ _)
    (s_act_one obs sample a actions)
    {| s_agent_ids := ids; s_device := dev; s_mode := mode;
       s_agent := ag; s_replay_buffer := b |}
  = (Ret (<[a := (agent_act flag (core ag) o sample).1]> actions),
     {| s_agent_ids := ids; s_device := dev; s_mode := mode;
        s_agent := {| training := training ag;
                      core := (agent_act flag (core ag) o sample).2 |};
        s_replay_buffer := b |},
     [Ev_train SharedAgent flag; Ev_act SharedAgent o sample;
      Ev_train SharedAgent (training ag)]).
Proof.
  intros Ho. destruct ag as [tr c]. unfold with_mode.
  erewrite bind_quiet; [|reflexivity].
  eapply (bind_Ret_run _ _ _ _ _ [Ev_train SharedAgent flag]); [reflexivity|].
  unfold finally, s_set_agent. cbn.
  erewrite s_act_one_run; [|done]. reflexivity.
Qed.

Lemma SharedMultiAgent_act_loop (obs : gmap string Obs) sample
    (scoped : bool) l :
  ∀ ids dev mode (ag : @Learner Core) (b : @ReplayBuffer Obs Action Reward)
    (acc : gmap string Action),
  (∀ a, a ∈ l → is_Some (obs !! a)) →
  ∃ actions c t,
    for_in l acc (λ agent actions,
      if scoped
      then with_mode false SharedAgent (@s_on_agent _ _ _ _)
             (s_act_one obs sample agent actions)
      else s_act_one obs sample agent actions)
      {| s_agent_ids := ids; s_device := dev; s_mode := mode;
         s_agent := ag; s_replay_buffer := b |}
    = (Ret actions,
       {| s_agent_ids := ids; s_device := dev; s_mode := mode;
          s_agent := {| training := training ag; core := c |};
          s_replay_buffer := b |}, t)
    ∧ dom actions = dom acc ∪ list_to_set l.
Proof.
  destruct scoped;
  (induction l as [|a l IH]; intros ids dev mode ag b acc Hok;
   [exists acc, (core ag), []; destruct ag; split; [done|];
    by rewrite list_to_set_nil, union_empty_r_L|]).
  all: destruct (Hok a) as [o Ho]; [by left|].
  - set (act := agent_act false (core ag) o sample).
    destruct (IH ids dev mode {| training := training ag; core := act.2 |} b
                (<[a := act.1]> acc))
      as (actions & c & t & Hrun & Hdom); [intros; apply Hok; by right|].
    exists actions, c. eexists. split.
    + simpl for_in. eapply bind_Ret_run; [|exact Hrun].
      by apply s_with_mode_run.
    + rewrite Hdom, dom_insert_L, list_to_set_cons.
      by rewrite (comm_L _ {[a]} (dom acc)), <- (assoc_L _).
  - set (act := agent_act (training ag) (core ag) o sample).
    destruct (IH ids dev mode {| training := training ag; core := act.2 |} b
                (<[a := act.1]> acc))
      as (actions & c & t & Hrun & Hdom); [intros; apply Hok; by right|].
    exists actions, c. eexists. split.
    + simpl for_in. eapply bind_Ret_run; [|exact Hrun].
      by apply s_act_one_run.
    + rewrite Hdom, dom_insert_L, list_to_set_cons.
      by rewrite (comm_L _ {[a]} (dom acc)), <- (assoc_L _).
Qed.

(** X10. On the shared variant [act] with [mode="eval"] or without a mode
    returns one action per agent id and leaves the learner in the mode
    it had. *)
Lemma SharedMultiAgent_act_eval_or_none (obs : gmap string Obs) sample mode
    (self : @SharedMultiAgent Obs Action Reward Core) :
  mode = None ∨ mode = Some "eval" →
  (∀ a, a ∈ s_agent_ids self → is_Some (obs !! a)) →
  ∃ actions self' t,
    SharedMultiAgent_act obs sample mode self = (Ret actions, self', t)
    ∧ dom actions = list_to_set (s_agent_ids self)
    ∧ training (s_agent self') = training (s_agent self).
Proof.
  intros Hmode Hok. destruct self as [ids dev md ag b]. simpl in *.
  unfold SharedMultiAgent_act.
  erewrite bind_quiet; [|reflexivity]. cbn [s_agent_ids].
  destruct Hmode as [-> | ->].
  - destruct (SharedMultiAgent_act_loop obs sample false ids ids dev md ag b
                ∅ Hok) as (actions & c & t & Hrun & Hdom).
    eexists _, _, _. split; [exact Hrun|]. split; [|done].
    by rewrite Hdom, dom_empty_L, union_empty_l_L.
  - destruct (SharedMultiAgent_act_loop obs sample true ids ids dev md ag b
                ∅ Hok) as (actions & c & t & Hrun & Hdom).
    eexists _, _, _. split; [exact Hrun|]. split; [|done].
    by rewrite Hdom, dom_empty_L, union_empty_l_L.
Qed.


(** * Further properties of the controllers *)

(** ** [update] on the individual controller *)

Lemma individual_update_loop (loggers : gmap string Logger) step l :
  ∀ ids dev mode (bufs : gmap string (@ReplayBuffer Obs Action Reward))
    (ags : gmap string (@Learner Core)) lgs,
  NoDup l →
  Forall2 (λ a lg, loggers !! a = Some lg) l lgs →
  (∀ a, a ∈ l → is_Some (ags !! a) ∧ is_Some (bufs !! a)) →
  ∃ ags',
    for_each l (λ agent,
      i_on_agent agent unit (ret tt) ;;
      bufs <- gets i_replay_buffers ;;
      b <- dict_get bufs agent ;;
      lg <- dict_get loggers agent ;;
      i_on_agent agent unit
        (Learner_update (AgentOf agent) (BufferOf agent) b lg step))
      {| i_agent_ids := ids; i_device := dev; i_mode := mode;
         i_replay_buffers := bufs; i_agents := ags |}
    = (Ret tt,
       {| i_agent_ids := ids; i_device := dev; i_mode := mode;
          i_replay_buffers := bufs; i_agents := ags' |},
       zip_with (λ a lg, Ev_update (AgentOf a) (BufferOf a) lg step) l lgs)
    ∧ (∀ a lr b lg, a ∈ l →
         ags !! a = Some lr → bufs !! a = Some b → loggers !! a = Some lg →
         ags' !! a
         = Some {| training := training lr;
                   core := agent_update (training lr) (core lr) b lg step |})
    ∧ (∀ a, a ∉ l → ags' !! a = ags !! a).
Proof.
  induction l as [|a l IH]; intros ids dev mode bufs ags lgs Hnd Hl Hok.
  - inversion Hl; subst. exists ags. split; [done|].
    split; [|done]. by intros a lr b lg Ha%elem_of_nil.
  - inversion Hl as [|? lg ? lgs' Hlg Hrest]; subst.
    apply NoDup_cons in Hnd as [Hnotin Hnd].
    destruct (Hok a) as [[lr Hlr] [b Hb]]; [by left|].
    set (lr' := {| training := training lr;
                   core := agent_update (training lr) (core lr) b lg step |}).
    destruct (IH ids dev mode bufs (<[a := lr']> ags) lgs' Hnd Hrest)
      as (ags' & Hrun & Hin & Hout).
    { intros a' Ha'. destruct (Hok a') as [Hs Hbf]; [by right|].
      split; [|done]. rewrite lookup_insert_ne; [done|]. by intros ->. }
    exists ags'. split; [|split].
    + rewrite for_each_cons. simpl zip_with.
      eapply (bind_Ret_run _ _ _ _ _ [_]); [|exact Hrun].
      erewrite bind_quiet; [|by eapply i_on_agent_quiet].
      erewrite bind_quiet; [|reflexivity].
      erewrite bind_quiet; [|by apply dict_get_Some].
      erewrite bind_quiet; [|by apply dict_get_Some].
      unfold i_on_agent. cbn [i_agents]. rewrite lookup_insert_eq.
      unfold Learner_update, bind, emit, modify, i_set_agents. cbn.
      by rewrite !insert_insert_eq.
    + intros a' lr0 b0 lg0 [->|Ha']%elem_of_cons Hlr0 Hb0 Hlg0.
      * rewrite Hout; [|done]. rewrite lookup_insert_eq. subst lr'.
        congruence.
      * eapply Hin; try done. rewrite lookup_insert_ne; [done|].
        by intros ->.
    + intros a' Ha'. apply not_elem_of_cons in Ha' as [Hne Ha'].
      rewrite Hout; [|done]. by rewrite lookup_insert_ne.
Qed.

(** X1. One call of [update] on the individual controller calls the
    learner's [update] once per agent id, in the order of the ids, each
    on that agent's learner with that agent's own store and logger;
    afterwards each learner is the result of that one update and the
    stores are as they were. *)
Theorem IndividualMultiAgent_update_per_agent
    (self : @IndividualMultiAgent Obs Action Reward Core)
    (loggers : gmap string Logger) (step : Z) (lgs : list Logger) :
  NoDup (i_agent_ids self) →
  Forall2 (λ a lg, loggers !! a = Some lg) (i_agent_ids self) lgs →
  (∀ a, a ∈ i_agent_ids self →
     is_Some (i_agents self !! a) ∧ is_Some (i_replay_buffers self !! a)) →
  ∃ ags',
    IndividualMultiAgent_update loggers step self
    = (Ret tt, i_set_agents (λ _, ags') self,
       zip_with (λ a lg, Ev_update (AgentOf a) (BufferOf a) lg step)
         (i_agent_ids self) lgs)
    ∧ (∀ a lr b lg, a ∈ i_agent_ids self →
         i_agents self !! a = Some lr →
         i_replay_buffers self !! a = Some b →
         loggers !! a = Some lg →
         ags' !! a
         = Some {| training := training lr;
                   core := agent_update (training lr) (core lr) b lg step |})
    ∧ (∀ a, a ∉ i_agent_ids self → ags' !! a = i_agents self !! a)
    ∧ i_agents (IndividualMultiAgent_update loggers step self).1.2 = ags'
    ∧ i_replay_buffers (IndividualMultiAgent_update loggers step self).1.2
      = i_replay_buffers self
    ∧ i_agent_ids (IndividualMultiAgent_update loggers step self).1.2
      = i_agent_ids self.
Proof.
  intros Hnd Hl Hok. destruct self as [ids dev mode bufs ags]. simpl in *.
  destruct (individual_update_loop loggers step ids ids dev mode bufs ags lgs
              Hnd Hl Hok) as (ags' & Hrun & Hin & Hout).
  assert (IndividualMultiAgent_update loggers step
            {| i_agent_ids := ids; i_device := dev; i_mode := mode;
               i_replay_buffers := bufs; i_agents := ags |}
          = (Ret tt,
             {| i_agent_ids := ids; i_device := dev; i_mode := mode;
                i_replay_buffers := bufs; i_agents := ags' |},
             zip_with (λ a lg, Ev_update (AgentOf a) (BufferOf a) lg step)
               ids lgs)) as Hupd.
  { unfold IndividualMultiAgent_update.
    erewrite bind_quiet; [|reflexivity]. exact Hrun. }
  exists ags'. split; [exact Hupd|].
  split; [exact Hin|]. split; [exact Hout|].
  rewrite Hupd. by repeat split.
Qed.

(** ** [reset] *)

Lemma individual_reset_loop l :
  ∀ ids dev mode (bufs : gmap string (@ReplayBuffer Obs Action Reward))
    (ags : gmap string (@Learner Core)),
  (∀ a, a ∈ l → is_Some (ags !! a)) →
  ∃ ags',
    for_each l (λ agent,
      i_on_agent agent unit (Learner_reset (AgentOf agent)))
      {| i_agent_ids := ids; i_device := dev; i_mode := mode;
         i_replay_buffers := bufs; i_agents := ags |}
    = (Ret tt,
       {| i_agent_ids := ids; i_device := dev; i_mode := mode;
          i_replay_buffers := bufs; i_agents := ags' |},
       (λ a, Ev_agent_reset (AgentOf a)) <$> l)
    ∧ ∀ a, training <$> ags' !! a = training <$> ags !! a.
Proof.
  induction l as [|a l IH]; intros ids dev mode bufs ags Hok.
  - by exists ags.
  - destruct (Hok a) as [lr Hlr]; [by left|].
    set (lr' := {| training := training lr; core := agent_reset (core lr) |}).
    destruct (IH ids dev mode bufs (<[a := lr']> ags)) as (ags' & Hrun & Htr).
    { intros a' Ha'. destruct (decide (a = a')) as [->|Hne].
      - rewrite lookup_insert_eq. by eexists.
      - rewrite lookup_insert_ne by done. apply Hok. by right. }
    exists ags'. split.
    + rewrite for_each_cons, fmap_cons.
      eapply (bind_Ret_run _ _ _ _ _ [_]); [|exact Hrun].
      unfold i_on_agent. cbn [i_agents]. rewrite Hlr. reflexivity.
    + intros a'. rewrite Htr. destruct (decide (a = a')) as [->|Hne].
      * by rewrite lookup_insert_eq, Hlr.
      * by rewrite lookup_insert_ne.
Qed.

(** X2. [reset] on the shared controller resets the one shared learner
    exactly once, however many agent ids there are; on the individual
    controller it resets the learner of each agent id once, in the order
    of the ids. Neither touches a store or the training mode of a
    learner. *)
Theorem reset_once_per_learner :
  (∀ self : @SharedMultiAgent Obs Action Reward Core,
     SharedMultiAgent_reset self
     = (Ret tt,
        s_set_agent {| training := training (s_agent self);
                       core := agent_reset (core (s_agent self)) |} self,
        [Ev_agent_reset SharedAgent]))
  ∧ (∀ self : @IndividualMultiAgent Obs Action Reward Core,
       (∀ a, a ∈ i_agent_ids self → is_Some (i_agents self !! a)) →
       ∃ ags',
         IndividualMultiAgent_reset self
         = (Ret tt, i_set_agents (λ _, ags') self,
            (λ a, Ev_agent_reset (AgentOf a)) <$> i_agent_ids self)
         ∧ ∀ a, training <$> ags' !! a = training <$> i_agents self !! a).
Proof.
  split.
  - intros self. reflexivity.
  - intros [ids dev mode bufs ags] Hok. simpl in *.
    destruct (individual_reset_loop ids ids dev mode bufs ags Hok)
      as (ags' & Hrun & Htr).
    exists ags'. split; [|done].
    unfold IndividualMultiAgent_reset.
    erewrite bind_quiet; [|reflexivity]. exact Hrun.
Qed.


(** ** [add_to_buffer] with a missing entry *)

Lemma shared_add_loop_missing (obs : gmap string Obs)
    (actions : gmap string Action) (rewards : gmap string Reward)
    (next_obs : gmap string Obs) (done done_no_max : pyscalar)
    (a : string) (after before : list string) :
  ∀ ids dev mode (ag : @Learner Core) b ts,
  transitions_of obs actions rewards next_obs before = Some ts →
  ¬ has_transition obs actions rewards next_obs a →
  for_each (before ++ a :: after) (λ agent,
    o <- dict_get obs agent ;;
    a <- dict_get actions agent ;;
    r <- dict_get rewards agent ;;
    o' <- dict_get next_obs agent ;;
    modify (λ self, s_set_replay_buffer
      (ReplayBuffer_add (s_replay_buffer self) o a r o' done done_no_max)
      self))
    {| s_agent_ids := ids; s_device := dev; s_mode := mode;
       s_agent := ag; s_replay_buffer := b |}
  = (Raise (KeyError a),
     {| s_agent_ids := ids; s_device := dev; s_mode := mode; s_agent := ag;
        s_replay_buffer :=
          foldl (λ b t, ReplayBuffer_add b t.1.1.1 t.1.1.2 t.1.2 t.2
                          done done_no_max) b ts |},
     silent).
Proof.
  induction before as [|a' before IH]; intros ids dev mode ag b ts Hts Hmiss.
  - injection Hts as <-. simpl app. rewrite for_each_cons. simpl foldl.
    erewrite bind_Raise; [reflexivity|].
    unfold has_transition in Hmiss.
    destruct (obs !! a) as [o|] eqn:Ho;
      [|by erewrite bind_Raise; [|by apply dict_get_None]].
    erewrite bind_quiet; [|by apply dict_get_Some].
    destruct (actions !! a) as [ac|] eqn:Hac;
      [|by erewrite bind_Raise; [|by apply dict_get_None]].
    erewrite bind_quiet; [|by apply dict_get_Some].
    destruct (rewards !! a) as [r|] eqn:Hr;
      [|by erewrite bind_Raise; [|by apply dict_get_None]].
    erewrite bind_quiet; [|by apply dict_get_Some].
    destruct (next_obs !! a) as [o'|] eqn:Ho';
      [|by erewrite bind_Raise; [|by apply dict_get_None]].
    exfalso. apply Hmiss. repeat split; by eexists.
  - unfold transitions_of in Hts. simpl in Hts.
    destruct (obs !! a') as [o|] eqn:Ho; [|done].
    destruct (actions !! a') as [ac|] eqn:Hac; [|done].
    destruct (rewards !! a') as [r|] eqn:Hr; [|done].
    destruct (next_obs !! a') as [o'|] eqn:Ho'; [|done].
    simpl in Hts.
    destruct (mapM _ before) as [ts'|] eqn:Hrest; [|done].
    injection Hts as <-.
    simpl app. rewrite for_each_cons.
    erewrite bind_quiet; last first.
    { repeat (erewrite bind_quiet; [|by apply dict_get_Some]). reflexivity. }
    unfold s_set_replay_buffer. simpl. by apply IH.
Qed.

(** X3. [add_to_buffer] on the shared controller is not atomic: when
    one of the four dictionaries has no entry for an agent id, the
    transitions of the ids before it are already in the store when the
    call raises [KeyError] for the missing key. *)
Theorem SharedMultiAgent_add_to_buffer_missing_key
    (obs : gmap string Obs) (actions : gmap string Action)
    (rewards : gmap string Reward) (next_obs : gmap string Obs)
    (done done_no_max : pyscalar)
    (self : @SharedMultiAgent Obs Action Reward Core)
    (before after : list string) (a : string) ts :
  s_agent_ids self = before ++ a :: after →
  transitions_of obs actions rewards next_obs before = Some ts →
  ¬ has_transition obs actions rewards next_obs a →
  SharedMultiAgent_add_to_buffer obs actions rewards next_obs
    done done_no_max self
  = (Raise (KeyError a),
     s_set_replay_buffer
       (foldl (λ b t, ReplayBuffer_add b t.1.1.1 t.1.1.2 t.1.2 t.2
                        done done_no_max)
          (s_replay_buffer self) ts) self,
     silent)
  ∧ s_replay_buffer
      (SharedMultiAgent_add_to_buffer obs actions rewards next_obs
         done done_no_max self).1.2
    = foldl (λ b t, ReplayBuffer_add b t.1.1.1 t.1.1.2 t.1.2 t.2
                      done done_no_max)
        (s_replay_buffer self) ts
  ∧ s_agent
      (SharedMultiAgent_add_to_buffer obs actions rewards next_obs
         done done_no_max self).1.2
    = s_agent self
  ∧ s_agent_ids
      (SharedMultiAgent_add_to_buffer obs actions rewards next_obs
         done done_no_max self).1.2
    = s_agent_ids self.
Proof.
  intros Hids Hts Hmiss. destruct self as [ids dev mode ag b].
  simpl in *. subst ids.
  assert (SharedMultiAgent_add_to_buffer obs actions rewards next_obs
            done done_no_max
            {| s_agent_ids := before ++ a :: after; s_device := dev;
               s_mode := mode; s_agent := ag; s_replay_buffer := b |}
          = (Raise (KeyError a),
             {| s_agent_ids := before ++ a :: after; s_device := dev;
                s_mode := mode; s_agent := ag;
                s_replay_buffer :=
                  foldl (λ b t, ReplayBuffer_add b t.1.1.1 t.1.1.2 t.1.2 t.2
                                  done done_no_max) b ts |},
             silent)) as Hrun.
  { unfold SharedMultiAgent_add_to_buffer.
    erewrite bind_quiet; [|reflexivity]. cbn [s_agent_ids].
    by apply shared_add_loop_missing. }
  rewrite Hrun. by repeat split.
Qed.

(** ** [load_checkpoint]: what it reads and when *)

(** X4. When the checkpoint file is absent [load_checkpoint] raises
    [FileNotFoundError] for its path, on both variants, having printed
    its first line and changed nothing. *)
Theorem load_checkpoint_missing_file (dir checkpoint device : string)
    (fs : gmap string (@file Obs Action Reward Params Optim)) :
  let path := path_join (path_join dir checkpoint) "checkpoint.pt" in
  fs !! path = None →
  (∀ self : @IndividualMultiAgent Obs Action Reward Core,
     IndividualMultiAgent_load_checkpoint dir checkpoint device (self, fs)
     = (Raise (FileNotFoundError path), (self, fs),
        [Stdout ("started loading checkpoint " +:+ checkpoint)]))
  ∧ (∀ self : @SharedMultiAgent Obs Action Reward Core,
       SharedMultiAgent_load_checkpoint dir checkpoint device (self, fs)
       = (Raise (FileNotFoundError path), (self, fs),
          [Stdout ("started loading checkpoint " +:+ checkpoint)])).
Proof.
  intros path Hnone.
  assert (∀ C (c : C), torch_load path device (c, fs)
            = (Raise (FileNotFoundError path), (c, fs), silent)) as Hload.
  { intros C c. unfold torch_load.
    erewrite bind_quiet; [|reflexivity]. simpl. by rewrite Hnone. }
  split; intros self.
  - unfold IndividualMultiAgent_load_checkpoint.
    apply bind_emit. by erewrite bind_Raise; [|apply Hload].
  - unfold SharedMultiAgent_load_checkpoint.
    apply bind_emit. by erewrite bind_Raise; [|apply Hload].
Qed.

(** X5. In any mode other than ["train"] the shared controller's
    [load_checkpoint] restores the parameters and the three optimizer
    states, returns the saved step counter, and neither reads the
    archive of the store (it need not exist) nor touches the store. *)
Theorem SharedMultiAgent_load_checkpoint_outside_train
    (dir checkpoint device dev mode : string) (ids : list string)
    (ag : @Learner Core) (b : @ReplayBuffer Obs Action Reward)
    (fs : gmap string (@file Obs Action Reward Params Optim)) s p st :
  mode ≠ "train" →
  fs !! path_join (path_join dir checkpoint) "checkpoint.pt"
  = Some (Pt_file {| ts_step := s; ts_models := Models_single p;
                     ts_optims := Optims_single st |}) →
  SharedMultiAgent_load_checkpoint dir checkpoint device
    ({| s_agent_ids := ids; s_device := dev; s_mode := mode;
        s_agent := ag; s_replay_buffer := b |}, fs)
  = (Ret s,
     ({| s_agent_ids := ids; s_device := dev; s_mode := mode;
         s_agent :=
           {| training := training ag;
              core :=
                optimizer_load_state_dict log_alpha_optimizer (os_alpha st)
                  (optimizer_load_state_dict actor_optimizer (os_actor st)
                     (optimizer_load_state_dict critic_optimizer (os_critic st)
                        (load_state_dict p (core ag)))) |};
         s_replay_buffer := b |}, fs),
     [Stdout ("started loading checkpoint " +:+ checkpoint);
      Stdout ("loading checkpoint " +:+ checkpoint +:+ " finished")]).
Proof.
  intros Hmode Hpt.
  unfold SharedMultiAgent_load_checkpoint.
  apply bind_emit.
  erewrite bind_quiet; [|by apply torch_load_Some].
  cbn [ts_models ts_step ts_optims].
  erewrite bind_quiet; [|by apply on_self_s_on_agent_quiet].
  erewrite bind_quiet; [|reflexivity].
  do 3 (erewrite bind_quiet; [|by apply on_self_s_on_agent_quiet]).
  erewrite bind_quiet; [|reflexivity].
  erewrite bind_quiet; [|reflexivity].
  cbn [s_mode fst snd]. rewrite decide_False by done.
  reflexivity.
Qed.

(** X6. In any mode other than ["train"] the individual controller's
    [load_checkpoint] returns the saved step counter and leaves every
    store as it was, without reading any archive. *)
Theorem IndividualMultiAgent_load_checkpoint_outside_train
    (dir checkpoint device dev mode : string) (ids : list string)
    (bufs : gmap string (@ReplayBuffer Obs Action Reward))
    (ags : gmap string (@Learner Core))
    (fs : gmap string (@file Obs Action Reward Params Optim))
    s models optims :
  mode ≠ "train" →
  fs !! path_join (path_join dir checkpoint) "checkpoint.pt"
  = Some (Pt_file {| ts_step := s; ts_models := Models_per_agent models;
                     ts_optims := Optims_per_agent optims |}) →
  dom models = dom ags →
  (∀ a, a ∈ ids → is_Some (ags !! a) ∧ is_Some (optims !! a)) →
  ∃ ags',
    IndividualMultiAgent_load_checkpoint dir checkpoint device
      ({| i_agent_ids := ids; i_device := dev; i_mode := mode;
          i_replay_buffers := bufs; i_agents := ags |}, fs)
    = (Ret s,
       ({| i_agent_ids := ids; i_device := dev; i_mode := mode;
           i_replay_buffers := bufs; i_agents := ags' |}, fs),
       [Stdout ("started loading checkpoint " +:+ checkpoint);
        Stdout ("loading checkpoint " +:+ checkpoint +:+ " finished")]).
Proof.
  intros Hmode Hpt Hdom Hok.
  destruct (ModuleDict_load_state_dict_run models ids dev mode bufs ags Hdom)
    as (ags1 & Hload & Hmono1).
  destruct (individual_optimizer_loop optims ids ids dev mode bufs ags1 fs)
    as (ags2 & Hopt & Hmono2).
  { intros a Ha. destruct (Hok a Ha) as (Hs & Ho). split; [|done]. auto. }
  exists ags2.
  unfold IndividualMultiAgent_load_checkpoint.
  apply bind_emit.
  erewrite bind_quiet; [|by apply torch_load_Some].
  cbn [ts_models ts_step ts_optims].
  erewrite bind_quiet; [|rewrite on_self_run, Hload; reflexivity].
  erewrite bind_quiet; [|reflexivity].
  erewrite bind_quiet; [|exact Hopt].
  erewrite bind_quiet; [|reflexivity].
  cbn [i_mode fst]. rewrite decide_False by done.
  reflexivity.
Qed.


(** ** Saving and loading back *)

Lemma string_app_inj_l (a x y : string) : a +:+ x = a +:+ y → x = y.
Proof.
  induction a as [|c a IH]; simpl; [done|]. intros [= H]. by apply IH.
Qed.

Lemma path_join_relative (a b : string) :
  String.prefix "/" b = false → path_join a b = a +:+ (path_sep a +:+ b).
Proof.
  intros Hb. unfold path_join, path_sep. rewrite Hb.
  by destruct (String.eqb a "" || ends_with_slash a).
Qed.

Lemma checkpoint_paths_differ (d : string) :
  path_join d "checkpoint.pt" ≠ path_join d "replay_buffer.npz".
Proof.
  rewrite !path_join_relative by done.
  intros H%string_app_inj_l. unfold path_sep in H.
  destruct (String.eqb d "" || ends_with_slash d); discriminate H.
Qed.

Lemma SharedMultiAgent_save_checkpoint_run (dir : string) (step : Z)
    (c : @SharedMultiAgent Obs Action Reward Core)
    (fs : gmap string (@file Obs Action Reward Params Optim)) :
  let checkpoint_dir := path_join dir ("cp_" +:+ pretty step) in
  SharedMultiAgent_save_checkpoint dir step (c, fs)
  = (Ret tt,
     (c,
      <[path_join checkpoint_dir "replay_buffer.npz" :=
          Npz_file {| npz_obses := obses (s_replay_buffer c);
                      npz_next_obses := next_obses (s_replay_buffer c);
                      npz_actions := actions (s_replay_buffer c);
                      npz_rewards := rewards (s_replay_buffer c);
                      npz_not_dones := not_dones (s_replay_buffer c);
                      npz_not_dones_no_max :=
                        not_dones_no_max (s_replay_buffer c) |}]>
        (<[path_join checkpoint_dir "checkpoint.pt" :=
             Pt_file {| ts_step := step;
                        ts_models :=
                          Models_single (state_dict (core (s_agent c)));
                        ts_optims :=
                          Optims_single (optim_states_of (s_agent c)) |}]>
           fs)),
     [Stdout ("started saving checkpoint " +:+ "cp_" +:+ pretty step);
      Mkdir checkpoint_dir;
      Stdout ("saving checkpoint " +:+ "cp_" +:+ pretty step +:+ " finished")]).
Proof. reflexivity. Qed.

Lemma add_all_write_row
    (ts : list (Obs * Action * Reward * Obs * pyscalar * pyscalar)) : ∀ b,
  add_all b ts
  = foldl write_row b
      ((λ t, row_of_transition t.1.1.1.1.1 t.1.1.1.1.2 t.1.1.1.2
               t.1.1.2 t.1.2 t.2) <$> ts).
Proof.
  unfold add_all. induction ts as [|t ts IH]; intros b; [done|].
  simpl. by rewrite IH.
Qed.

Lemma ReplayBuffer_row_of_rows (rows : list (@Row Obs Action Reward)) i f k :
  ReplayBuffer_row (buffer_of_rows rows i f) k = rows !! k.
Proof.
  unfold ReplayBuffer_row, buffer_of_rows. simpl.
  rewrite !list_lookup_fmap. by destruct (rows !! k) as [[]|].
Qed.

(** The same entries added to two new stores of one capacity: the
    stores have the same cursor, the same [full] flag and the same rows
    where an entry was written; they are equal when the slots never
    written hold the same in both. *)
Lemma add_all_two_memories (cap : nat)
    (blank blank' : nat → @Row Obs Action Reward)
    (ts : list (Obs * Action * Reward * Obs * pyscalar * pyscalar)) :
  (length ts ≤ cap)%nat →
  let loaded := add_all (ReplayBuffer_new cap blank') ts in
  let saved := add_all (ReplayBuffer_new cap blank) ts in
  capacity loaded = capacity saved
  ∧ idx loaded = idx saved
  ∧ full loaded = full saved
  ∧ (∀ i, (i < length ts)%nat →
       ReplayBuffer_row loaded i = ReplayBuffer_row saved i
       ∧ is_Some (ReplayBuffer_row saved i))
  ∧ ((∀ i, (length ts ≤ i < cap)%nat → blank' i = blank i) → loaded = saved).
Proof.
  intros Hcap loaded saved. subst loaded saved.
  rewrite !add_all_write_row.
  set (rs := (λ t, row_of_transition t.1.1.1.1.1 t.1.1.1.1.2 t.1.1.1.2
                     t.1.1.2 t.1.2 t.2) <$> ts).
  assert (length rs = length ts) as Hrs by (unfold rs; by rewrite length_fmap).
  rewrite !written_rows by lia. rewrite Hrs.
  split; [|split; [done|split; [done|split]]].
  - simpl. rewrite !length_app, !length_drop, !length_fmap. done.
  - intros i Hi. rewrite !ReplayBuffer_row_of_rows.
    rewrite !lookup_app_l by lia. split; [done|].
    apply lookup_lt_is_Some. lia.
  - intros Hsame. do 2 f_equal. apply list_eq. intros i.
    rewrite !lookup_drop, !list_lookup_fmap.
    destruct (decide (length ts + i < cap)%nat) as [Hlt|Hge].
    + rewrite lookup_seq_lt by lia. simpl. f_equal. apply Hsame. lia.
    + by rewrite lookup_seq_ge by lia.
Qed.

(** X8. Round trip of the shared controller within capacity. A store
    that was new with capacity [cap] and then received the [n] entries
    [ts] through [add], with [n <= cap] and [n] equal to the step
    counter times the number of agent ids, is saved by [save_checkpoint]
    at that step counter. [load_checkpoint] of the checkpoint
    [cp_<step>] into a controller in train mode whose store is new and
    of the same capacity, whatever its fresh memory [blank'] holds,
    returns the step counter and leaves the store that the same [n]
    entries give when added to that new store: it has the cursor, the
    [full] flag and the [n] written rows of the saved store, and the
    slots never written keep the fresh memory of the new store. It is
    equal to the saved store when those slots held the same in both, in
    particular when [n = cap]. *)
Theorem SharedMultiAgent_checkpoint_roundtrip
    (dir device dev : string) (step : Z) (ids : list string)
    (cap : nat) (blank blank' : nat → @Row Obs Action Reward)
    (ts : list (Obs * Action * Reward * Obs * pyscalar * pyscalar))
    (c : @SharedMultiAgent Obs Action Reward Core) (ag0 : @Learner Core)
    (fs : gmap string (@file Obs Action Reward Params Optim)) :
  s_replay_buffer c = add_all (ReplayBuffer_new cap blank) ts →
  (length ts ≤ cap)%nat →
  length ts = Z.to_nat (step * Z.of_nat (length ids)) →
  let saved := (SharedMultiAgent_save_checkpoint dir step (c, fs)).1.2.2 in
  let loaded := add_all (ReplayBuffer_new cap blank') ts in
  (∃ ag',
     SharedMultiAgent_load_checkpoint dir ("cp_" +:+ pretty step) device
       ({| s_agent_ids := ids; s_device := dev; s_mode := "train";
           s_agent := ag0; s_replay_buffer := ReplayBuffer_new cap blank' |},
        saved)
     = (Ret step,
        ({| s_agent_ids := ids; s_device := dev; s_mode := "train";
            s_agent := ag'; s_replay_buffer := loaded |}, saved),
        [Stdout ("started loading checkpoint " +:+ "cp_" +:+ pretty step);
         Stdout ("loading checkpoint " +:+ "cp_" +:+ pretty step
                 +:+ " finished")]))
  ∧ capacity loaded = capacity (s_replay_buffer c)
  ∧ idx loaded = idx (s_replay_buffer c)
  ∧ full loaded = full (s_replay_buffer c)
  ∧ (∀ i, (i < length ts)%nat →
       ReplayBuffer_row loaded i = ReplayBuffer_row (s_replay_buffer c) i
       ∧ is_Some (ReplayBuffer_row (s_replay_buffer c) i))
  ∧ ((∀ i, (length ts ≤ i < cap)%nat → blank' i = blank i) →
     loaded = s_replay_buffer c).
Proof.
  intros Hstore Hcap Hn saved loaded.
  split; [|rewrite Hstore; by apply add_all_two_memories].
  set (rs := (λ t, row_of_transition t.1.1.1.1.1 t.1.1.1.1.2 t.1.1.1.2
                     t.1.1.2 t.1.2 t.2) <$> ts).
  assert (length rs = length ts) as Hrs by (unfold rs; by rewrite length_fmap).
  assert (s_replay_buffer c
          = buffer_of_rows (rs ++ drop (length rs) (blank <$> seq 0 cap))
              (cursor_after cap (length rs)) (full_after cap (length rs)))
    as Hb.
  { rewrite Hstore, add_all_write_row. apply written_rows. lia. }
  subst saved. rewrite SharedMultiAgent_save_checkpoint_run. cbn [fst snd].
  match goal with |- context [(_, ?m)] =>
    match type of m with gmap _ _ => set (saved := m) end end.
  assert (saved !! path_join (path_join dir ("cp_" +:+ pretty step))
                     "checkpoint.pt"
          = Some (Pt_file {| ts_step := step;
                             ts_models :=
                               Models_single (state_dict (core (s_agent c)));
                             ts_optims :=
                               Optims_single (optim_states_of (s_agent c)) |}))
    as Hpt.
  { unfold saved.
    rewrite lookup_insert_ne by (apply not_eq_sym, checkpoint_paths_differ).
    apply lookup_insert_eq. }
  assert (saved !! path_join (path_join dir ("cp_" +:+ pretty step))
                     "replay_buffer.npz"
          = Some (Npz_file
                    (npz_of_rows
                       (rs ++ drop (length rs) (blank <$> seq 0 cap)))))
    as Hnpz.
  { unfold saved. rewrite lookup_insert_eq, Hb. reflexivity. }
  destruct (SharedMultiAgent_load_checkpoint_replays
              (rs ++ drop (length rs) (blank <$> seq 0 cap))
              dir ("cp_" +:+ pretty step) device ids dev ag0
              (ReplayBuffer_new cap blank') saved _ _ _ Hpt Hnpz)
    as [ag' Hrun].
  { rewrite length_app, length_drop, length_fmap, length_seq. lia. }
  exists ag'. rewrite Hrun. repeat f_equal.
  rewrite <- Hn, <- Hrs, replay_roundtrip by lia.
  subst loaded. rewrite add_all_write_row. symmetry. apply written_rows. lia.
Qed.


(** * Further properties of the workspace *)

(** ** An evaluation pass *)

Lemma preserves_finally {S X A} (f : S → X) (m : Prog S A) (h : Prog S unit) :
  preserves f m → preserves f h → preserves f (finally m h).
Proof.
  intros Hm Hh s. unfold finally.
  specialize (Hm s). destruct (m s) as [[r s1] t1].
  specialize (Hh s1). destruct (h s1) as [[[ | |] s2] t2]; simpl in *;
    congruence.
Qed.

Lemma preserves_i_on_agent {X B} (f : @IndividualMultiAgent Obs Action Reward Core → X)
    agent (m : Prog (@Learner Core) B) :
  (∀ g self, f (i_set_agents g self) = f self) →
  preserves f (i_on_agent agent B m).
Proof.
  intros Hf self. unfold i_on_agent.
  destruct (i_agents self !! agent) as [l|]; [|done].
  destruct (m l) as [[r l'] t]. apply Hf.
Qed.

Lemma preserves_with_mode {S X A} (f : S → X) flag me
    (on_model : ∀ B, Prog (@Learner Core) B → Prog S B) (body : Prog S A) :
  (∀ B (m : Prog (@Learner Core) B), preserves f (on_model B m)) →
  preserves f body →
  preserves f (with_mode flag me on_model body).
Proof.
  intros Hon Hbody. unfold with_mode.
  apply preserves_bind; [apply Hon|intros prev].
  apply preserves_bind; [apply Hon|intros _].
  apply preserves_finally; [exact Hbody|apply Hon].
Qed.

Lemma preserves_IndividualMultiAgent_act obs sample mode :
  preserves (@i_replay_buffers Obs Action Reward Core)
    (IndividualMultiAgent_act obs sample mode).
Proof.
  assert (∀ agent B (m : Prog (@Learner Core) B),
            preserves (@i_replay_buffers Obs Action Reward Core)
              (i_on_agent agent B m)) as Hon.
  { intros. by apply preserves_i_on_agent. }
  assert (∀ agent actions,
            preserves (@i_replay_buffers Obs Action Reward Core)
              (i_act_one obs sample agent actions)) as Hone.
  { intros. unfold i_act_one.
    apply preserves_bind; [apply Hon|intros; apply preserves_ret]. }
  unfold IndividualMultiAgent_act, eval_mode, train_mode.
  apply preserves_bind; [apply preserves_gets|intros ids].
  repeat case_decide.
  - apply preserves_for_in. intros.
    apply preserves_with_mode; [intros; apply Hon|apply Hone].
  - apply preserves_for_in. intros.
    apply preserves_with_mode; [intros; apply Hon|apply Hone].
  - apply preserves_for_in. intros. apply Hone.
  - apply preserves_raise.
Qed.

Lemma preserves_SharedMultiAgent_act obs sample mode :
  preserves (@s_replay_buffer Obs Action Reward Core)
    (SharedMultiAgent_act obs sample mode).
Proof.
  assert (∀ B (m : Prog (@Learner Core) B),
            preserves (@s_replay_buffer Obs Action Reward Core)
              (s_on_agent B m)) as Hon.
  { intros. unfold s_on_agent. by apply preserves_zoom. }
  assert (∀ agent actions,
            preserves (@s_replay_buffer Obs Action Reward Core)
              (s_act_one obs sample agent actions)) as Hone.
  { intros. unfold s_act_one.
    apply preserves_bind; [apply preserves_dict_get|intros].
    apply preserves_bind; [apply Hon|intros; apply preserves_ret]. }
  unfold SharedMultiAgent_act, eval_mode.
  apply preserves_bind; [apply preserves_gets|intros ids].
  repeat case_decide.
  - apply preserves_for_in. intros.
    apply preserves_with_mode; [intros; apply Hon|apply Hone].
  - apply preserves_for_in. intros. apply preserves_raise.
  - apply preserves_for_in. intros. apply Hone.
  - apply preserves_raise.
Qed.

Lemma preserves_IndividualMultiAgent_reset :
  preserves (@i_replay_buffers Obs Action Reward Core)
    IndividualMultiAgent_reset.
Proof.
  unfold IndividualMultiAgent_reset.
  apply preserves_bind; [apply preserves_gets|intros ids].
  apply preserves_for_each. intros. by apply preserves_i_on_agent.
Qed.

Lemma preserves_SharedMultiAgent_reset :
  preserves (@s_replay_buffer Obs Action Reward Core) SharedMultiAgent_reset.
Proof. unfold SharedMultiAgent_reset, s_on_agent. by apply preserves_zoom. Qed.

Lemma preserves_dispatch {A}
    (mi : Prog (@IndividualMultiAgent Obs Action Reward Core) A)
    (ms : Prog (@SharedMultiAgent Obs Action Reward Core) A) :
  preserves i_replay_buffers mi → preserves s_replay_buffer ms →
  preserves MultiAgent_stores (dispatch mi ms).
Proof.
  intros Hi Hs [c|c]; unfold dispatch.
  - specialize (Hi c). destruct (mi c) as [[r c'] t]. simpl in *.
    by rewrite Hi.
  - specialize (Hs c). destruct (ms c) as [[r c'] t]. simpl in *.
    by rewrite Hs.
Qed.

Abbreviation ws_stores :=
  (λ s : @Workspace Obs Action Reward Core Env,
     MultiAgent_stores (ws_multi_agent s)).

Lemma preserves_on_multi_agent {A}
    (m : Prog (@MultiAgent Obs Action Reward Core) A) :
  preserves MultiAgent_stores m → preserves ws_stores (on_multi_agent m).
Proof.
  intros Hm s. unfold on_multi_agent, zoom.
  specialize (Hm (ws_multi_agent s)).
  by destruct (m (ws_multi_agent s)) as [[r ma] t].
Qed.

Lemma preserves_stores_act obs sample mode :
  preserves ws_stores (on_multi_agent (MultiAgent_act obs sample mode)).
Proof.
  apply preserves_on_multi_agent. unfold MultiAgent_act.
  apply preserves_bind; [apply preserves_emit|intros _].
  apply preserves_dispatch;
    [apply preserves_IndividualMultiAgent_act
    |apply preserves_SharedMultiAgent_act].
Qed.

Lemma preserves_stores_reset :
  preserves ws_stores (on_multi_agent MultiAgent_reset).
Proof.
  apply preserves_on_multi_agent. unfold MultiAgent_reset.
  apply preserves_bind; [apply preserves_emit|intros _].
  apply preserves_dispatch;
    [apply preserves_IndividualMultiAgent_reset
    |apply preserves_SharedMultiAgent_reset].
Qed.

Ltac stores_solve :=
  repeat first
    [ apply preserves_stores_act
    | apply preserves_stores_reset
    | unfold on_env, zero_rewards, add_rewards; preserves_step ].

Lemma preserves_stores_evaluate_episode fuel : ∀ obs episode_rewards,
  preserves ws_stores (evaluate_episode fuel obs episode_rewards).
Proof.
  induction fuel as [|fuel IH]; intros obs episode_rewards; simpl.
  - apply preserves_out_of_fuel.
  - stores_solve. apply IH.
Qed.

Lemma preserves_stores_Workspace_evaluate fuel :
  preserves ws_stores (Workspace_evaluate fuel).
Proof.
  unfold Workspace_evaluate. stores_solve.
  apply preserves_stores_evaluate_episode.
Qed.

(** X11. An evaluation pass never learns. Whatever the workspace and
    however the pass ends, the only calls [evaluate] makes on the
    controller are [act] with [sample=False] and [mode="eval"] and
    [reset]: it never calls [update], [add_to_buffer], [save_checkpoint]
    or [load_checkpoint]. It leaves the step counter, the configuration,
    the agent ids and the loggers as they were, and every transition
    store of the controller holds afterwards what it held before. *)
Theorem Workspace_evaluate_never_learns (fuel : nat) :
  emits evaluate_call
    (Workspace_evaluate fuel : Prog (@Workspace Obs Action Reward Core Env) unit)
  ∧ preserves static (Workspace_evaluate fuel)
  ∧ preserves ws_stores (Workspace_evaluate fuel).
Proof.
  split; [|split].
  - apply emits_Workspace_evaluate.
    + intros ev Hev. by left.
    + right. by left.
    + right. by right.
  - apply preserves_Workspace_evaluate.
  - apply preserves_stores_Workspace_evaluate.
Qed.

(** ** Evaluating zero episodes *)

Lemma zero_rewards_run {S} ids : ∀ (d : gmap string Reward) (s : S),
  ∃ d', zero_rewards ids d s = (Ret d', s, silent)
        ∧ ∀ a, a ∈ ids → d' !! a = Some reward_zero.
Proof.
  unfold zero_rewards.
  induction ids as [|a ids IH]; intros d s.
  - exists d. split; [done|]. by intros a Ha%elem_of_nil.
  - destruct (IH (<[a := reward_zero]> d) s) as (d' & Hrun & Hin).
    destruct (decide (a ∈ ids)) as [Ha|Ha].
    + exists d'. split.
      * simpl for_in. erewrite bind_quiet; [|reflexivity]. exact Hrun.
      * intros a' [->|Ha']%elem_of_cons; by apply Hin.
    + assert (∀ ids (d0 : gmap string Reward) (s0 : S) d1,
                a ∉ ids →
                for_in ids d0 (λ agent d, ret (<[agent := reward_zero]> d)) s0
                = (Ret d1, s0, silent) →
                d1 !! a = d0 !! a) as Hkeep.
      { clear. induction ids as [|b ids IH]; intros d0 s0 d1 Hn H.
        - by injection H as <-.
        - apply not_elem_of_cons in Hn as [Hne Hn].
          simpl for_in in H. erewrite bind_quiet in H; [|reflexivity].
          rewrite (IH _ _ _ Hn H). by rewrite lookup_insert_ne. }
      exists d'. split.
      * simpl for_in. erewrite bind_quiet; [|reflexivity]. exact Hrun.
      * intros a' [->|Ha']%elem_of_cons; [|by apply Hin].
        rewrite (Hkeep _ _ _ _ Ha Hrun). by rewrite lookup_insert_eq.
Qed.

(** X12. With [num_eval_episodes = 0] and at least one agent,
    [evaluate] runs no episode, touches neither the environment nor the
    controller, logs nothing, and raises [ZeroDivisionError] when it
    averages the reward of the first agent. *)
Theorem Workspace_evaluate_zero_episodes (fuel : nat)
    (s : @Workspace Obs Action Reward Core Env) :
  cfg_num_eval_episodes (ws_cfg s) = 0 →
  ws_agent_ids s ≠ [] →
  Workspace_evaluate fuel s
  = (Raise (ZeroDivisionError "division by zero"), s, silent).
Proof.
  intros Hn Hids. unfold Workspace_evaluate.
  do 2 (erewrite bind_quiet; [|reflexivity]).
  destruct (zero_rewards_run (ws_agent_ids s) ∅ s) as (d & Hrun & Hin).
  erewrite bind_quiet; [|exact Hrun].
  rewrite Hn. simpl for_in.
  erewrite bind_quiet; [|reflexivity].
  do 2 (erewrite bind_quiet; [|reflexivity]).
  destruct (ws_agent_ids s) as [|a ids]; [done|].
  unfold for_each. simpl foldr.
  erewrite bind_Raise; [reflexivity|].
  erewrite bind_quiet; [|apply dict_get_Some, Hin; by left].
  reflexivity.
Qed.


(** ** Building the controllers and the workspace *)

Lemma individual_init_loop {S} (obs_spaces act_spaces : gmap string (list Z))
    (act_ranges : gmap string Range) cap
    (blank : string → nat → @Row Obs Action Reward) l :
  ∀ (bufs : gmap string (@ReplayBuffer Obs Action Reward))
    (ags : gmap string (@Learner Core)) (s : S),
  (∀ a, a ∈ l →
     (∃ d sh, obs_spaces !! a = Some (d :: sh))
     ∧ (∃ d sh, act_spaces !! a = Some (d :: sh))
     ∧ is_Some (act_ranges !! a)) →
  ∃ bufs' ags',
    for_in l (bufs, ags) (λ agent acc,
      obs_shape <- dict_get obs_spaces agent ;;
      obs_dim <- shape0 obs_shape ;;
      act_shape <- dict_get act_spaces agent ;;
      action_dim <- shape0 act_shape ;;
      action_range <- dict_get act_ranges agent ;;
      ret (<[agent := ReplayBuffer_new cap (blank agent)]> acc.1,
           <[agent := instantiate obs_dim action_dim action_range]> acc.2)) s
    = (Ret (bufs', ags'), s, silent)
    ∧ (∀ a, a ∈ l →
         bufs' !! a = Some (ReplayBuffer_new cap (blank a))
         ∧ ∀ d sh d' sh' r,
             obs_spaces !! a = Some (d :: sh) →
             act_spaces !! a = Some (d' :: sh') →
             act_ranges !! a = Some r →
             ags' !! a = Some (instantiate d d' r))
    ∧ (∀ a, a ∉ l → bufs' !! a = bufs !! a ∧ ags' !! a = ags !! a).
Proof.
  induction l as [|a l IH]; intros bufs ags s Hok.
  - exists bufs, ags. split; [done|]. split; [|done].
    by intros a Ha%elem_of_nil.
  - destruct (Hok a) as ((d & sh & Ho) & (d' & sh' & Ha) & (r & Hr));
      [by left|].
    destruct (IH (<[a := ReplayBuffer_new cap (blank a)]> bufs)
                 (<[a := instantiate d d' r]> ags) s)
      as (bufs' & ags' & Hrun & Hin & Hout).
    { intros a' Ha'. apply Hok. by right. }
    exists bufs', ags'. split; [|split].
    + simpl for_in. erewrite bind_quiet; [exact Hrun|].
      erewrite bind_quiet; [|by apply dict_get_Some].
      erewrite bind_quiet; [|reflexivity].
      erewrite bind_quiet; [|by apply dict_get_Some].
      erewrite bind_quiet; [|reflexivity].
      erewrite bind_quiet; [|by apply dict_get_Some].
      reflexivity.
    + intros a' Ha'. destruct (decide (a' ∈ l)) as [Hl|Hl]; [by apply Hin|].
      apply elem_of_cons in Ha' as [->|Ha']; [|done].
      destruct (Hout a Hl) as [Hb Hg]. rewrite Hb, Hg, !lookup_insert_eq.
      split; [done|]. intros ? ? ? ? ? ? ? ?. congruence.
    + intros a' Ha'. apply not_elem_of_cons in Ha' as [Hne Ha'].
      destruct (Hout a' Ha') as [Hb Hg].
      by rewrite Hb, Hg, !lookup_insert_ne.
Qed.

(** X13. The constructor of the individual controller gives every agent
    id a new, empty store of the requested capacity and a learner
    instantiated with the first dimension of that agent's observation
    and action shapes and with that agent's action range; it builds
    nothing for any other key, and records the ids, the device and the
    mode it was given. *)
Theorem IndividualMultiAgent_init_builds_all {S} (ids : list string)
    (obs_spaces act_spaces : gmap string (list Z))
    (act_ranges : gmap string Range) (cap : nat) (device mode : string)
    (blank : string → nat → @Row Obs Action Reward) (s : S) :
  (∀ a, a ∈ ids →
     (∃ d sh, obs_spaces !! a = Some (d :: sh))
     ∧ (∃ d sh, act_spaces !! a = Some (d :: sh))
     ∧ is_Some (act_ranges !! a)) →
  ∃ c : @IndividualMultiAgent Obs Action Reward Core,
    IndividualMultiAgent_init ids obs_spaces act_spaces act_ranges cap
      device mode blank s
    = (Ret c, s, silent)
    ∧ i_agent_ids c = ids ∧ i_device c = device ∧ i_mode c = mode
    ∧ (∀ a, a ∈ ids →
         i_replay_buffers c !! a = Some (ReplayBuffer_new cap (blank a))
         ∧ ∀ d sh d' sh' r,
             obs_spaces !! a = Some (d :: sh) →
             act_spaces !! a = Some (d' :: sh') →
             act_ranges !! a = Some r →
             i_agents c !! a = Some (instantiate d d' r))
    ∧ (∀ a, a ∉ ids →
         i_replay_buffers c !! a = None ∧ i_agents c !! a = None).
Proof.
  intros Hok.
  destruct (individual_init_loop obs_spaces act_spaces act_ranges cap blank
              ids ∅ ∅ s Hok) as (bufs' & ags' & Hrun & Hin & Hout).
  eexists. split.
  { unfold IndividualMultiAgent_init.
    erewrite bind_quiet; [|exact Hrun]. reflexivity. }
  simpl. do 3 (split; [done|]). split; [exact Hin|].
  intros a Ha. destruct (Hout a Ha) as [-> ->]. by rewrite !lookup_empty.
Qed.


Lemma for_in_insert_run {S V} (g : string → V) l :
  ∀ (acc : gmap string V) (s : S),
  ∃ acc',
    for_in l acc (λ a acc, ret (<[a := g a]> acc)) s = (Ret acc', s, silent)
    ∧ (∀ a, a ∈ l → acc' !! a = Some (g a))
    ∧ (∀ a, a ∉ l → acc' !! a = acc !! a).
Proof.
  induction l as [|a l IH]; intros acc s.
  - exists acc. split; [done|]. split; [|done]. by intros a Ha%elem_of_nil.
  - destruct (IH (<[a := g a]> acc) s) as (acc' & Hrun & Hin & Hout).
    exists acc'. split; [|split].
    + simpl for_in. erewrite bind_quiet; [exact Hrun|reflexivity].
    + intros a' Ha'. destruct (decide (a' ∈ l)) as [Hl|Hl]; [by apply Hin|].
      apply elem_of_cons in Ha' as [->|Ha']; [|done].
      by rewrite (Hout a Hl), lookup_insert_eq.
    + intros a' Ha'. apply not_elem_of_cons in Ha' as [Hne Ha'].
      by rewrite (Hout a' Ha'), lookup_insert_ne.
Qed.

Lemma spaces_run {S} (env : Env) l :
  ∀ (acc : gmap string (list Z) * gmap string (list Z) * gmap string Range)
    (s : S),
  ∃ acc',
    for_in l acc (λ agent acc,
      ret (<[agent := observation_shape env agent]> acc.1.1,
           <[agent := action_shape env agent]> acc.1.2,
           <[agent := action_range env agent]> acc.2)) s
    = (Ret acc', s, silent)
    ∧ (∀ a, a ∈ l →
         acc'.1.1 !! a = Some (observation_shape env a)
         ∧ acc'.1.2 !! a = Some (action_shape env a)
         ∧ acc'.2 !! a = Some (action_range env a)).
Proof.
  induction l as [|a l IH]; intros acc s.
  - exists acc. split; [done|]. by intros a Ha%elem_of_nil.
  - assert (∀ l (acc : gmap string (list Z) * gmap string (list Z)
                         * gmap string Range) (s : S) acc',
              a ∉ l →
              for_in l acc (λ agent acc,
                ret (<[agent := observation_shape env agent]> acc.1.1,
                     <[agent := action_shape env agent]> acc.1.2,
                     <[agent := action_range env agent]> acc.2)) s
              = (Ret acc', s, silent) →
              acc'.1.1 !! a = acc.1.1 !! a
              ∧ acc'.1.2 !! a = acc.1.2 !! a
              ∧ acc'.2 !! a = acc.2 !! a) as Hkeep.
    { clear. induction l as [|b l IH]; intros acc s acc' Hn H.
      - by injection H as <-.
      - apply not_elem_of_cons in Hn as [Hne Hn].
        simpl for_in in H. erewrite bind_quiet in H; [|reflexivity].
        destruct (IH _ _ _ Hn H) as (-> & -> & ->). simpl.
        by rewrite !lookup_insert_ne. }
    destruct (IH (<[a := observation_shape env a]> acc.1.1,
                  <[a := action_shape env a]> acc.1.2,
                  <[a := action_range env a]> acc.2) s)
      as (acc' & Hrun & Hin).
    exists acc'. split.
    + simpl for_in. erewrite bind_quiet; [exact Hrun|reflexivity].
    + intros a' Ha'. destruct (decide (a' ∈ l)) as [Hl|Hl]; [by apply Hin|].
      apply elem_of_cons in Ha' as [->|Ha']; [|done].
      destruct (Hkeep _ _ _ _ Hl Hrun) as (-> & -> & ->). simpl.
      by rewrite !lookup_insert_eq.
Qed.

(** X14. With a [multi_agent_mode] that is neither ["individual"] nor
    ["shared"] the constructor of the workspace raises [Exception]
    with the message of the source. By then it has created the run
    directory (when no checkpoint is to be loaded) and printed the
    working directory; it reads no checkpoint and leaves the files as
    they were. *)
Theorem Workspace_init_unknown_multi_agent_mode (cfg : Config)
    (cwd today clock : string) (env : Env)
    (blank_i : string → nat → @Row Obs Action Reward)
    (blank_s : nat → @Row Obs Action Reward)
    (fs : gmap string (@file Obs Action Reward Params Optim)) :
  cfg_multi_agent_mode cfg ≠ "individual" →
  cfg_multi_agent_mode cfg ≠ "shared" →
  @Workspace_init Obs Action Reward Core Params Optim Range L Env E
    cfg cwd today clock env blank_i blank_s fs
  = (Raise (Exception "no valid multiagent_mode"), fs,
     if cfg_load_checkpoint cfg
     then [Stdout ("workspace: " +:+ path_join cwd (cfg_checkpoint_dir cfg))]
     else [Mkdir (path_join (path_join cwd today) clock);
           Stdout ("workspace: " +:+ path_join (path_join cwd today) clock)]).
Proof.
  intros Hi Hs. unfold Workspace_init.
  destruct (for_in_insert_run (λ a, {| logger_agent_id := a |})
              (env_agents (env_seed (cfg_seed cfg) env)) ∅ fs)
    as (lgs & Hlg & _).
  destruct (cfg_load_checkpoint cfg).
  - erewrite bind_quiet; [|reflexivity].
    apply bind_emit.
    erewrite bind_quiet; [|exact Hlg].
    rewrite !decide_False by done. reflexivity.
  - erewrite (bind_Ret_run _ _ _ _ _ [Mkdir _]); [reflexivity|reflexivity|].
    apply bind_emit.
    erewrite bind_quiet; [|exact Hlg].
    rewrite !decide_False by done. reflexivity.
Qed.

(** X15. A workspace built without a checkpoint starts at step 0 in a
    new run directory, with a logger for every agent of the seeded
    environment. In ["individual"] mode every agent has its own new
    store of [replay_buffer_capacity] slots and its own learner; in
    ["shared"] mode there is one store of [replay_buffer_capacity] times
    the number of agents slots. In ["shared"] mode with no agent the
    constructor raises [IndexError] on [agent_ids[0]]. *)
Theorem Workspace_init_fresh (cfg : Config) (cwd today clock : string)
    (env : Env) (blank_i : string → nat → @Row Obs Action Reward)
    (blank_s : nat → @Row Obs Action Reward)
    (fs : gmap string (@file Obs Action Reward Params Optim)) :
  let env' := env_seed (cfg_seed cfg) env in
  let ids := env_agents env' in
  let dir := path_join (path_join cwd today) clock in
  cfg_load_checkpoint cfg = false →
  (∀ a, a ∈ ids → observation_shape env' a ≠ [] ∧ action_shape env' a ≠ []) →
  (cfg_multi_agent_mode cfg = "individual" →
     ∃ (ws : @Workspace Obs Action Reward Core Env) c,
       Workspace_init cfg cwd today clock env blank_i blank_s fs
       = (Ret ws, fs, [Mkdir dir; Stdout ("workspace: " +:+ dir)])
       ∧ ws_multi_agent ws = Individual c
       ∧ ws_step ws = 0 ∧ ws_work_dir ws = dir ∧ ws_agent_ids ws = ids
       ∧ i_agent_ids c = ids ∧ i_mode c = cfg_mode cfg
       ∧ ∀ a, a ∈ ids →
           ws_loggers ws !! a = Some {| logger_agent_id := a |}
           ∧ i_replay_buffers c !! a
             = Some (ReplayBuffer_new
                       (Z.to_nat (cfg_replay_buffer_capacity cfg)) (blank_i a))
           ∧ is_Some (i_agents c !! a))
  ∧ (cfg_multi_agent_mode cfg = "shared" → ids ≠ [] →
     ∃ (ws : @Workspace Obs Action Reward Core Env) c,
       Workspace_init cfg cwd today clock env blank_i blank_s fs
       = (Ret ws, fs, [Mkdir dir; Stdout ("workspace: " +:+ dir)])
       ∧ ws_multi_agent ws = Shared c
       ∧ ws_step ws = 0 ∧ ws_work_dir ws = dir ∧ ws_agent_ids ws = ids
       ∧ s_agent_ids c = ids ∧ s_mode c = cfg_mode cfg
       ∧ s_replay_buffer c
         = ReplayBuffer_new
             (Z.to_nat (cfg_replay_buffer_capacity cfg
                        * Z.of_nat (length ids))) blank_s
       ∧ ∀ a, a ∈ ids → ws_loggers ws !! a = Some {| logger_agent_id := a |})
  ∧ (cfg_multi_agent_mode cfg = "shared" → ids = [] →
     @Workspace_init Obs Action Reward Core Params Optim Range L Env E
       cfg cwd today clock env blank_i blank_s fs
     = (Raise (IndexError "list index out of range"), fs,
        [Mkdir dir; Stdout ("workspace: " +:+ dir)])).
Proof.
  intros env' ids dir Hload Hshapes.
  destruct (for_in_insert_run (λ a, {| logger_agent_id := a |}) ids ∅ fs)
    as (lgs & Hlg & Hlgin & _).
  split; [|split].
  - intros Hmode.
    destruct (spaces_run env' ids (∅, ∅, ∅) fs) as (sp & Hsp & Hspin).
    destruct (individual_init_loop sp.1.1 sp.1.2 sp.2
                (Z.to_nat (cfg_replay_buffer_capacity cfg)) blank_i
                ids ∅ ∅ fs) as (bufs & ags & Hrun & Hin & _).
    { intros a Ha. destruct (Hspin a Ha) as (Ho & Hac & Hr).
      destruct (Hshapes a Ha) as [Hno Hna].
      rewrite Ho, Hac, Hr.
      destruct (observation_shape env' a) as [|d sh]; [done|].
      destruct (action_shape env' a) as [|d' sh']; [done|].
      split; [eauto|]. split; eauto. }
    eexists _, _. split.
    { unfold Workspace_init. rewrite Hload.
      erewrite (bind_Ret_run _ _ _ _ _ [Mkdir _]); [reflexivity|reflexivity|].
      apply bind_emit.
      erewrite bind_quiet; [|exact Hlg].
      rewrite decide_True by done.
      erewrite bind_quiet; [reflexivity|].
      erewrite bind_quiet; [|exact Hsp].
      erewrite bind_quiet; [reflexivity|].
      unfold IndividualMultiAgent_init.
      erewrite bind_quiet; [|exact Hrun]. reflexivity. }
    simpl. split; [reflexivity|]. simpl. do 5 (split; [done|]).
    intros a Ha. split; [by apply Hlgin|].
    destruct (Hin a Ha) as [Hb Hag]. split; [exact Hb|].
    destruct (Hspin a Ha) as (Ho & Hac & Hr).
    destruct (Hshapes a Ha) as [Hno Hna].
    destruct (observation_shape env' a) as [|d sh] eqn:Eo; [done|].
    destruct (action_shape env' a) as [|d' sh'] eqn:Ea; [done|].
    rewrite (Hag d sh d' sh' (action_range env' a)); by eauto.
  - intros Hmode Hne.
    assert (cfg_multi_agent_mode cfg ≠ "individual") as Hni
      by (rewrite Hmode; discriminate).
    subst ids.
    destruct (env_agents env') as [|a0 ids0] eqn:Eids; [done|].
    destruct (Hshapes a0) as [Hno Hna]; [by left|].
    destruct (observation_shape env' a0) as [|d sh] eqn:Eo; [done|].
    destruct (action_shape env' a0) as [|d' sh'] eqn:Ea; [done|].
    eexists _, _. split.
    { unfold Workspace_init. rewrite Hload. fold env'. rewrite Eids.
      erewrite (bind_Ret_run _ _ _ _ _ [Mkdir _]); [reflexivity|reflexivity|].
      apply bind_emit.
      erewrite bind_quiet; [|exact Hlg].
      rewrite decide_False, decide_True by done.
      erewrite bind_quiet; [reflexivity|].
      erewrite bind_quiet; [|reflexivity].
      unfold SharedMultiAgent_init. rewrite Eo, Ea. reflexivity. }
    simpl. split; [reflexivity|]. simpl. do 6 (split; [done|]). exact Hlgin.
  - intros Hmode Hnil.
    assert (cfg_multi_agent_mode cfg ≠ "individual") as Hni
      by (rewrite Hmode; discriminate).
    subst ids.
    unfold Workspace_init. rewrite Hload. fold env'.
    revert Hlg. rewrite Hnil. intros Hlg.
    erewrite (bind_Ret_run _ _ _ _ _ [Mkdir _]); [reflexivity|reflexivity|].
    apply bind_emit.
    erewrite bind_quiet; [|exact Hlg].
    rewrite decide_False, decide_True by done. reflexivity.
Qed.


(** ** Counting the calls of a training run *)

Lemma filter_none (c : Ev → bool) (t : list Ev) :
  Forall (λ ev, c ev = false) t → List.filter c t = [].
Proof.
  induction 1 as [|ev t Hev _ IH]; [done|]. simpl. by rewrite Hev.
Qed.

(** The calls that are neither [update], [add_to_buffer] nor
    [save_checkpoint]. *)
Abbreviation uncounted :=
  (λ ev : Ev, is_add_call ev = false ∧ is_update_call ev = false
              ∧ is_save_call ev = false).

Lemma uncounted_low (ev : Ev) : is_call ev = false → uncounted ev.
Proof. by destruct ev. Qed.

Lemma uncounted_filters (t : list Ev) :
  Forall uncounted t →
  List.filter is_add_call t = [] ∧ List.filter is_update_call t = []
  ∧ List.filter is_save_call t = [].
Proof.
  intros H. repeat split; apply filter_none;
    (eapply Forall_impl; [exact H|]); by intros ev (? & ? & ?).
Qed.

Lemma not_add_low (ev : Ev) : is_call ev = false → is_add_call ev = false.
Proof. by destruct ev. Qed.

Lemma not_save_low (ev : Ev) : is_call ev = false → is_save_call ev = false.
Proof. by destruct ev. Qed.

Lemma record_step_adds fuel loc actions
    (s : @Workspace Obs Action Reward Core Env) loc' s' t :
  record_step fuel loc actions s = (Ret loc', s', t) →
  length (List.filter is_add_call t) = 1%nat.
Proof.
  unfold record_step. intros H.
  apply bind_inv_Ret in H as (ids & s0 & t0 & t0' & H0 & H & ->).
  injection H0 as <- <- <-.
  apply bind_inv_Ret in H as (res & s1 & t1 & t1' & H1 & H & ->).
  apply bind_inv_Ret in H as (er & s2 & t2 & t2' & H2 & H & ->).
  apply bind_inv_Ret in H as ([] & s3 & t3 & t3' & H3 & H & ->).
  apply bind_inv_Ret in H as ([] & s4 & t4 & t4' & H4 & H & ->).
  injection H4 as <- <-.
  assert (List.filter is_add_call t1 = []) as E1.
  { apply filter_none. eapply emits_eq; [|exact H1].
    unfold on_env. emits_solve. }
  assert (List.filter is_add_call t2 = []) as E2.
  { apply filter_none. eapply emits_eq; [|exact H2]. emits_solve. }
  assert (length (List.filter is_add_call t3) = 1%nat) as E3.
  { revert H3.
    unfold on_multi_agent, zoom, MultiAgent_add_to_buffer, bind, emit.
    pose proof (emits_dispatch (λ ev, is_add_call ev = false)
                  (IndividualMultiAgent_add_to_buffer (obs loc) actions
                     res.1.2 res.1.1 (py_float res.2)
                     (done_no_max_of (episode_step loc) env_horizon
                        (py_float res.2)))
                  (SharedMultiAgent_add_to_buffer (obs loc) actions
                     res.1.2 res.1.1 (py_float res.2)
                     (done_no_max_of (episode_step loc) env_horizon
                        (py_float res.2)))
                  (emits_weaken _ _ _ not_add_low
                     (emits_IndividualMultiAgent_add_to_buffer _ _ _ _ _ _))
                  (emits_weaken _ _ _ not_add_low
                     (emits_SharedMultiAgent_add_to_buffer _ _ _ _ _ _))
                  (ws_multi_agent s2)) as Hd.
    destruct (dispatch _ _ (ws_multi_agent s2)) as [[r ma] tt3].
    simpl in Hd. intros [= _ _ <-]. simpl.
    by rewrite (filter_none _ _ Hd). }
  assert (List.filter is_add_call t4' = []) as E4.
  { apply filter_none. destruct (py_truth _).
    - eapply emits_eq; [|exact H].
      apply emits_end_episode; [apply not_add_low|done..].
    - injection H as <- <- <-. constructor. }
  rewrite !List.filter_app, !length_app, E1, E2, E3, E4. reflexivity.
Qed.

Lemma train_iteration_adds fuel loc
    (s : @Workspace Obs Action Reward Core Env) loc' s' t :
  train_iteration fuel loc s = (Ret loc', s', t) →
  length (List.filter is_add_call t) = 1%nat.
Proof.
  unfold train_iteration. intros H.
  apply bind_inv_Ret in H as (actions & s1 & t1 & t1' & H1 & H & ->).
  apply bind_inv_Ret in H as ([] & s2 & t2 & t2' & H2 & H & ->).
  rewrite !List.filter_app, !length_app.
  rewrite (filter_none is_add_call t1); last first.
  { eapply emits_eq; [|exact H1].
    apply emits_select_actions; [apply not_add_low|done]. }
  rewrite (filter_none is_add_call t2); last first.
  { eapply emits_eq; [|exact H2].
    apply emits_run_training_update; [apply not_add_low|done]. }
  by rewrite (record_step_adds _ _ _ _ _ _ _ H).
Qed.

Lemma train_loop_counts fuel_eval fuel : ∀ loc
    (s : @Workspace Obs Action Reward Core Env) loc' s' t,
  train_loop fuel_eval fuel loc s = (Ret loc', s', t) →
  length (List.filter is_add_call t)
  = Z.to_nat (cfg_num_train_steps (ws_cfg s) - ws_step s)
  ∧ length (List.filter is_update_call t)
    = Z.to_nat (cfg_num_train_steps (ws_cfg s)
                - Z.max (ws_step s) (cfg_num_seed_steps (ws_cfg s)))
  ∧ List.filter is_save_call t = [].
Proof.
  induction fuel as [|fuel IH]; intros loc s loc' s' t H.
  - simpl in H. apply bind_inv_Ret in H as (s0 & s1 & ? & ? & H0 & H & ->).
    injection H0 as <- <- <-.
    destruct (Z.ltb_spec (ws_step s) (cfg_num_train_steps (ws_cfg s)));
      [done|].
    injection H as <- <- <-. simpl. split; [lia|]. split; [lia|done].
  - destruct (decide (ws_step s < cfg_num_train_steps (ws_cfg s))) as [Hlt|Hge].
    + rewrite train_loop_step in H by done.
      apply bind_inv_Ret in H as (loc1 & s1 & t1 & t2 & H1 & H & ->).
      pose proof (train_iteration_adds _ _ _ _ _ _ H1) as Hadd.
      assert (List.filter is_save_call t1 = []) as Hsave.
      { apply filter_none. eapply emits_eq; [|exact H1].
        eapply emits_weaken; [|apply emits_train_iteration].
        intros ev [Hl|[[? ->]|[[? ->]|[->|[? ->]]]]]; try done.
        by apply not_save_low. }
      assert (length (List.filter is_update_call t1)
              = if decide (ws_step s < cfg_num_seed_steps (ws_cfg s))
                then 0%nat else 1%nat) as Hupd.
      { case_decide as Hseed.
        - destruct (train_iteration_updates_warmup fuel_eval loc s Hseed)
            as [Hall _].
          rewrite H1 in Hall. simpl in Hall.
          rewrite (filter_none is_update_call t1); [done|].
          eapply Forall_impl; [exact Hall|]. by intros ev [? _].
        - assert (cfg_num_seed_steps (ws_cfg s) ≤ ws_step s) as Hle by lia.
          by rewrite (train_iteration_updates_learning _ _ _ _ _ _ Hle H1). }
      apply train_iteration_Ret in H1 as (Hs & Hc & _).
      apply IH in H as (Ha' & Hu' & Hs').
      rewrite !List.filter_app, !length_app, Hadd, Hupd, Ha', Hu', Hsave, Hs'.
      rewrite Hs, Hc. split; [lia|]. split; [|done].
      case_decide; lia.
    + rewrite train_loop_done in H by lia.
      injection H as <- <- <-. simpl. split; [lia|]. split; [lia|done].
Qed.

Lemma preserves_on_workspace {X A}
    (f : @Workspace Obs Action Reward Core Env → X)
    (m : Prog (@Workspace Obs Action Reward Core Env) A) :
  preserves f m →
  preserves (λ st : @Workspace Obs Action Reward Core Env
                    * gmap string (@file Obs Action Reward Params Optim),
               f st.1)
    (on_workspace m).
Proof.
  intros Hm [w fs]. unfold on_workspace, zoom. simpl.
  specialize (Hm w). by destruct (m w) as [[r w'] t].
Qed.

(** X16. The calls of a completed training run. When [train] returns,
    the step counter has reached [num_train_steps] (or is where it
    started, if it was already beyond); the run has called
    [add_to_buffer] exactly once for every step it made and [update]
    exactly once for every step made at or after [num_seed_steps],
    whatever the evaluation passes in between did; and it has called
    [save_checkpoint] once, with the final step counter and the
    directory [checkpoints] under the working directory, exactly when
    [save_checkpoint] is configured. *)
Theorem Workspace_train_call_counts (fuel_eval fuel : nat)
    (s s' : @Workspace Obs Action Reward Core Env)
    (fs fs' : gmap string (@file Obs Action Reward Params Optim))
    (t : list Ev) :
  Workspace_train fuel_eval fuel (s, fs) = (Ret tt, (s', fs'), t) →
  ws_step s' = Z.max (ws_step s) (cfg_num_train_steps (ws_cfg s))
  ∧ length (List.filter is_add_call t)
    = Z.to_nat (cfg_num_train_steps (ws_cfg s) - ws_step s)
  ∧ length (List.filter is_update_call t)
    = Z.to_nat (cfg_num_train_steps (ws_cfg s)
                - Z.max (ws_step s) (cfg_num_seed_steps (ws_cfg s)))
  ∧ List.filter is_save_call t
    = if cfg_save_checkpoint (ws_cfg s)
      then [Call_save_checkpoint (path_join (ws_work_dir s') "checkpoints")
              (ws_step s')]
      else [].
Proof.
  unfold Workspace_train. intros H.
  apply bind_inv_Ret in H as (self & st0 & t0 & t0' & H0 & H & ->).
  injection H0 as <- <- <-.
  apply bind_inv_Ret in H as (ep & st1 & t1 & t1' & H1 & H & ->).
  assert (st1 = (s, fs) ∧ t1 = []) as [-> ->].
  { destruct (env_horizon =? 0); [done|]. by injection H1 as <- <- <-. }
  clear H1.
  apply bind_inv_Ret in H as (er & st2 & t2 & t2' & H2 & H & ->).
  destruct (zero_rewards_run (ws_agent_ids s) ∅ (s, fs)) as (d & Hz & _).
  rewrite Hz in H2. injection H2 as <- <- <-.
  apply bind_inv_Ret in H as (ob & st3 & t3 & t3' & H3 & H & ->).
  apply bind_inv_Ret in H as ([] & st4 & t4 & t4' & H4 & H & ->).
  apply bind_inv_Ret in H as (locf & st5 & t5 & t5' & H5 & H & ->).
  apply bind_inv_Ret in H as (self5 & st6 & t6 & t6' & H6 & H & ->).
  injection H6 as <- <- <-.
  (* before the loop *)
  assert (preserves static
            (on_env Env_reset_call
             : Prog (@Workspace Obs Action Reward Core Env) _)) as P3
    by (unfold on_env; preserves_solve).
  assert (preserves static
            (on_multi_agent MultiAgent_reset
             : Prog (@Workspace Obs Action Reward Core Env) _)) as P4
    by preserves_solve.
  pose proof (preserves_eq _ _ _ _ _ _ (preserves_on_workspace _ _ P3) H3)
    as E3.
  pose proof (preserves_eq _ _ _ _ _ _ (preserves_on_workspace _ _ P4) H4)
    as E4.
  cbn [fst] in E3, E4.
  assert (Forall uncounted t3) as U3.
  { eapply emits_eq; [|exact H3].
    unfold on_workspace, on_env. emits_solve. }
  assert (Forall uncounted t4) as U4.
  { eapply emits_eq; [|exact H4].
    unfold on_workspace, on_multi_agent. do 2 emits_step.
    apply emits_MultiAgent_reset; [apply uncounted_low|done]. }
  (* the loop *)
  unfold on_workspace, zoom in H5.
  destruct (train_loop fuel_eval fuel _ st4.1) as [[r5 w5] tr5] eqn:Hloop.
  injection H5 as -> <- <-.
  destruct (train_loop_counts _ _ _ _ _ _ _ Hloop) as (Ca & Cu & Cs).
  destruct (train_loop_final _ _ _ _ _ _ _ Hloop) as (Fs & Fc).
  unfold ws_static in E3, E4.
  injection E3 as E3s E3c _ _. injection E4 as E4s E4c _ _.
  rewrite E4s, E4c, E3s, E3c in Ca, Cu, Fs. rewrite E4c, E3c in Fc.
  destruct (uncounted_filters _ U3) as (A3 & B3 & S3).
  destruct (uncounted_filters _ U4) as (A4 & B4 & S4).
  cbn [fst snd] in H.
  (* the save *)
  rewrite Fc in H.
  destruct (cfg_save_checkpoint (ws_cfg s)).
  - revert H.
    unfold on_multi_agent_fs, zoom, MultiAgent_save_checkpoint, bind, emit.
    cbn [fst snd].
    pose proof (emits_dispatch_fs uncounted
                  (IndividualMultiAgent_save_checkpoint
                     (path_join (ws_work_dir w5) "checkpoints") (ws_step w5))
                  (SharedMultiAgent_save_checkpoint
                     (path_join (ws_work_dir w5) "checkpoints") (ws_step w5))
                  (emits_weaken _ _ _ uncounted_low
                     (emits_IndividualMultiAgent_save_checkpoint _ _))
                  (emits_weaken _ _ _ uncounted_low
                     (emits_SharedMultiAgent_save_checkpoint _ _))
                  (ws_multi_agent w5, st4.2)) as Hd.
    destruct (dispatch_fs _ _ (ws_multi_agent w5, st4.2)) as [[r ma] tsv].
    simpl in Hd. intros [= _ <- _ <-].
    destruct (uncounted_filters _ Hd) as (A6 & B6 & S6).
    rewrite ?List.filter_app, ?length_app. simpl.
    rewrite ?List.filter_app, ?length_app.
    rewrite A3, A4, B3, B4, S3, S4, Cs, Ca, Cu, A6, B6, S6. simpl.
    split; [exact Fs|]. split; [lia|]. split; [lia|done].
  - injection H as <- <- <-.
    rewrite ?List.filter_app, ?length_app. simpl.
    rewrite ?List.filter_app, ?length_app.
    rewrite A3, A4, B3, B4, S3, S4, Cs, Ca, Cu. simpl.
    split; [exact Fs|]. split; [lia|]. split; [lia|done].
Qed.


(** ** Saving and loading back, one store per agent *)














(** ** Loading more steps than an archive holds, one store per agent *)



(** ** The end of a training episode *)

Lemma Forall_bind_trace {S A B} (P : Ev → Prop) (m : Prog S A)
    (f : A → Prog S B) s :
  Forall P (m s).2 →
  (∀ a s1 t1, m s = (Ret a, s1, t1) → Forall P (f a s1).2) →
  Forall P (bind m f s).2.
Proof.
  unfold bind. destruct (m s) as [[[a|e|] s1] t1]; simpl; intros H1 H2; auto.
  specialize (H2 a s1 t1 eq_refl). destruct (f a s1) as [[r s2] t2].
  simpl in *. by apply Forall_app.
Qed.

Lemma train_logs_run (loc : @train_locals Obs Reward)
    (er : gmap string Reward) (loggers : gmap string Logger)
    (cfg : Config) (step : Z) l :
  ∀ s : @Workspace Obs Action Reward Core Env,
  (∀ a, a ∈ l → is_Some (loggers !! a) ∧ is_Some (er !! a)) →
  ∃ t,
    for_each l (λ agent,
      lg <- dict_get loggers agent ;;
      emit (Log lg "train/duration" LV_duration step) ;;
      lg <- dict_get loggers agent ;;
      emit (Log lg "train/episode" (LV_episode (episode loc)) step) ;;
      lg <- dict_get loggers agent ;;
      er <- dict_get er agent ;;
      emit (Log lg "train/episode_reward" (LV_reward er) step) ;;
      lg <- dict_get loggers agent ;;
      emit (Dump lg step (Some (cfg_num_seed_steps cfg <? step)))) s
    = (Ret tt, s, t)
    ∧ Forall (λ ev : Ev, is_logger_event ev = true) t.
Proof.
  induction l as [|a l IH]; intros s Hok.
  - exists []. split; [done|constructor].
  - destruct (Hok a) as [[lg Hlg] [r Hr]]; [by left|].
    destruct (IH s) as (t & Hrun & Ht).
    { intros a' Ha'. apply Hok. by right. }
    eexists. split.
    + rewrite for_each_cons. eapply bind_Ret_run; [|exact Hrun].
      erewrite bind_quiet; [|by apply dict_get_Some]. apply bind_emit.
      erewrite bind_quiet; [|by apply dict_get_Some]. apply bind_emit.
      erewrite bind_quiet; [|by apply dict_get_Some].
      erewrite bind_quiet; [|by apply dict_get_Some]. apply bind_emit.
      erewrite bind_quiet; [|by apply dict_get_Some]. reflexivity.
    + repeat (apply Forall_cons; split; [reflexivity|]). exact Ht.
Qed.

(** X19. When an episode of the training loop ends. Unless the step
    counter is positive and a multiple of [eval_frequency], the block
    under [if done:] runs no evaluation: it makes no call of [act] on
    the controller, does not step the environment and does not use the
    video recorder. With [eval_frequency = 0] and a positive step
    counter the block logs the episode and then raises
    [ZeroDivisionError] on [self.step % self.cfg.eval_frequency]: the
    next episode is not started, the workspace is as it was, and only
    the loggers have been called. *)
Theorem end_episode_evaluation_period (fuel : nat)
    (loc : @train_locals Obs Reward) (er : gmap string Reward)
    (s : @Workspace Obs Action Reward Core Env) :
  (ws_step s ≤ 0
   ∨ (cfg_eval_frequency (ws_cfg s) ≠ 0
      ∧ ws_step s `mod` cfg_eval_frequency (ws_cfg s) ≠ 0) →
   Forall (λ ev, is_evaluation_event ev = false) (end_episode fuel loc er s).2)
  ∧ (0 < ws_step s →
     cfg_eval_frequency (ws_cfg s) = 0 →
     (∀ a, a ∈ ws_agent_ids s →
        is_Some (ws_loggers s !! a) ∧ is_Some (er !! a)) →
     ∃ msg t,
       end_episode fuel loc er s = (Raise (ZeroDivisionError msg), s, t)
       ∧ Forall (λ ev, is_logger_event ev = true) t).
Proof.
  split.
  - intros Hper. unfold end_episode.
    do 4 (erewrite bind_quiet; [|reflexivity]).
    apply Forall_bind_trace.
    { match goal with |- Forall ?P (?m s).2 =>
        assert (emits P m) as Hm; [emits_solve|apply Hm] end. }
    intros [] s1 t1 H1.
    assert (s1 = s) as ->.
    { eapply (preserves_eq (λ x, x)); [|exact H1]. preserves_solve. }
    assert ((if 0 <? ws_step s then
               if cfg_eval_frequency (ws_cfg s) =? 0
               then raise (ZeroDivisionError "integer modulo by zero")
               else ret (ws_step s `mod` cfg_eval_frequency (ws_cfg s) =? 0)
             else ret false) s
            = (Ret false, s, silent)) as Hp.
    { destruct Hper as [Hle|[Hf Hm]].
      - by rewrite (proj2 (Z.ltb_ge _ _) Hle).
      - destruct (0 <? ws_step s); [|done].
        by rewrite (proj2 (Z.eqb_neq _ _) Hf), (proj2 (Z.eqb_neq _ _) Hm). }
    erewrite bind_quiet; [|exact Hp].
    erewrite bind_quiet; [|reflexivity].
    match goal with |- Forall ?P (?m s).2 =>
      assert (emits P m) as Hm; [|apply Hm] end.
    emits_step; [emits_solve|].
    emits_step.
    { unfold on_multi_agent, MultiAgent_reset, IndividualMultiAgent_reset,
        SharedMultiAgent_reset. emits_solve. }
    emits_solve.
  - intros Hpos Hzero Hok. unfold end_episode.
    do 4 (erewrite bind_quiet; [|reflexivity]).
    destruct (train_logs_run loc er (ws_loggers s) (ws_cfg s) (ws_step s)
                (ws_agent_ids s) s Hok) as (t & Hrun & Ht).
    exists "integer modulo by zero", t. split; [|exact Ht].
    erewrite bind_Ret_run; [|exact Hrun|].
    { by rewrite app_nil_r. }
    rewrite (proj2 (Z.ltb_lt _ _) Hpos), Hzero. reflexivity.
Qed.


(** ** Resuming through the constructor of the workspace *)

Lemma silent_trace {S A} (m : Prog S A) s :
  emits (λ _, False) m → (m s).2 = silent.
Proof.
  intros Hm. specialize (Hm s). destruct ((m s).2) as [|ev t]; [done|].
  by apply Forall_cons in Hm as [[] _].
Qed.

(** A construction that only computes, followed by a call that always
    raises [e0] with the records [t0]: the whole raises, either in the
    construction, with no record, or in the call. *)
Lemma build_then_raise {S A B} (m : Prog S A) (k : A → Prog S B) e0 t0 :
  pure_method m → emits (λ _, False) m →
  (∀ a s, k a s = (Raise e0, s, t0)) →
  ∀ s, ∃ e calls,
    bind m k s = (Raise e, s, calls)
    ∧ (calls = [] ∨ (calls = t0 ∧ e = e0)).
Proof.
  intros Hpure Hsil Hk s. unfold bind.
  destruct (Hpure s) as [Hs Hr]. pose proof (silent_trace m s Hsil) as Ht.
  destruct (m s) as [[[a|e|] s1] t1]; simpl in *; subst; try done.
  - rewrite Hk. exists e0, t0. split; [done|]. by right.
  - exists e, []. split; [done|]. by left.
Qed.

(** C3. With [load_checkpoint] set in the configuration the constructor
    of the workspace never returns a workspace. Once it has built the
    controller it calls [load_checkpoint] with two arguments, the
    directory [checkpoints] under the working directory and the
    checkpoint name; on either variant that call raises [TypeError] for
    the missing [device] before the body of the method runs, so no file
    is read and no learner or store is restored. The only other way the
    constructor ends is an exception while it builds the controller,
    before any call of [load_checkpoint]. *)
Theorem resume_from_checkpoint_never_completes :
  (∀ dir name (ma : @MultiAgent Obs Action Reward Core)
     (fs : gmap string (@file Obs Action Reward Params Optim)),
     MultiAgent_load_checkpoint [dir; name] (ma, fs)
     = (Raise (TypeError
          "load_checkpoint() missing 1 required positional argument: 'device'"),
        (ma, fs), [Call_load_checkpoint [dir; name]]))
  ∧ (∀ cfg cwd today clock (env : Env)
       (blank_i : string → nat → @Row Obs Action Reward)
       (blank_s : nat → @Row Obs Action Reward)
       (fs : gmap string (@file Obs Action Reward Params Optim)),
       cfg_load_checkpoint cfg = true →
       let work_dir := path_join cwd (cfg_checkpoint_dir cfg) in
       ∃ e calls,
         @Workspace_init Obs Action Reward Core Params Optim Range L Env E
           cfg cwd today clock env blank_i blank_s fs
         = (Raise e, fs, Stdout ("workspace: " +:+ work_dir) :: calls)
         ∧ (calls = []
            ∨ (calls = [Call_load_checkpoint
                          [path_join work_dir "checkpoints";
                           cfg_checkpoint_name cfg]]
               ∧ e = TypeError
                       "load_checkpoint() missing 1 required positional argument: 'device'")))
  ∧ (∀ cfg cwd today clock (env : Env)
       (blank_i : string → nat → @Row Obs Action Reward)
       (blank_s : nat → @Row Obs Action Reward)
       (fs : gmap string (@file Obs Action Reward Params Optim)),
       cfg_load_checkpoint cfg = true →
       let env' := env_seed (cfg_seed cfg) env in
       let work_dir := path_join cwd (cfg_checkpoint_dir cfg) in
       (∀ a, a ∈ env_agents env' →
          observation_shape env' a ≠ [] ∧ action_shape env' a ≠ []) →
       cfg_multi_agent_mode cfg = "individual"
       ∨ (cfg_multi_agent_mode cfg = "shared" ∧ env_agents env' ≠ []) →
       @Workspace_init Obs Action Reward Core Params Optim Range L Env E
         cfg cwd today clock env blank_i blank_s fs
       = (Raise (TypeError
            "load_checkpoint() missing 1 required positional argument: 'device'"),
          fs,
          [Stdout ("workspace: " +:+ work_dir);
           Call_load_checkpoint
             [path_join work_dir "checkpoints"; cfg_checkpoint_name cfg]])).
Proof.
  split; [|split].
  - intros. apply MultiAgent_load_checkpoint_two_arguments.
  - intros cfg cwd today clock env blank_i blank_s fs Hload work_dir.
    destruct (for_in_insert_run (λ a, {| logger_agent_id := a |})
                (env_agents (env_seed (cfg_seed cfg) env)) ∅ fs)
      as (lgs & Hlg & _).
    unfold Workspace_init. rewrite Hload.
    erewrite bind_quiet; [|reflexivity].
    assert (∀ (k : unit → Prog (gmap string (@file Obs Action Reward Params Optim))
                            (@Workspace Obs Action Reward Core Env)) ev,
              (∃ e calls, k tt fs = (Raise e, fs, calls)
                 ∧ (calls = []
                    ∨ (calls = [Call_load_checkpoint
                                  [path_join work_dir "checkpoints";
                                   cfg_checkpoint_name cfg]]
                       ∧ e = TypeError
                               "load_checkpoint() missing 1 required positional argument: 'device'"))) →
              ∃ e calls, bind (emit ev) k fs = (Raise e, fs, ev :: calls)
                 ∧ (calls = []
                    ∨ (calls = [Call_load_checkpoint
                                  [path_join work_dir "checkpoints";
                                   cfg_checkpoint_name cfg]]
                       ∧ e = TypeError
                               "load_checkpoint() missing 1 required positional argument: 'device'")))
      as Hemit.
    { intros k ev (e & calls & Hk & Hc). exists e, calls.
      split; [by apply bind_emit|exact Hc]. }
    apply Hemit.
    erewrite bind_quiet; [|exact Hlg].
    apply build_then_raise.
    + repeat case_decide;
        unfold IndividualMultiAgent_init, SharedMultiAgent_init;
        repeat pure_step.
    + repeat case_decide;
        unfold IndividualMultiAgent_init, SharedMultiAgent_init;
        emits_solve.
    + intros ma fs0. by rewrite MultiAgent_load_checkpoint_two_arguments.
  - intros cfg cwd today clock env blank_i blank_s fs Hload env' work_dir
      Hshapes Hmode.
    destruct (for_in_insert_run (λ a, {| logger_agent_id := a |})
                (env_agents env') ∅ fs) as (lgs & Hlg & _).
    destruct Hmode as [Hmode|[Hmode Hne]].
    + destruct (spaces_run env' (env_agents env') (∅, ∅, ∅) fs)
        as (sp & Hsp & Hspin).
      destruct (individual_init_loop sp.1.1 sp.1.2 sp.2
                  (Z.to_nat (cfg_replay_buffer_capacity cfg)) blank_i
                  (env_agents env') ∅ ∅ fs) as (bufs & ags & Hrun & _).
      { intros a Ha. destruct (Hspin a Ha) as (Ho & Hac & Hr).
        destruct (Hshapes a Ha) as [Hno Hna].
        rewrite Ho, Hac, Hr.
        destruct (observation_shape env' a) as [|d sh]; [done|].
        destruct (action_shape env' a) as [|d' sh']; [done|].
        split; [eauto|]. split; eauto. }
      unfold Workspace_init. rewrite Hload.
      erewrite bind_quiet; [|reflexivity].
      apply bind_emit.
      erewrite bind_quiet; [|exact Hlg].
      rewrite decide_True by done.
      erewrite bind_quiet; last first.
      { erewrite bind_quiet; [|exact Hsp].
        erewrite bind_quiet; [reflexivity|].
        unfold IndividualMultiAgent_init.
        erewrite bind_quiet; [|exact Hrun]. reflexivity. }
      by rewrite MultiAgent_load_checkpoint_two_arguments.
    + assert (cfg_multi_agent_mode cfg ≠ "individual") as Hni
        by (rewrite Hmode; discriminate).
      destruct (env_agents env') as [|a0 ids0] eqn:Eids; [done|].
      destruct (Hshapes a0) as [Hno Hna]; [by left|].
      destruct (observation_shape env' a0) as [|d sh] eqn:Eo; [done|].
      destruct (action_shape env' a0) as [|d' sh'] eqn:Ea; [done|].
      unfold Workspace_init. rewrite Hload. fold env'. rewrite Eids.
      erewrite bind_quiet; [|reflexivity].
      apply bind_emit.
      erewrite bind_quiet; [|exact Hlg].
      rewrite decide_False, decide_True by done.
      erewrite bind_quiet; last first.
      { erewrite bind_quiet; [|reflexivity].
        unfold SharedMultiAgent_init. rewrite Eo, Ea. reflexivity. }
      by rewrite MultiAgent_load_checkpoint_two_arguments.
Qed.


(** ** The bootstrap flag along the training loop *)

Abbreviation not_add := (λ ev : Ev, is_add_call ev = false).
Abbreviation flags := (@bootstrap_flags Obs Action Reward Range Env E).

Lemma flags_cons_not_add k (ev : Ev) t :
  is_add_call ev = false → flags k (ev :: t) ↔ flags k t.
Proof. by destruct ev. Qed.

Lemma flags_app_not_add k (t1 t2 : list Ev) :
  Forall not_add t1 → flags k (t1 ++ t2) ↔ flags k t2.
Proof.
  induction 1 as [|ev t1 Hev _ IH]; [done|].
  rewrite <- app_comm_cons, flags_cons_not_add by done. exact IH.
Qed.

Lemma flags_not_add k (t : list Ev) : Forall not_add t → flags k t.
Proof.
  intros H. rewrite <- (app_nil_r t). by apply flags_app_not_add.
Qed.

Lemma flags_app_not_add_r (t1 t2 : list Ev) :
  Forall not_add t2 → ∀ k, flags k t1 → flags k (t1 ++ t2).
Proof.
  intros H2. induction t1 as [|ev t1 IH]; intros k H1.
  - by apply flags_not_add.
  - destruct ev; try (simpl in *; by apply IH).
    simpl in *. destruct H1 as (b & Hd & Hdnm & Hrest).
    exists b. split; [done|]. split; [done|]. by apply IH.
Qed.

Lemma py_truth_py_float (b : bool) : py_truth (py_float b) = b.
Proof. by destruct b. Qed.

(** A part that records no [add_to_buffer] call, then the rest. *)
Lemma bind_not_add {S A B} (m : Prog S A) (f : A → Prog S B) s r s' t :
  emits not_add m →
  bind m f s = (r, s', t) →
  (Forall not_add t ∧ ∀ x, r ≠ Ret x)
  ∨ ∃ a s1 t1 t2,
      m s = (Ret a, s1, t1) ∧ Forall not_add t1
      ∧ f a s1 = (r, s', t2) ∧ t = t1 ++ t2.
Proof.
  intros Hm H. apply bind_inv in H as [(a & s1 & t1 & t2 & H1 & H2 & ->)|[H1 Hr]].
  - right. exists a, s1, t1, t2. split; [done|]. split; [|done].
    eapply emits_eq; [exact Hm|exact H1].
  - left. split; [|done]. eapply emits_eq; [exact Hm|exact H1].
Qed.

Lemma end_episode_Ret fuel loc er
    (s : @Workspace Obs Action Reward Core Env) loc' s' t :
  end_episode fuel loc er s = (Ret loc', s', t) → episode_step loc' = 0.
Proof.
  unfold end_episode. intros H.
  do 10 (apply bind_inv_Ret in H as (? & ? & ? & ? & _ & H & _)).
  by injection H as <- _ _.
Qed.

(** What one call of [record_step] records of [add_to_buffer]: nothing
    if it fails before the call; otherwise the one call, with the flag
    the environment just reported. *)
Lemma record_step_shape fuel loc actions
    (s : @Workspace Obs Action Reward Core Env) r s' t :
  record_step fuel loc actions s = (r, s', t) →
  let done := (env_step actions (ws_env s)).1.2 in
  (Forall not_add t ∧ ∀ x, r ≠ Ret x)
  ∨ ∃ t1 t2,
      t = t1 ++ Call_add_to_buffer (py_float done)
                  (done_no_max_of (episode_step loc) env_horizon
                     (py_float done)) :: t2
      ∧ Forall not_add t1 ∧ Forall not_add t2
      ∧ ∀ loc', r = Ret loc' →
          episode_step loc' = (if done then 0 else episode_step loc + 1).
Proof.
  intros H. cbv zeta. unfold record_step in H.
  erewrite bind_quiet in H; [|reflexivity].
  erewrite bind_Ret in H; [|reflexivity].
  set (s1 := ws_set_env (env_step actions (ws_env s)).2 s) in *.
  set (res := (env_step actions (ws_env s)).1) in *.
  cbn [fst snd] in H.
  match type of H with
  | (?r0, ?s0, _ ++ ?t0) = _ =>
      destruct (bind _ _ s1) as [[r1 s1'] t1] eqn:Hrest
  end.
  simpl in H. injection H as <- <- <-.
  apply bind_not_add in Hrest; [|emits_solve].
  destruct Hrest as [[Hall Hr]|(er & s2 & t2 & t2' & H2 & Hall2 & Hrest & ->)].
  { left. split; [|done]. by apply Forall_cons. }
  apply bind_inv in Hrest
    as [([] & s3 & t3 & t3' & H3 & Hrest & ->)|[H3 Hr]].
  - assert (∃ tl, t3 = Call_add_to_buffer (py_float res.2)
                         (done_no_max_of (episode_step loc) env_horizon
                            (py_float res.2)) :: tl
                  ∧ Forall not_add tl) as (tl & -> & Htl).
    { revert H3.
      unfold on_multi_agent, zoom, MultiAgent_add_to_buffer, bind, emit.
      pose proof (emits_dispatch not_add
                    (IndividualMultiAgent_add_to_buffer (obs loc) actions
                       res.1.2 res.1.1 (py_float res.2)
                       (done_no_max_of (episode_step loc) env_horizon
                          (py_float res.2)))
                    (SharedMultiAgent_add_to_buffer (obs loc) actions
                       res.1.2 res.1.1 (py_float res.2)
                       (done_no_max_of (episode_step loc) env_horizon
                          (py_float res.2)))
                    (emits_weaken _ _ _ not_add_low
                       (emits_IndividualMultiAgent_add_to_buffer _ _ _ _ _ _))
                    (emits_weaken _ _ _ not_add_low
                       (emits_SharedMultiAgent_add_to_buffer _ _ _ _ _ _))
                    (ws_multi_agent s2)) as Hd.
      destruct (dispatch _ _ (ws_multi_agent s2)) as [[r ma] tt3].
      simpl in Hd. intros [= _ _ <-]. by eexists. }
    erewrite bind_quiet in Hrest; [|reflexivity].
    right. exists (Env_step actions :: t2), (tl ++ t3').
    split; [reflexivity|].
    split; [by apply Forall_cons|].
    rewrite py_truth_py_float in Hrest. revert Hrest.
    destruct res.2; intros Hrest.
    + split.
      * apply Forall_app. split; [done|].
        eapply emits_eq; [|exact Hrest].
        apply emits_end_episode; [apply not_add_low|done..].
      * intros loc' ->. by eapply end_episode_Ret.
    + injection Hrest as <- <- <-. split.
      * apply Forall_app. split; [done|constructor].
      * by intros loc' [= <-].
  - assert (∃ tl, t2' = Call_add_to_buffer (py_float res.2)
                          (done_no_max_of (episode_step loc) env_horizon
                             (py_float res.2)) :: tl
                  ∧ Forall not_add tl) as (tl & -> & Htl).
    { revert H3.
      unfold on_multi_agent, zoom, MultiAgent_add_to_buffer, bind, emit.
      pose proof (emits_dispatch not_add
                    (IndividualMultiAgent_add_to_buffer (obs loc) actions
                       res.1.2 res.1.1 (py_float res.2)
                       (done_no_max_of (episode_step loc) env_horizon
                          (py_float res.2)))
                    (SharedMultiAgent_add_to_buffer (obs loc) actions
                       res.1.2 res.1.1 (py_float res.2)
                       (done_no_max_of (episode_step loc) env_horizon
                          (py_float res.2)))
                    (emits_weaken _ _ _ not_add_low
                       (emits_IndividualMultiAgent_add_to_buffer _ _ _ _ _ _))
                    (emits_weaken _ _ _ not_add_low
                       (emits_SharedMultiAgent_add_to_buffer _ _ _ _ _ _))
                    (ws_multi_agent s2)) as Hd.
      destruct (dispatch _ _ (ws_multi_agent s2)) as [[r ma] tt3].
      simpl in Hd. intros [= _ _ <-]. by eexists. }
    right. exists (Env_step actions :: t2), tl.
    split; [done|]. split; [by apply Forall_cons|]. split; [done|].
    intros loc' ->. by destruct (Hr loc').
Qed.


Lemma preserves_env_run_training_update :
  preserves (@ws_env Obs Action Reward Core Env) run_training_update.
Proof. unfold run_training_update. preserves_solve. Qed.

(** What one iteration records of [add_to_buffer]. *)
Lemma train_iteration_shape fuel loc
    (s : @Workspace Obs Action Reward Core Env) r s' t :
  train_iteration fuel loc s = (r, s', t) →
  (Forall not_add t ∧ ∀ x, r ≠ Ret x)
  ∨ ∃ actions s1 t0 t1 t2,
      select_actions (obs loc) s = (Ret actions, s1, t0)
      ∧ t = t1 ++ Call_add_to_buffer
                    (py_float (env_step actions (ws_env s1)).1.2)
                    (done_no_max_of (episode_step loc) env_horizon
                       (py_float (env_step actions (ws_env s1)).1.2)) :: t2
      ∧ Forall not_add t1 ∧ Forall not_add t2
      ∧ ∀ loc', r = Ret loc' →
          episode_step loc'
          = (if (env_step actions (ws_env s1)).1.2
             then 0 else episode_step loc + 1).
Proof.
  unfold train_iteration. intros H.
  apply bind_not_add in H;
    [|apply emits_select_actions; [apply not_add_low|done]].
  destruct H as [H|(actions & s1 & t0 & t0' & Hsel & Hall0 & H & ->)];
    [by left|].
  apply bind_not_add in H;
    [|apply emits_run_training_update; [apply not_add_low|done]].
  destruct H as [[Hall Hr]|([] & s2 & tu & tu' & Hupd & Hallu & H & ->)].
  { left. split; [by apply Forall_app|done]. }
  pose proof (preserves_eq _ _ _ _ _ _ preserves_env_run_training_update Hupd)
    as Henv.
  apply record_step_shape in H. cbv zeta in H. rewrite Henv in H.
  destruct H as [[Hall Hr]|(t1 & t2 & -> & Hall1 & Hall2 & Hstep)].
  { left. split; [|done]. apply Forall_app. split; [done|].
    by apply Forall_app. }
  right. exists actions, s1, t0, (t0 ++ tu ++ t1), t2.
  split; [exact Hsel|]. split; [by rewrite <- !app_assoc|].
  split; [|by split]. apply Forall_app. split; [done|]. by apply Forall_app.
Qed.

Lemma train_loop_flags fuel_eval fuel : ∀ loc
    (s : @Workspace Obs Action Reward Core Env),
  flags (episode_step loc) (train_loop fuel_eval fuel loc s).2.
Proof.
  induction fuel as [|fuel IH]; intros loc s; simpl.
  - unfold bind, get. simpl. by destruct (_ <? _).
  - unfold bind at 1, get. simpl.
    destruct (ws_step s <? cfg_num_train_steps (ws_cfg s)); [|done].
    unfold bind.
    destruct (train_iteration fuel_eval loc s) as [[r s1] t1] eqn:Hit.
    destruct (train_iteration_shape _ _ _ _ _ _ Hit)
      as [[Hall Hr]|(actions & s0 & t0 & ta & tb & _ & -> & Ha & Hb & Hstep)].
    + destruct r as [loc1| |]; [by destruct (Hr loc1)|..];
        simpl; by apply flags_not_add.
    + destruct r as [loc1|e|].
      * specialize (IH loc1 s1).
        destruct (train_loop fuel_eval fuel loc1 s1) as [[r2 s2] t2].
        simpl in *. rewrite <- app_assoc.
        apply flags_app_not_add; [done|]. simpl.
        eexists. split; [reflexivity|]. split; [reflexivity|].
        apply flags_app_not_add; [done|].
        by rewrite <- (Hstep loc1 eq_refl).
      * simpl. apply flags_app_not_add; [done|]. simpl.
        eexists. split; [reflexivity|]. split; [reflexivity|].
        by apply flags_not_add.
      * simpl. apply flags_app_not_add; [done|]. simpl.
        eexists. split; [reflexivity|]. split; [reflexivity|].
        by apply flags_not_add.
Qed.

Lemma flags_bind_not_add {S A B} k (m : Prog S A) (f : A → Prog S B) s :
  emits not_add m → (∀ a s1, flags k (f a s1).2) → flags k (bind m f s).2.
Proof.
  intros Hm Hf. unfold bind. specialize (Hm s).
  destruct (m s) as [[[a|e|] s1] t1]; simpl in *; try by apply flags_not_add.
  specialize (Hf a s1). destruct (f a s1) as [[r s2] t2]. simpl in *.
  by apply flags_app_not_add.
Qed.

Lemma flags_bind_then_not_add {S A B} k (m : Prog S A) (f : A → Prog S B) s :
  flags k (m s).2 → (∀ a, emits not_add (f a)) → flags k (bind m f s).2.
Proof.
  intros Hm Hf. unfold bind.
  destruct (m s) as [[[a|e|] s1] t1]; simpl in *; try done.
  specialize (Hf a s1). destruct (f a s1) as [[r s2] t2]. simpl in *.
  by apply flags_app_not_add_r.
Qed.

(** C6. The bootstrap flag of the training loop. In an iteration that
    completes, with [d] the flag the environment reports for the
    actions of the iteration, exactly one call of [add_to_buffer] is
    made; it passes [done = float(d)] and a [done_no_max] that is the
    integer [0] when [episode_step + 1] equals the horizon and [done]
    itself otherwise, and afterwards [episode_step] is [0] if [d] is
    true and one more than before if not. So along the whole loop, and
    along [train], which starts with [episode_step = 0], the counter is
    the number of steps the episode has made: the call that brings an
    episode to the horizon passes [done_no_max = 0], every other call
    passes [done_no_max = done], in particular a call with [done] true
    strictly before the horizon. *)
Theorem train_done_no_max (fuel_eval : nat) :
  (∀ (loc : @train_locals Obs Reward)
     (s : @Workspace Obs Action Reward Core Env) loc' s' t,
     train_iteration fuel_eval loc s = (Ret loc', s', t) →
     ∃ actions s1 t1,
       select_actions (obs loc) s = (Ret actions, s1, t1)
       ∧ let d := (env_step actions (ws_env s1)).1.2 in
         List.filter is_add_call t
         = [Call_add_to_buffer (py_float d)
              (if episode_step loc + 1 =? env_horizon
               then PyInt 0 else py_float d)]
         ∧ episode_step loc' = (if d then 0 else episode_step loc + 1))
  ∧ (∀ fuel (loc : @train_locals Obs Reward)
       (s : @Workspace Obs Action Reward Core Env),
       bootstrap_flags (episode_step loc) (train_loop fuel_eval fuel loc s).2)
  ∧ (∀ fuel (st : @Workspace Obs Action Reward Core Env
                  * gmap string (@file Obs Action Reward Params Optim)),
       bootstrap_flags 0 (Workspace_train fuel_eval fuel st).2).
Proof.
  split; [|split].
  - intros loc s loc' s' t H.
    destruct (train_iteration_shape _ _ _ _ _ _ H)
      as [[_ Hr]|(actions & s1 & t0 & ta & tb & Hsel & -> & Ha & Hb & Hstep)];
      [by destruct (Hr loc')|].
    exists actions, s1, t0. split; [exact Hsel|]. cbv zeta. split.
    + rewrite List.filter_app. simpl.
      by rewrite (filter_none _ _ Ha), (filter_none _ _ Hb).
    + by apply Hstep.
  - intros fuel loc s. apply train_loop_flags.
  - intros fuel st. unfold Workspace_train.
    apply flags_bind_not_add; [emits_solve|]. intros self st0.
    apply flags_bind_not_add; [emits_solve|]. intros ep st1.
    apply flags_bind_not_add; [emits_solve|]. intros er st2.
    apply flags_bind_not_add; [emits_solve|]. intros ob st3.
    apply flags_bind_not_add.
    { unfold on_workspace, on_multi_agent. do 2 emits_step.
      apply emits_MultiAgent_reset; [apply not_add_low|done]. }
    intros [] st4.
    apply flags_bind_then_not_add.
    + unfold on_workspace, zoom.
      pose proof (train_loop_flags fuel_eval fuel
                    {| episode_rewards := er; episode_step := 0;
                       episode := ep; obs := ob |} st4.1) as Hl.
      by destruct (train_loop _ _ _ st4.1) as [[r w] tr].
    + intros loc1. emits_step; [emits_solve|].
      emits_step; [|emits_solve].
      unfold on_multi_agent_fs. emits_step.
      apply emits_MultiAgent_save_checkpoint; [apply not_add_low|done].
Qed.

End Properties.

(** * Concrete runs

    The statements above at the small system of [Toy]. *)

#[local] Existing Instance Toy.learning.
#[local] Existing Instance Toy.env.

(** C1, where the code departs from it. Capacity 2 and seven insertions
    per store (capacity plus five), saved by [save_checkpoint] at step 7
    and loaded into a new individual controller in train mode: the load
    raises [IndexError] on the third row it asks of an archive of two.
    The same on the shared controller with capacity 3 and eight
    insertions (four steps of two agents). No store is returned to
    compare with the saved one. *)
Theorem checkpoint_roundtrip_beyond_capacity_fails :
  (IndividualMultiAgent_load_checkpoint "ckpt" "cp_7" "cpu"
     (Toy.individual 2, Toy.individual_saved 2 7)).1.1
  = Raise (IndexError "index out of bounds for axis 0")
  ∧ (SharedMultiAgent_load_checkpoint "ckpt" "cp_4" "cpu"
       (Toy.shared 3, Toy.shared_saved 3 4)).1.1
    = Raise (IndexError "index out of bounds for axis 0").
Proof. split; vm_compute; reflexivity. Qed.

(** Within capacity the round trip is exact on the same system: after
    0, 1, 2 and 3 insertions into stores of capacity 3 the loaded stores
    equal the saved ones, cursor and [full] flag included. *)
Lemma checkpoint_roundtrip_within_capacity :
  Forall (λ k,
    i_replay_buffers
      (IndividualMultiAgent_load_checkpoint "ckpt" ("cp_" +:+ pretty (Z.of_nat k))
         "cpu" (Toy.individual 3, Toy.individual_saved 3 k)).1.2.1
    = i_replay_buffers (Toy.individual_steps k (Toy.individual 3)))
    [0; 1; 2; 3]%nat
  ∧ Forall (λ k,
      s_replay_buffer
        (SharedMultiAgent_load_checkpoint "ckpt" ("cp_" +:+ pretty (Z.of_nat k))
           "cpu" (Toy.shared 6, Toy.shared_saved 6 k)).1.2.1
      = s_replay_buffer (Toy.shared_steps k (Toy.shared 6)))
      [0; 1; 2; 3]%nat.
Proof.
  split; repeat (apply Forall_cons; split; [vm_compute; reflexivity|]);
    apply Forall_nil_2.
Qed.

(** C2, where the code departs from it. Stores of capacity 2 receive
    three insertions and are saved by [save_checkpoint] at step 3; the
    archives hold the two rows of the arrays. [load_checkpoint] into a
    new individual controller in train mode asks for three rows: it
    replays the two there are and raises [IndexError] on the third,
    without returning the step counter or printing its closing line.
    The same on the shared controller with capacity 3 and two steps of
    two agents: three rows are replayed of the four asked for. This is
    the loop bound reported under C1. *)
Theorem load_checkpoint_replay_beyond_archive_fails :
  (let run :=
     IndividualMultiAgent_load_checkpoint "ckpt" "cp_3" "cpu"
       (Toy.individual 2, Toy.individual_saved 2 3) in
   run.1.1 = Raise (IndexError "index out of bounds for axis 0")
   ∧ run.2 = [Stdout "started loading checkpoint cp_3"]
   ∧ ReplayBuffer_len <$> i_replay_buffers run.1.2.1 !! "a" = Some 2%nat
   ∧ ReplayBuffer_len <$> i_replay_buffers run.1.2.1 !! "b" = Some 0%nat
   ∧ ¬ ∃ c fs t, run = (Ret 3, (c, fs), t))
  ∧ (let run :=
       SharedMultiAgent_load_checkpoint "ckpt" "cp_2" "cpu"
         (Toy.shared 3, Toy.shared_saved 3 2) in
     run.1.1 = Raise (IndexError "index out of bounds for axis 0")
     ∧ run.2 = [Stdout "started loading checkpoint cp_2"]
     ∧ ReplayBuffer_len (s_replay_buffer run.1.2.1) = 3%nat
     ∧ ¬ ∃ c fs t, run = (Ret 2, (c, fs), t)).
Proof.
  split.
  - cbv zeta. split; [vm_compute; reflexivity|].
    split; [vm_compute; reflexivity|].
    split; [vm_compute; reflexivity|].
    split; [vm_compute; reflexivity|].
    intros (c & fs & t & H).
    apply (f_equal (λ r, r.1.1)) in H. vm_compute in H. discriminate H.
  - cbv zeta. split; [vm_compute; reflexivity|].
    split; [vm_compute; reflexivity|].
    split; [vm_compute; reflexivity|].
    intros (c & fs & t & H).
    apply (f_equal (λ r, r.1.1)) in H. vm_compute in H. discriminate H.
Qed.


Lemma resume_from_checkpoint_never_completes_witness :
  Workspace_init (Toy.cfg "shared" true) "/home" "2024-01-01" "10-00" O
    (λ _, Toy.blank) Toy.blank (Toy.files_shared 4)
  = (Raise (TypeError
       "load_checkpoint() missing 1 required positional argument: 'device'"),
     Toy.files_shared 4,
     [Stdout "workspace: /home/run";
      Call_load_checkpoint ["/home/run/checkpoints"; "cp_4"]])
  ∧ Workspace_init (Toy.cfg "individual" true) "/home" "2024-01-01" "10-00" O
      (λ _, Toy.blank) Toy.blank (Toy.files_individual 4)
    = (Raise (TypeError
         "load_checkpoint() missing 1 required positional argument: 'device'"),
       Toy.files_individual 4,
       [Stdout "workspace: /home/run";
        Call_load_checkpoint ["/home/run/checkpoints"; "cp_4"]])
  ∧ ∃ e calls,
      Workspace_init (Toy.cfg "central" true) "/home" "2024-01-01" "10-00" O
        (λ _, Toy.blank) Toy.blank (Toy.files_shared 4)
      = (Raise e, Toy.files_shared 4, Stdout "workspace: /home/run" :: calls).
Proof.
  destruct (@resume_from_checkpoint_never_completes Z Z Z nat nat nat unit nat
              Toy.learning Toy.env) as (_ & Hany & Hcall).
  assert (∀ a : string, a ∈ ["a"; "b"] →
            [3] ≠ ([] : list Z) ∧ [1] ≠ ([] : list Z)) as Hshapes
    by (intros; split; discriminate).
  split; [|split].
  - refine (Hcall (Toy.cfg "shared" true) "/home" "2024-01-01" "10-00" O
              (λ _, Toy.blank) Toy.blank (Toy.files_shared 4) eq_refl
              Hshapes _).
    right. split; [reflexivity|discriminate].
  - refine (Hcall (Toy.cfg "individual" true) "/home" "2024-01-01" "10-00" O
              (λ _, Toy.blank) Toy.blank (Toy.files_individual 4) eq_refl
              Hshapes _).
    left. reflexivity.
  - destruct (Hany (Toy.cfg "central" true) "/home" "2024-01-01" "10-00" O
                (λ _, Toy.blank) Toy.blank (Toy.files_shared 4) eq_refl)
      as (e & calls & Hrun & _).
    exists e, calls. exact Hrun.
Defined.

Lemma SharedMultiAgent_act_train_mode_fails_witness :
  SharedMultiAgent_act (Toy.all 0) true (Some "train") (Toy.shared 3)
  = (Raise (AttributeError "'SharedMultiAgent' object has no attribute 'agents'"),
     Toy.shared 3, []).
Proof.
  apply SharedMultiAgent_act_train_mode_fails. simpl. discriminate.
Defined.

Lemma act_unknown_mode_raises_Exception_witness :
  IndividualMultiAgent_act (Toy.all 0) false (Some "test") (Toy.individual 3)
  = (Raise (PyExn "Exception" "ERROR: NO VALID ACTING MODE!"),
     Toy.individual 3, [])
  ∧ SharedMultiAgent_act (Toy.all 0) false (Some "test") (Toy.shared 3)
    = (Raise (PyExn "Exception" "ERROR: NO VALID ACTING MODE!"),
       Toy.shared 3, []).
Proof.
  destruct (@act_unknown_mode_raises_Exception Z Z Z nat nat nat unit
              Toy.learning (Toy.all 0) false (Some "test")) as [HI HS];
    try discriminate.
  split; [apply HI|apply HS].
Defined.

(** C5, as stated, fails: the exception raised on an unknown mode is of
    the class [Exception], the class of every other failure the code
    raises itself, not of a class [InvalidModeError]. *)
Lemma act_unknown_mode_not_InvalidModeError :
  ¬ ∃ msg self' t,
      IndividualMultiAgent_act (Toy.all 0) false (Some "test")
        (Toy.individual 3)
      = (Raise (PyExn "InvalidModeError" msg), self', t).
Proof.
  intros (msg & self' & t & H).
  apply (f_equal (λ r, r.1.1)) in H. vm_compute in H. discriminate H.
Qed.

Lemma SharedMultiAgent_update_amortized_witness :
  SharedMultiAgent_update Toy.loggers 5 (Toy.shared 3)
  = (Ret tt,
     s_set_agent {| training := true; core := 2%nat |} (Toy.shared 3),
     [Ev_update SharedAgent SharedBuffer {| logger_agent_id := "a" |} 5;
      Ev_update SharedAgent SharedBuffer {| logger_agent_id := "b" |} 5])
  ∧ length [Ev_update (Obs:=Z) (Action:=Z) (Reward:=Z)
              SharedAgent SharedBuffer {| logger_agent_id := "a" |} 5;
            Ev_update SharedAgent SharedBuffer {| logger_agent_id := "b" |} 5]
    = 2%nat.
Proof.
  assert (Hl : Forall2 (λ a lg, Toy.loggers !! a = Some lg)
                 (s_agent_ids (Toy.shared 3))
                 [{| logger_agent_id := "a" |}; {| logger_agent_id := "b" |}])
    by (repeat constructor).
  exact (SharedMultiAgent_update_amortized (Toy.shared 3) Toy.loggers 5 _ Hl).
Defined.


Lemma train_done_no_max_witness :
  (∃ loc' s' t,
     train_iteration 5 Toy.locals_at_horizon (Toy.workspace_at 2 1)
     = (Ret loc', s', t)
     ∧ List.filter is_add_call t
       = [Call_add_to_buffer (PyFloat (1 # 1)) (PyInt 0)]
     ∧ episode_step loc' = 0)
  ∧ (∃ loc' s' t,
       train_iteration 5 Toy.locals (Toy.workspace_at 2 1)
       = (Ret loc', s', t)
       ∧ List.filter is_add_call t
         = [Call_add_to_buffer (PyFloat (1 # 1)) (PyFloat (1 # 1))]
       ∧ episode_step loc' = 0)
  ∧ (∃ loc' s' t,
       train_iteration 5 Toy.locals (Toy.workspace 1) = (Ret loc', s', t)
       ∧ List.filter is_add_call t
         = [Call_add_to_buffer (PyFloat (0 # 1)) (PyFloat (0 # 1))]
       ∧ episode_step loc' = 1)
  ∧ bootstrap_flags 0 (Workspace_train 5 10 (Toy.workspace 0, ∅)).2
  ∧ List.filter is_add_call (Workspace_train 5 10 (Toy.workspace 0, ∅)).2
    = [Call_add_to_buffer (PyFloat (0 # 1)) (PyFloat (0 # 1));
       Call_add_to_buffer (PyFloat (1 # 1)) (PyInt 0);
       Call_add_to_buffer (PyFloat (0 # 1)) (PyFloat (0 # 1));
       Call_add_to_buffer (PyFloat (1 # 1)) (PyInt 0)].
Proof.
  destruct (@train_done_no_max Z Z Z nat nat nat unit nat
              Toy.learning Toy.env 5) as (Hstep & _ & Htrain).
  assert (∀ loc s d dnm k,
            (train_iteration 5 loc s).1.1 ≠ OutOfFuel →
            (∀ e, (train_iteration 5 loc s).1.1 ≠ Raise e) →
            (∀ actions s1 t1,
               select_actions (obs loc) s = (Ret actions, s1, t1) →
               py_float (env_step actions (ws_env s1)).1.2 = d
               ∧ (if episode_step loc + 1 =? env_horizon then PyInt 0
                  else py_float (env_step actions (ws_env s1)).1.2) = dnm
               ∧ (if (env_step actions (ws_env s1)).1.2 then 0
                  else episode_step loc + 1) = k) →
            ∃ loc' s' t,
              train_iteration 5 loc s = (Ret loc', s', t)
              ∧ List.filter is_add_call t = [Call_add_to_buffer d dnm]
              ∧ episode_step loc' = k) as Hone.
  { intros loc s d dnm k Hfuel Hraise Hval.
    destruct (train_iteration 5 loc s) as [[[loc'|e|] s'] t] eqn:Hrun.
    - destruct (Hstep loc s loc' s' t Hrun)
        as (actions & s1 & t1 & Hsel & Hf & Hk).
      destruct (Hval actions s1 t1 Hsel) as (Hd & Hdnm & Hkk).
      exists loc', s', t. split; [reflexivity|].
      split; [by rewrite Hf, <- Hdnm, <- Hd|by rewrite Hk, Hkk].
    - by destruct (Hraise e).
    - by destruct Hfuel. }
  split; [|split; [|split; [|split]]].
  - apply Hone.
    + vm_compute. discriminate.
    + intros e. vm_compute. discriminate.
    + intros actions s1 t1 Hsel. vm_compute in Hsel.
      injection Hsel as <- <- <-. repeat split; vm_compute; reflexivity.
  - apply Hone.
    + vm_compute. discriminate.
    + intros e. vm_compute. discriminate.
    + intros actions s1 t1 Hsel. vm_compute in Hsel.
      injection Hsel as <- <- <-. repeat split; vm_compute; reflexivity.
  - apply Hone.
    + vm_compute. discriminate.
    + intros e. vm_compute. discriminate.
    + intros actions s1 t1 Hsel. vm_compute in Hsel.
      injection Hsel as <- <- <-. repeat split; vm_compute; reflexivity.
  - apply Htrain.
  - vm_compute. reflexivity.
Defined.

Lemma train_loop_phases_witness :
  List.filter is_update_call
    (train_iteration 5 Toy.locals (Toy.workspace 0)).2 = []
  ∧ select_actions (obs Toy.locals) (Toy.workspace 1)
    = on_multi_agent (MultiAgent_act (obs Toy.locals) true (Some "eval"))
        (Toy.workspace 1)
  ∧ (∃ loc' s' tr,
       train_iteration 5 Toy.locals (Toy.workspace 1) = (Ret loc', s', tr)
       ∧ List.filter is_update_call tr = [Call_update 1]
       ∧ ws_step s' = 2)
  ∧ train_loop 5 10 Toy.locals (Toy.workspace 4)
    = (Ret Toy.locals, Toy.workspace 4, [])
  ∧ train_loop 5 10 Toy.locals (Toy.workspace 0)
    = train_loop 5 4 Toy.locals (Toy.workspace 0).
Proof.
  destruct (train_loop_phases 5 10 Toy.locals (Toy.workspace 0))
    as (Hwarm & _ & _ & _ & _ & Hfuel & _).
  destruct (train_loop_phases 5 10 Toy.locals (Toy.workspace 1))
    as (_ & Hlearn & Hstep & _).
  destruct (train_loop_phases 5 10 Toy.locals (Toy.workspace 4))
    as (_ & _ & _ & Hdone & _).
  split; [apply Hwarm; reflexivity|].
  destruct Hlearn as [Hsel Hupd]; [simpl; lia|].
  split; [exact Hsel|].
  split.
  - destruct (train_iteration 5 Toy.locals (Toy.workspace 1))
      as [[[loc'|e|] s'] t] eqn:Hrun.
    + exists loc', s', t. split; [reflexivity|].
      split; [exact (Hupd loc' s' t eq_refl)|exact (Hstep loc' s' t eq_refl)].
    + exfalso. apply (f_equal (λ r, r.1.1)) in Hrun.
      vm_compute in Hrun. discriminate Hrun.
    + exfalso. apply (f_equal (λ r, r.1.1)) in Hrun.
      vm_compute in Hrun. discriminate Hrun.
  - split; [apply Hdone; simpl; lia|].
    apply Hfuel. simpl. lia.
Defined.

Lemma train_acts_in_eval_scope_witness :
  train_iteration 5 Toy.locals (Toy.workspace 1)
  = (actions <- on_multi_agent
                  (MultiAgent_act (obs Toy.locals) true (Some "eval")) ;;
     run_training_update ;;
     record_step 5 Toy.locals actions)%py (Toy.workspace 1).
Proof.
  destruct (@train_acts_in_eval_scope Z Z Z nat nat nat unit nat
              Toy.learning Toy.env 5 10) as [Hsel _].
  apply Hsel. simpl. lia.
Defined.

Lemma IndividualMultiAgent_update_per_agent_witness :
  ∃ ags',
    IndividualMultiAgent_update Toy.loggers 5 (Toy.individual 3)
    = (Ret tt, i_set_agents (λ _, ags') (Toy.individual 3),
       [Ev_update (AgentOf "a") (BufferOf "a") {| logger_agent_id := "a" |} 5;
        Ev_update (AgentOf "b") (BufferOf "b") {| logger_agent_id := "b" |} 5])
    ∧ ags' !! "a" = Some {| training := true; core := 1%nat |}
    ∧ ags' !! "b" = Some {| training := true; core := 1%nat |}.
Proof.
  destruct (IndividualMultiAgent_update_per_agent (Toy.individual 3)
              Toy.loggers 5
              [{| logger_agent_id := "a" |}; {| logger_agent_id := "b" |}])
    as (ags' & Hrun & Hin & _ & _).
  - apply NoDup_cons. split; [|apply NoDup_singleton].
    intros Hin%list_elem_of_singleton. discriminate Hin.
  - repeat constructor.
  - intros a Ha. apply elem_of_cons in Ha as [->|Ha];
      [|apply list_elem_of_singleton in Ha as ->].
    all: split; eexists; reflexivity.
  - exists ags'. split; [exact Hrun|]. split.
    + apply (Hin "a" {| training := true; core := O |}
               (ReplayBuffer_new 3 Toy.blank) {| logger_agent_id := "a" |});
        [by left|reflexivity..].
    + apply (Hin "b" {| training := true; core := O |}
               (ReplayBuffer_new 3 Toy.blank) {| logger_agent_id := "b" |});
        [right; by left|reflexivity..].
Defined.

Lemma reset_once_per_learner_witness :
  SharedMultiAgent_reset (Toy.shared 3)
  = (Ret tt, Toy.shared 3, [Ev_agent_reset SharedAgent])
  ∧ ∃ ags',
      IndividualMultiAgent_reset (Toy.individual 3)
      = (Ret tt, i_set_agents (λ _, ags') (Toy.individual 3),
         [Ev_agent_reset (AgentOf "a"); Ev_agent_reset (AgentOf "b")]).
Proof.
  destruct (@reset_once_per_learner Z Z Z nat nat nat unit Toy.learning)
    as [HS HI].
  split; [apply HS|].
  destruct (HI (Toy.individual 3)) as (ags' & Hrun & _).
  - intros a Ha. apply elem_of_cons in Ha as [->|Ha];
      [|apply list_elem_of_singleton in Ha as ->].
    all: eexists; reflexivity.
  - exists ags'. exact Hrun.
Defined.

Lemma SharedMultiAgent_add_to_buffer_missing_key_witness :
  SharedMultiAgent_add_to_buffer (Toy.all 1) (<["a" := 2]> ∅) (Toy.all 3)
    (Toy.all 4) (PyFloat (1 # 1)) (PyInt 0) (Toy.shared 3)
  = (Raise (KeyError "b"),
     s_set_replay_buffer
       (ReplayBuffer_add (ReplayBuffer_new 3 Toy.blank) 1 2 3 4
          (PyFloat (1 # 1)) (PyInt 0))
       (Toy.shared 3), []).
Proof.
  destruct (SharedMultiAgent_add_to_buffer_missing_key
              (Toy.all 1) (<["a" := 2]> ∅) (Toy.all 3) (Toy.all 4)
              (PyFloat (1 # 1)) (PyInt 0) (Toy.shared 3)
              ["a"] [] "b" [(1, 2, 3, 4)]) as [Hrun _].
  - reflexivity.
  - reflexivity.
  - intros (_ & [ac Hac] & _). discriminate Hac.
  - exact Hrun.
Defined.

Lemma load_checkpoint_missing_file_witness :
  IndividualMultiAgent_load_checkpoint "ckpt" "cp" "cpu"
    (Toy.individual 3, ∅)
  = (Raise (FileNotFoundError "ckpt/cp/checkpoint.pt"),
     (Toy.individual 3, ∅), [Stdout "started loading checkpoint cp"])
  ∧ SharedMultiAgent_load_checkpoint "ckpt" "cp" "cpu" (Toy.shared 3, ∅)
    = (Raise (FileNotFoundError "ckpt/cp/checkpoint.pt"),
       (Toy.shared 3, ∅), [Stdout "started loading checkpoint cp"]).
Proof.
  destruct (load_checkpoint_missing_file "ckpt" "cp" "cpu"
              (∅ : gmap string (@file Z Z Z nat nat)) (lookup_empty _))
    as [HI HS].
  split; [apply HI|apply HS].
Defined.

Lemma SharedMultiAgent_load_checkpoint_outside_train_witness :
  SharedMultiAgent_load_checkpoint "ckpt" "cp" "cpu"
    ({| s_agent_ids := ["a"; "b"]; s_device := "cpu"; s_mode := "eval";
        s_agent := {| training := true; core := 5%nat |};
        s_replay_buffer := ReplayBuffer_new 3 Toy.blank |},
     <["ckpt/cp/checkpoint.pt" :=
         Pt_file {| ts_step := 9; ts_models := Models_single 7%nat;
                    ts_optims := Optims_single Toy.optims |}]> ∅)
  = (Ret 9,
     ({| s_agent_ids := ["a"; "b"]; s_device := "cpu"; s_mode := "eval";
         s_agent := {| training := true; core := 7%nat |};
         s_replay_buffer := ReplayBuffer_new 3 Toy.blank |},
      <["ckpt/cp/checkpoint.pt" :=
          Pt_file {| ts_step := 9; ts_models := Models_single 7%nat;
                     ts_optims := Optims_single Toy.optims |}]> ∅),
     [Stdout "started loading checkpoint cp";
      Stdout "loading checkpoint cp finished"]).
Proof.
  refine (SharedMultiAgent_load_checkpoint_outside_train
           "ckpt" "cp" "cpu" "cpu" "eval" ["a"; "b"]
           {| training := true; core := 5%nat |}
           (ReplayBuffer_new 3 Toy.blank)
           (<["ckpt/cp/checkpoint.pt" :=
               Pt_file {| ts_step := 9; ts_models := Models_single 7%nat;
                          ts_optims := Optims_single Toy.optims |}]> ∅)
           9 7%nat Toy.optims _ _).
  - discriminate.
  - reflexivity.
Defined.

Lemma IndividualMultiAgent_load_checkpoint_outside_train_witness :
  ∃ ags',
    IndividualMultiAgent_load_checkpoint "ckpt" "cp" "cpu"
      ({| i_agent_ids := ["a"; "b"]; i_device := "cpu"; i_mode := "eval";
          i_replay_buffers := i_replay_buffers (Toy.individual 3);
          i_agents := i_agents (Toy.individual 3) |},
       <["ckpt/cp/checkpoint.pt" :=
           Pt_file {| ts_step := 9;
                      ts_models :=
                        Models_per_agent
                          (<["a" := 7%nat]> (<["b" := 8%nat]> ∅));
                      ts_optims :=
                        Optims_per_agent
                          (<["a" := Toy.optims]>
                             (<["b" := Toy.optims]> ∅)) |}]> ∅)
    = (Ret 9,
       ({| i_agent_ids := ["a"; "b"]; i_device := "cpu"; i_mode := "eval";
           i_replay_buffers := i_replay_buffers (Toy.individual 3);
           i_agents := ags' |},
        <["ckpt/cp/checkpoint.pt" :=
            Pt_file {| ts_step := 9;
                       ts_models :=
                         Models_per_agent
                           (<["a" := 7%nat]> (<["b" := 8%nat]> ∅));
                       ts_optims :=
                         Optims_per_agent
                           (<["a" := Toy.optims]>
                              (<["b" := Toy.optims]> ∅)) |}]> ∅),
       [Stdout "started loading checkpoint cp";
        Stdout "loading checkpoint cp finished"]).
Proof.
  apply (IndividualMultiAgent_load_checkpoint_outside_train
           "ckpt" "cp" "cpu" "cpu" "eval" ["a"; "b"]
           (i_replay_buffers (Toy.individual 3))
           (i_agents (Toy.individual 3))
           (<["ckpt/cp/checkpoint.pt" :=
               Pt_file {| ts_step := 9;
                          ts_models :=
                            Models_per_agent
                              (<["a" := 7%nat]> (<["b" := 8%nat]> ∅));
                          ts_optims :=
                            Optims_per_agent
                              (<["a" := Toy.optims]>
                                 (<["b" := Toy.optims]> ∅)) |}]> ∅)
           9
           (<["a" := 7%nat]> (<["b" := 8%nat]> ∅))
           (<["a" := Toy.optims]> (<["b" := Toy.optims]> ∅))).
  - discriminate.
  - reflexivity.
  - vm_compute. reflexivity.
  - intros a Ha. apply elem_of_cons in Ha as [->|Ha];
      [|apply list_elem_of_singleton in Ha as ->].
    all: split; eexists; reflexivity.
Defined.

Lemma SharedMultiAgent_load_checkpoint_overrun_witness :
  ∃ ag',
    SharedMultiAgent_load_checkpoint "ckpt" "cp" "cpu"
      (Toy.shared 3, Toy.files_shared 2)
    = (Raise (IndexError "index out of bounds for axis 0"),
       ({| s_agent_ids := ["a"; "b"]; s_device := "cpu"; s_mode := "train";
           s_agent := ag';
           s_replay_buffer :=
             foldl replay_row (ReplayBuffer_new 3 Toy.blank) Toy.rows |},
        Toy.files_shared 2),
       [Stdout "started loading checkpoint cp"]).
Proof.
  apply (SharedMultiAgent_load_checkpoint_overrun Toy.rows
           "ckpt" "cp" "cpu" ["a"; "b"] "cpu"
           {| training := true; core := O |}
           (ReplayBuffer_new 3 Toy.blank) (Toy.files_shared 2)
           2 O Toy.optims).
  - reflexivity.
  - reflexivity.
  - simpl. lia.
Defined.

Lemma SharedMultiAgent_checkpoint_roundtrip_witness :
  (∃ ag',
     SharedMultiAgent_load_checkpoint "ckpt" "cp_1" "cpu"
       ({| s_agent_ids := ["a"; "b"]; s_device := "cpu"; s_mode := "train";
           s_agent := {| training := true; core := O |};
           s_replay_buffer := ReplayBuffer_new 3 (λ _, Toy.row 9) |},
        Toy.shared_saved 3 1)
     = (Ret 1,
        ({| s_agent_ids := ["a"; "b"]; s_device := "cpu"; s_mode := "train";
            s_agent := ag';
            s_replay_buffer :=
              add_all (ReplayBuffer_new 3 (λ _, Toy.row 9))
                [(1, 1, 1, 2, PyFloat (0 # 1), PyFloat (0 # 1));
                 (1, 1, 1, 2, PyFloat (0 # 1), PyFloat (0 # 1))] |},
         Toy.shared_saved 3 1),
        [Stdout "started loading checkpoint cp_1";
         Stdout "loading checkpoint cp_1 finished"]))
  ∧ idx (add_all (ReplayBuffer_new 3 (λ _, Toy.row 9))
           [(1, 1, 1, 2, PyFloat (0 # 1), PyFloat (0 # 1));
            (1, 1, 1, 2, PyFloat (0 # 1), PyFloat (0 # 1))])
    = idx (s_replay_buffer (Toy.shared_steps 1 (Toy.shared 3)))
  ∧ ReplayBuffer_row
      (add_all (ReplayBuffer_new 3 (λ _, Toy.row 9))
         [(1, 1, 1, 2, PyFloat (0 # 1), PyFloat (0 # 1));
          (1, 1, 1, 2, PyFloat (0 # 1), PyFloat (0 # 1))]) 1
    = ReplayBuffer_row (s_replay_buffer (Toy.shared_steps 1 (Toy.shared 3))) 1.
Proof.
  destruct (SharedMultiAgent_checkpoint_roundtrip "ckpt" "cpu" "cpu" 1
              ["a"; "b"] 3 Toy.blank (λ _, Toy.row 9)
              [(1, 1, 1, 2, PyFloat (0 # 1), PyFloat (0 # 1));
               (1, 1, 1, 2, PyFloat (0 # 1), PyFloat (0 # 1))]
              (Toy.shared_steps 1 (Toy.shared 3))
              {| training := true; core := O |} ∅)
    as (Hrun & _ & Hidx & _ & Hrows & _).
  - vm_compute. reflexivity.
  - simpl. lia.
  - reflexivity.
  - split; [exact Hrun|]. split; [exact Hidx|].
    apply Hrows. simpl. lia.
Defined.

Lemma IndividualMultiAgent_act_valid_mode_witness :
  ∃ actions self' t,
    IndividualMultiAgent_act (Toy.all 0) true (Some "eval")
      (Toy.individual 3)
    = (Ret actions, self', t)
    ∧ dom actions = list_to_set ["a"; "b"].
Proof.
  destruct (IndividualMultiAgent_act_valid_mode (Toy.all 0) true
              (Some "eval") (Toy.individual 3))
    as (actions & self' & t & Hrun & Hdom & _).
  - right. right. reflexivity.
  - intros a Ha. apply elem_of_cons in Ha as [->|Ha];
      [|apply list_elem_of_singleton in Ha as ->].
    all: split; eexists; reflexivity.
  - exists actions, self', t. split; [exact Hrun|exact Hdom].
Defined.

Lemma SharedMultiAgent_act_eval_or_none_witness :
  ∃ actions self' t,
    SharedMultiAgent_act (Toy.all 0) true (Some "eval") (Toy.shared 3)
    = (Ret actions, self', t)
    ∧ dom actions = list_to_set ["a"; "b"].
Proof.
  destruct (SharedMultiAgent_act_eval_or_none (Toy.all 0) true
              (Some "eval") (Toy.shared 3))
    as (actions & self' & t & Hrun & Hdom & _).
  - right. reflexivity.
  - intros a Ha. apply elem_of_cons in Ha as [->|Ha];
      [|apply list_elem_of_singleton in Ha as ->].
    all: eexists; reflexivity.
  - exists actions, self', t. split; [exact Hrun|exact Hdom].
Defined.

Lemma Workspace_evaluate_zero_episodes_witness :
  Workspace_evaluate 5 Toy.workspace_no_eval
  = (Raise (ZeroDivisionError "division by zero"), Toy.workspace_no_eval, []).
Proof.
  apply Workspace_evaluate_zero_episodes.
  - reflexivity.
  - discriminate.
Defined.

Lemma IndividualMultiAgent_init_builds_all_witness :
  ∃ c : @IndividualMultiAgent Z Z Z nat,
    IndividualMultiAgent_init ["a"; "b"]
      (<["a" := [3]]> (<["b" := [3]]> ∅))
      (<["a" := [1]]> (<["b" := [1]]> ∅))
      (<["a" := tt]> (<["b" := tt]> ∅)) 3 "cpu" "train" (λ _, Toy.blank) tt
    = (Ret c, tt, [])
    ∧ i_agent_ids c = ["a"; "b"]
    ∧ i_replay_buffers c !! "b" = Some (ReplayBuffer_new 3 Toy.blank)
    ∧ i_agents c !! "b" = Some {| training := true; core := O |}
    ∧ i_agents c !! "c" = None.
Proof.
  destruct (IndividualMultiAgent_init_builds_all ["a"; "b"]
              (<["a" := [3]]> (<["b" := [3]]> ∅))
              (<["a" := [1]]> (<["b" := [1]]> ∅))
              (<["a" := tt]> (<["b" := tt]> ∅)) 3 "cpu" "train"
              (λ _, Toy.blank) tt)
    as (c & Hrun & Hids & _ & _ & Hin & Hout).
  - intros a Ha. apply elem_of_cons in Ha as [->|Ha];
      [|apply list_elem_of_singleton in Ha as ->].
    all: repeat split; repeat eexists; reflexivity.
  - exists c. split; [exact Hrun|]. split; [exact Hids|].
    destruct (Hin "b") as [Hb Hag]; [right; by left|].
    split; [exact Hb|]. split.
    + apply (Hag 3 [] 1 [] tt); reflexivity.
    + apply Hout. intros Hc. apply elem_of_cons in Hc as [Hc|Hc];
        [discriminate Hc|].
      apply list_elem_of_singleton in Hc. discriminate Hc.
Defined.

Lemma Workspace_init_unknown_multi_agent_mode_witness :
  Workspace_init (Toy.cfg "central" false) "/home" "2024-01-01" "10-00" O
    (λ _, Toy.blank) Toy.blank ∅
  = (Raise (Exception "no valid multiagent_mode"), ∅,
     [Mkdir "/home/2024-01-01/10-00";
      Stdout "workspace: /home/2024-01-01/10-00"]).
Proof.
  refine (Workspace_init_unknown_multi_agent_mode (Toy.cfg "central" false)
            "/home" "2024-01-01" "10-00" O (λ _, Toy.blank) Toy.blank ∅ _ _);
    discriminate.
Defined.

Lemma Workspace_init_fresh_witness :
  (∃ (ws : @Workspace Z Z Z nat nat) c,
     Workspace_init (Toy.cfg "individual" false) "/home" "2024-01-01" "10-00"
       O (λ _, Toy.blank) Toy.blank ∅
     = (Ret ws, ∅,
        [Mkdir "/home/2024-01-01/10-00";
         Stdout "workspace: /home/2024-01-01/10-00"])
     ∧ ws_multi_agent ws = Individual c ∧ ws_step ws = 0
     ∧ i_replay_buffers c !! "a" = Some (ReplayBuffer_new 3 Toy.blank))
  ∧ (∃ (ws : @Workspace Z Z Z nat nat) c,
       Workspace_init (Toy.cfg "shared" false) "/home" "2024-01-01" "10-00"
         O (λ _, Toy.blank) Toy.blank ∅
       = (Ret ws, ∅,
          [Mkdir "/home/2024-01-01/10-00";
           Stdout "workspace: /home/2024-01-01/10-00"])
       ∧ ws_multi_agent ws = Shared c ∧ ws_step ws = 0
       ∧ s_replay_buffer c = ReplayBuffer_new 6 Toy.blank)
  ∧ @Workspace_init Z Z Z nat nat nat unit Toy.learning nat Toy.no_agents
      (Toy.cfg "shared" false) "/home" "2024-01-01" "10-00"
      O (λ _, Toy.blank) Toy.blank ∅
    = (Raise (IndexError "list index out of range"), ∅,
       [Mkdir "/home/2024-01-01/10-00";
        Stdout "workspace: /home/2024-01-01/10-00"]).
Proof.
  assert (∀ a : string, a ∈ ["a"; "b"] →
            [3] ≠ ([] : list Z) ∧ [1] ≠ ([] : list Z)) as Hshapes
    by (intros; split; discriminate).
  split; [|split].
  - destruct (@Workspace_init_fresh Z Z Z nat nat nat unit nat Toy.learning
                Toy.env (Toy.cfg "individual" false)
                "/home" "2024-01-01" "10-00" O (λ _, Toy.blank) Toy.blank ∅
                eq_refl Hshapes) as (HI & _ & _).
    destruct (HI eq_refl) as (ws & c & Hrun & Hma & Hstep & _ & _ & _ & _ & Hin).
    exists ws, c. split; [exact Hrun|]. split; [exact Hma|].
    split; [exact Hstep|].
    destruct (Hin "a") as (_ & Hb & _); [by left|]. exact Hb.
  - destruct (@Workspace_init_fresh Z Z Z nat nat nat unit nat Toy.learning
                Toy.env (Toy.cfg "shared" false)
                "/home" "2024-01-01" "10-00" O (λ _, Toy.blank) Toy.blank ∅
                eq_refl Hshapes) as (_ & HS & _).
    destruct (HS eq_refl) as (ws & c & Hrun & Hma & Hstep & _ & _ & _ & _ & Hb & _);
      [discriminate|].
    exists ws, c. split; [exact Hrun|]. split; [exact Hma|].
    split; [exact Hstep|exact Hb].
  - destruct (@Workspace_init_fresh Z Z Z nat nat nat unit nat Toy.learning
                Toy.no_agents (Toy.cfg "shared" false)
                "/home" "2024-01-01" "10-00" O (λ _, Toy.blank) Toy.blank ∅
                eq_refl) as (_ & _ & HE).
    + by intros a Ha%elem_of_nil.
    + exact (HE eq_refl eq_refl).
Defined.

Lemma Workspace_train_call_counts_witness :
  ∃ s' fs' t,
    Workspace_train 5 10 (Toy.workspace 0, ∅) = (Ret tt, (s', fs'), t)
    ∧ ws_step s' = 4
    ∧ length (List.filter is_add_call t) = 4%nat
    ∧ length (List.filter is_update_call t) = 3%nat
    ∧ List.filter is_save_call t
      = [Call_save_checkpoint (path_join (ws_work_dir s') "checkpoints") 4].
Proof.
  destruct (Workspace_train 5 10 (Toy.workspace 0, ∅))
    as [[[[]|e|] [s' fs']] t] eqn:Hrun.
  - destruct (Workspace_train_call_counts 5 10 _ _ _ _ _ Hrun)
      as (Hs & Ha & Hu & Hsv).
    exists s', fs', t. split; [reflexivity|].
    split; [exact Hs|]. split; [exact Ha|]. split; [exact Hu|].
    rewrite Hsv, Hs. reflexivity.
  - exfalso. apply (f_equal (λ r, r.1.1)) in Hrun.
    vm_compute in Hrun. discriminate Hrun.
  - exfalso. apply (f_equal (λ r, r.1.1)) in Hrun.
    vm_compute in Hrun. discriminate Hrun.
Defined.



Lemma end_episode_evaluation_period_witness :
  Forall (λ ev, is_evaluation_event ev = false)
    (end_episode 5 Toy.locals (Toy.all 1) (Toy.workspace 1)).2
  ∧ ∃ msg t,
      end_episode 5 Toy.locals (Toy.all 1) Toy.workspace_no_period
      = (Raise (ZeroDivisionError msg), Toy.workspace_no_period, t)
      ∧ Forall (λ ev, is_logger_event ev = true) t.
Proof.
  split.
  - destruct (end_episode_evaluation_period 5 Toy.locals (Toy.all 1)
                (Toy.workspace 1)) as [Hper _].
    apply Hper. right. split; [discriminate|]. vm_compute. discriminate.
  - destruct (end_episode_evaluation_period 5 Toy.locals (Toy.all 1)
                Toy.workspace_no_period) as [_ Hzero].
    apply Hzero.
    + reflexivity.
    + reflexivity.
    + intros a Ha. apply elem_of_cons in Ha as [->|Ha];
        [|apply list_elem_of_singleton in Ha as ->].
      all: split; eexists; reflexivity.
Defined.
